(** * table-stakes: the query-processing pipeline

  A shallow embedding of [lib/openai.ts], [lib/query-processor.ts],
  [lib/result-formatter.ts] and [lib/database/postgresql.ts], and the
  properties of the pipeline stated over it.

  Conventions of the embedding.
  - A JavaScript string is a [string]: the characters are taken to be
    ASCII, and [toLowerCase] lowers the letters A-Z only.
  - An [async] function is a state transformer that either returns a value
    or throws ([Result]); [await] is sequencing.
  - The completion service, the [pg] driver and [JSON.parse] are
    collaborators outside the repository: they are arbitrary functions
    carried by the environment, and every call to them may fail.
  - The wall clock is the time value [now] (milliseconds since the epoch,
    as [new Date()] holds it), within the range on which [TimeClip] is the
    identity. *)

From Stdlib Require Import ZArith List Bool Ascii String DecimalString Lia.
Import ListNotations.

Local Open Scope string_scope.
Local Open Scope Z_scope.

(** ** Strings *)

Module JSString.

Definition nl : string := String (ascii_of_nat 10) EmptyString.

Definition dquote : ascii := ascii_of_nat 34.

(** Source text with double quotes is written here with backquotes;
    [quoted] puts the double quotes back. *)
Fixpoint quoted (s : string) : string :=
  match s with
  | EmptyString => EmptyString
  | String c s' =>
      String (if Ascii.eqb c "`"%char then dquote else c) (quoted s')
  end.

Definition lowerChar (c : ascii) : ascii :=
  let n := nat_of_ascii c in
  if (Nat.leb 65 n && Nat.leb n 90)%bool then ascii_of_nat (n + 32) else c.

(** [String.prototype.toLowerCase] *)
Fixpoint toLowerCase (s : string) : string :=
  match s with
  | EmptyString => EmptyString
  | String c s' => String (lowerChar c) (toLowerCase s')
  end.

(** [String.prototype.includes] *)
Fixpoint includes (s sub : string) : bool :=
  (String.prefix sub s
   || match s with
      | EmptyString => false
      | String _ s' => includes s' sub
      end)%bool.

Definition isSpace (c : ascii) : bool :=
  let n := nat_of_ascii c in
  (Nat.eqb n 32 || (Nat.leb 9 n && Nat.leb n 13))%bool.

Fixpoint trimStart (s : string) : string :=
  match s with
  | EmptyString => EmptyString
  | String c s' => if isSpace c then trimStart s' else s
  end.

Fixpoint trimEnd (s : string) : string :=
  match s with
  | EmptyString => EmptyString
  | String c s' =>
      match trimEnd s' with
      | EmptyString => if isSpace c then EmptyString else String c EmptyString
      | r => String c r
      end
  end.

(** [String.prototype.trim] *)
Definition trim (s : string) : string := trimEnd (trimStart s).

(** [Array.prototype.join] *)
Definition join (sep : string) (l : list string) : string :=
  String.concat sep l.

(** [s.split(c)[0]]: the text before the first occurrence of [c]. *)
Fixpoint beforeChar (c : ascii) (s : string) : string :=
  match s with
  | EmptyString => EmptyString
  | String a s' =>
      if Ascii.eqb a c then EmptyString else String a (beforeChar c s')
  end.

Fixpoint noChar (c : ascii) (s : string) : bool :=
  match s with
  | EmptyString => true
  | String a s' => (negb (Ascii.eqb a c) && noChar c s')%bool
  end.

Definition digitChar (d : Z) : ascii := ascii_of_nat (48 + Z.to_nat d).

(** The [w] low decimal digits of [n], zero padded. *)
Fixpoint padDigits (w : nat) (n : Z) : string :=
  match w with
  | O => EmptyString
  | S w' => padDigits w' (n / 10) ++ String (digitChar (n mod 10)) EmptyString
  end.

End JSString.

Import JSString.

(** ** Dates: the day arithmetic of ECMAScript's [Date] *)

Module JSDate.

Definition msPerDay : Z := 86400000.

Definition Day (t : Z) : Z := t / msPerDay.
Definition TimeWithinDay (t : Z) : Z := t mod msPerDay.

Definition isLeap (y : Z) : bool :=
  if negb (y mod 4 =? 0) then false
  else if negb (y mod 100 =? 0) then true
  else if negb (y mod 400 =? 0) then false
  else true.

Definition DaysInYear (y : Z) : Z := if isLeap y then 366 else 365.

Definition DayFromYear (y : Z) : Z :=
  365 * (y - 1970) + (y - 1969) / 4 - (y - 1901) / 100 + (y - 1601) / 400.

(** The largest [y] with [DayFromYear y <= Day t]: an estimate from the
    mean length of a year, corrected by at most one. *)
Definition YearFromDay (d : Z) : Z :=
  let y0 := 1970 + (400 * d) / 146097 in
  if d <? DayFromYear y0 then y0 - 1
  else if DayFromYear (y0 + 1) <=? d then y0 + 1
  else y0.

Definition YearFromTime (t : Z) : Z := YearFromDay (Day t).

Definition DayWithinYear (t : Z) : Z := Day t - DayFromYear (YearFromTime t).

(** First day of month [m] (0 = January) within a year, [leap] being 0 or 1. *)
Definition monthStart (m leap : Z) : Z :=
  match m with
  | 0 => 0
  | 1 => 31
  | 2 => 59 + leap
  | 3 => 90 + leap
  | 4 => 120 + leap
  | 5 => 151 + leap
  | 6 => 181 + leap
  | 7 => 212 + leap
  | 8 => 243 + leap
  | 9 => 273 + leap
  | 10 => 304 + leap
  | _ => 334 + leap
  end.

Definition leapDays (y : Z) : Z := if isLeap y then 1 else 0.

Definition monthOfDay (d leap : Z) : Z :=
  if d <? 31 then 0
  else if d <? 59 + leap then 1
  else if d <? 90 + leap then 2
  else if d <? 120 + leap then 3
  else if d <? 151 + leap then 4
  else if d <? 181 + leap then 5
  else if d <? 212 + leap then 6
  else if d <? 243 + leap then 7
  else if d <? 273 + leap then 8
  else if d <? 304 + leap then 9
  else if d <? 334 + leap then 10
  else 11.

Definition MonthFromTime (t : Z) : Z :=
  monthOfDay (DayWithinYear t) (leapDays (YearFromTime t)).

Definition DateFromTime (t : Z) : Z :=
  DayWithinYear t
  - monthStart (MonthFromTime t) (leapDays (YearFromTime t)) + 1.

(** [MakeDay]: months outside 0..11 carry into the year, and a day of the
    month outside the month carries into the neighbouring months. *)
Definition MakeDay (year month date : Z) : Z :=
  let ym := year + month / 12 in
  let mn := month mod 12 in
  DayFromYear ym + monthStart mn (leapDays ym) + date - 1.

Definition MakeDate (day time : Z) : Z := day * msPerDay + time.

(** The local time zone: [LocalTZA(t, true)] and [LocalTZA(t, false)]. *)
Record TimeZone := {
  offsetAtUTC : Z -> Z;
  offsetAtLocal : Z -> Z
}.

Definition fixedZone (off : Z) : TimeZone :=
  {| offsetAtUTC := fun _ => off; offsetAtLocal := fun _ => off |}.

Definition LocalTime (tz : TimeZone) (t : Z) : Z := t + offsetAtUTC tz t.
Definition UTC (tz : TimeZone) (t : Z) : Z := t - offsetAtLocal tz t.

Definition getDate (tz : TimeZone) (t : Z) : Z := DateFromTime (LocalTime tz t).
Definition getMonth (tz : TimeZone) (t : Z) : Z := MonthFromTime (LocalTime tz t).

(** [Date.prototype.setDate], as the new time value *)
Definition setDate (tz : TimeZone) (t dt : Z) : Z :=
  let l := LocalTime tz t in
  UTC tz (MakeDate (MakeDay (YearFromTime l) (MonthFromTime l) dt)
                   (TimeWithinDay l)).

(** [Date.prototype.setMonth] *)
Definition setMonth (tz : TimeZone) (t m : Z) : Z :=
  let l := LocalTime tz t in
  UTC tz (MakeDate (MakeDay (YearFromTime l) m (DateFromTime l))
                   (TimeWithinDay l)).

Definition isoYear (y : Z) : string :=
  if (0 <=? y) && (y <=? 9999) then padDigits 4 y
  else (if y <? 0 then "-" else "+") ++ padDigits 6 (Z.abs y).

(** The date part of [toISOString]: the UTC calendar date of [t]. *)
Definition isoDate (t : Z) : string :=
  isoYear (YearFromTime t) ++ "-" ++ padDigits 2 (MonthFromTime t + 1)
    ++ "-" ++ padDigits 2 (DateFromTime t).

Definition isoTime (t : Z) : string :=
  let ms := TimeWithinDay t in
  padDigits 2 (ms / 3600000) ++ ":" ++ padDigits 2 ((ms / 60000) mod 60)
    ++ ":" ++ padDigits 2 ((ms / 1000) mod 60) ++ "."
    ++ padDigits 3 (ms mod 1000).

(** [Date.prototype.toISOString] *)
Definition toISOString (t : Z) : string :=
  isoDate t ++ "T" ++ isoTime t ++ "Z".

(** [d.toISOString().split('T')[0]] *)
Definition formatDate (t : Z) : string :=
  beforeChar "T"%char (toISOString t).

(** Days between a date in month [m] and the same day of the month [n]
    months before, [l] and [lp] telling whether the year and the year
    before are leap years. *)
Definition monthBack (m n l lp : Z) : Z :=
  if n <=? m then monthStart m l - monthStart (m - n) l
  else 365 + lp + monthStart m l - monthStart (m - n + 12) lp.

End JSDate.

Import JSDate.


(** ** JavaScript values and control *)

Module JSValue.

(** A value of type [any]: what [JSON.parse] returns and what a result row
    holds.  Of a number only its being zero is ever looked at. *)
#[warnings="-register-all"]
Inductive JS : Type :=
| JUndefined
| JNull
| JBool (b : bool)
| JNum (n : Z)
| JStr (s : string)
| JArr (items : list JS)
| JObj (fields : list (string * JS)).

(** [Record<string, any>] *)
Definition Row : Type := list (string * JS).

Definition JRows (rows : list Row) : JS := JArr (map JObj rows).

Definition truthy (v : JS) : bool :=
  match v with
  | JUndefined | JNull => false
  | JBool b => b
  | JNum n => negb (n =? 0)
  | JStr s => negb (String.eqb s "")
  | JArr _ | JObj _ => true
  end.

(** [a || b] *)
Definition orElse (a b : JS) : JS := if truthy a then a else b.

Fixpoint field (k : string) (fields : list (string * JS)) : JS :=
  match fields with
  | [] => JUndefined
  | (k', v) :: rest => if String.eqb k' k then v else field k rest
  end.

Fixpoint hasKey (k : string) (fields : list (string * JS)) : bool :=
  match fields with
  | [] => false
  | (k', _) :: rest => (String.eqb k' k || hasKey k rest)%bool
  end.

(** [v.k] for the property names read in this code base, none of which is a
    built-in property of a primitive or an array; [None] is the [TypeError]
    of reading a property of [null] or [undefined]. *)
Definition getProp (v : JS) (k : string) : option JS :=
  match v with
  | JUndefined | JNull => None
  | JObj fields => Some (field k fields)
  | _ => Some JUndefined
  end.

(** A string or [undefined], as an indexed read of a string array gives. *)
Definition ofOption (o : option string) : JS :=
  match o with
  | Some s => JStr s
  | None => JUndefined
  end.

(** Interpolation [`${v}`] of a string or [undefined]. *)
Definition interpolate (o : option string) : string :=
  match o with
  | Some s => s
  | None => "undefined"
  end.

(** What a [throw] carries: an [Error] object with its [name] and [message],
    or some other value, given by its [String(...)] rendering. *)
Inductive Thrown : Type :=
| ErrorObject (name message : string)
| NonError (text : string).

(** [error instanceof Error ? error.message : String(error)] *)
Definition messageOf (e : Thrown) : string :=
  match e with
  | ErrorObject _ m => m
  | NonError s => s
  end.

(** [String(error)], by [Error.prototype.toString] *)
Definition StringOf (e : Thrown) : string :=
  match e with
  | ErrorObject n m =>
      if String.eqb n "" then m
      else if String.eqb m "" then n
      else n ++ ": " ++ m
  | NonError s => s
  end.

Definition newError (m : string) : Thrown := ErrorObject "Error" m.

(** How a call ends. *)
Inductive Result (A : Type) : Type :=
| Returned (a : A)
| Threw (e : Thrown).

Arguments Returned {A} a.
Arguments Threw {A} e.

(** A computation over a state [S]: an [async] function and the
    collaborators it talks to. *)
Definition M (S A : Type) : Type := S -> Result A * S.

Definition ret {S A} (a : A) : M S A := fun s => (Returned a, s).

Definition throw {S A} (e : Thrown) : M S A := fun s => (Threw e, s).

Definition bind {S A B} (m : M S A) (k : A -> M S B) : M S B :=
  fun s =>
    match m s with
    | (Returned a, s') => k a s'
    | (Threw e, s') => (Threw e, s')
    end.

(** [try { m } catch (error) { h error }] *)
Definition tryCatch {S A} (m : M S A) (h : Thrown -> M S A) : M S A :=
  fun s =>
    match m s with
    | (Returned a, s') => (Returned a, s')
    | (Threw e, s') => h e s'
    end.

(** [try { m } finally { f }]: a [throw] of [f] replaces the outcome of [m]. *)
Definition tryFinally {S A} (m : M S A) (f : M S unit) : M S A :=
  fun s =>
    match m s with
    | (r, s') =>
        match f s' with
        | (Returned _, s'') => (r, s'')
        | (Threw e, s'') => (Threw e, s'')
        end
    end.

End JSValue.

Import JSValue.

Declare Scope js_scope.
Notation "x <- m ;; k" := (bind m (fun x => k))
  (at level 61, m at next level, right associativity) : js_scope.
Notation "m ;;; k" := (bind m (fun _ => k))
  (at level 61, right associativity) : js_scope.
Local Open Scope js_scope.

(** ** [lib/database/interface.ts]: schema and result types *)

Module Interface.

Record ColumnSchema := { col_name : string; dataType : string }.

Record TableSchema := { tbl_name : string; tbl_columns : list ColumnSchema }.

Record DatabaseSchema := { tables : list TableSchema }.

Record QueryResult := { columns : list string; rows : list Row }.

Definition DatabaseError (m : string) : Thrown := ErrorObject "DatabaseError" m.

Definition QueryError (m : string) : Thrown := ErrorObject "QueryError" m.

End Interface.

Import Interface.

(** ** [lib/result-formatter.ts] *)

Module ResultFormatter.

Record TableResult := { tr_columns : list string; tr_rows : list Row }.

(** [GraphResult].  A field the object literal leaves out reads as
    [undefined], and is [JUndefined] or [None] here. *)
Record GraphResult := {
  chartType : JS;
  title : JS;
  subtitle : JS;
  xAxis : JS;
  yAxis : JS;
  xAxisKey : JS;
  labels : option (list string);
  values : option (list Z);
  series : JS;
  processedData : JS;
  rawData : option (list Row);
  insights : JS;
  recommendedFilters : JS
}.

(** A [SeriesConfig] object literal without [type]. *)
Definition seriesConfig (dataKey name : JS) (color : string) : JS :=
  JObj [("dataKey", dataKey); ("name", name); ("color", JStr color)].

Definition formatForTable (queryResult : QueryResult) : TableResult :=
  {| tr_columns := columns queryResult; tr_rows := rows queryResult |}.

End ResultFormatter.

Import ResultFormatter.

(** ** [lib/openai.ts] *)

Module OpenAI.

(** A request to [openai.chat.completions.create], by the values the code
    puts into its prompt template; model, system message, temperature and
    token limit are constants of each call site. *)
Inductive CompletionRequest : Type :=
| SqlPrompt (schemaInfo formattedCurrentDate query : string)
| VisualizationPrompt (query : string) (rowCount : nat)
    (columnList : string) (sampled : bool) (formattedData : list Row).

(** What the service answers: the call rejects, or resolves with
    [choices[0].message.content], which may be [null]. *)
Inductive CompletionOutcome : Type :=
| Rejects (e : Thrown)
| Content (content : option string).

(** What the code reads from outside. *)
Record Env := {
  now : Z;
  zone : TimeZone;
  (** the completion service, given how many calls came before *)
  completions : nat -> CompletionRequest -> CompletionOutcome;
  (** [JSON.parse]; [None] is its [SyntaxError] *)
  JSON_parse : string -> option JS
}.

(** The calls made to the completion service, oldest first. *)
Definition Calls : Type := list CompletionRequest.

Definition create (env : Env) (req : CompletionRequest)
  : M Calls (option string) :=
  fun calls =>
    match completions env (List.length calls) req with
    | Rejects e => (Threw e, (calls ++ [req])%list)
    | Content c => (Returned c, (calls ++ [req])%list)
    end.

Definition enrollmentTemplate (startDate formattedToday isActive : string)
  : string :=
  nl ++ "    SELECT * FROM enrollments " ++ nl
     ++ "    WHERE enrollment_date >= '" ++ startDate ++ "' " ++ nl
     ++ "    AND enrollment_date <= '" ++ formattedToday ++ "'" ++ nl
     ++ "    " ++ isActive ++ nl
     ++ "    ORDER BY enrollment_date DESC" ++ nl
     ++ "  ".

Definition lastWeek (env : Env) : Z :=
  setDate (zone env) (now env) (getDate (zone env) (now env) - 7).

Definition lastMonth (env : Env) : Z :=
  setMonth (zone env) (now env) (getMonth (zone env) (now env) - 1).

Definition lastQuarter (env : Env) : Z :=
  setMonth (zone env) (now env) (getMonth (zone env) (now env) - 3).

Definition handleEnrollmentQuery (env : Env) (query : string) : string :=
  let today := now env in
  let formattedLastWeek := formatDate (lastWeek env) in
  let formattedLastMonth := formatDate (lastMonth env) in
  let formattedLastQuarter := formatDate (lastQuarter env) in
  let formattedToday := formatDate today in
  let startDate :=
    if includes (toLowerCase query) "month" then formattedLastMonth
    else if includes (toLowerCase query) "quarter" then formattedLastQuarter
    else formattedLastWeek in
  let isActive :=
    if includes (toLowerCase query) "active" then "AND status = 'active'"
    else "" in
  trim (enrollmentTemplate startDate formattedToday isActive).

Definition graphKeywords : list string :=
  [ "trend"; "over time"; "chart"; "graph"; "plot"; "visualization";
    "compare"; "comparison"; "week by week"; "month by month";
    "distribution"; "histogram"; "pie chart"; "bar chart" ].

Inductive ResultType : Type := table | graph.

(** The [for] loop with its early [return]. *)
Fixpoint firstMatch (queryLower : string) (keywords : list string)
  : ResultType :=
  match keywords with
  | [] => table
  | keyword :: rest =>
      if includes queryLower keyword then graph
      else firstMatch queryLower rest
  end.

Definition determineResultType (query : string) : ResultType :=
  let queryLower := toLowerCase query in
  firstMatch queryLower graphKeywords.

Definition formatSchemaForPrompt (schema : DatabaseSchema) : string :=
  join (nl ++ nl)
    (map (fun table =>
            let cols :=
              join ", " (map (fun col => col_name col ++ " (" ++ dataType col ++ ")")
                             (tbl_columns table)) in
            "Table: " ++ tbl_name table ++ nl ++ "Columns: " ++ cols)
         (tables schema)).

(** [s] without the suffix [suf], when it ends with it. *)
Fixpoint stripSuffix (suf s : string) : option string :=
  if String.eqb s suf then Some EmptyString
  else match s with
       | EmptyString => None
       | String c s' => option_map (String c) (stripSuffix suf s')
       end.

(** [sql.replace(/^```sql\s*/i, "")] *)
Definition stripFenceStart (sql : string) : string :=
  if String.eqb (toLowerCase (substring 0 6 sql)) "```sql"
  then trimStart (substring 6 (String.length sql - 6) sql)
  else sql.

(** [sql.replace(/\s*```$/i, "")] *)
Definition stripFenceEnd (sql : string) : string :=
  match stripSuffix "```" sql with
  | Some body => trimEnd body
  | None => sql
  end.

Definition isEnrollmentTimeQuery (query : string) : bool :=
  (includes (toLowerCase query) "enrollment"
   && (includes (toLowerCase query) "week"
       || includes (toLowerCase query) "month"
       || includes (toLowerCase query) "quarter"))%bool.

Definition generateSQLFromNaturalLanguage (env : Env) (query : string)
    (schema : DatabaseSchema) : M Calls string :=
  let schemaInfo := formatSchemaForPrompt schema in
  if isEnrollmentTimeQuery query then ret (handleEnrollmentQuery env query)
  else
    let formattedCurrentDate := formatDate (now env) in
    let prompt := SqlPrompt schemaInfo formattedCurrentDate query in
    tryCatch
      (content <- create env prompt ;;
       let sql := match content with
                  | Some c => trim c
                  | None => ""
                  end in
       let sql := stripFenceEnd (stripFenceStart sql) in
       ret sql)
      (fun error =>
         throw (newError ("OpenAI API error: " ++ messageOf error))).

Definition isDateColumn (col : string) : bool :=
  (includes (toLowerCase col) "date"
   || includes (toLowerCase col) "time"
   || includes (toLowerCase col) "month"
   || includes (toLowerCase col) "year")%bool.

Definition fallbackVisualization (queryResult : QueryResult) : GraphResult :=
  let columns := columns queryResult in
  let rows := rows queryResult in
  let chartType := "bar" in
  let xAxisKey :=
    match nth_error columns 0 with
    | Some c => if String.eqb c "" then "category" else c
    | None => "category"
    end in
  let dataField :=
    if Nat.ltb 1 (List.length columns) then nth_error columns 1
    else nth_error columns 0 in
  let potentialDateColumns := filter isDateColumn columns in
  let '(chartType, xAxisKey) :=
    match potentialDateColumns with
    | first :: _ => ("line", first)
    | [] => (chartType, xAxisKey)
    end in
  let series :=
    JArr [seriesConfig (ofOption dataField) (ofOption dataField) "#8884d8"] in
  {| chartType := JStr chartType;
     title := JStr (interpolate dataField ++ " by " ++ xAxisKey);
     subtitle := JUndefined;
     xAxis := JStr xAxisKey;
     yAxis := ofOption dataField;
     xAxisKey := JStr xAxisKey;
     labels := None;
     values := None;
     series := series;
     processedData := JRows rows;
     rawData := Some rows;
     insights := JUndefined;
     recommendedFilters := JUndefined |}.

Definition noDataAvailable : GraphResult :=
  {| chartType := JStr "none";
     title := JStr "No Data Available";
     subtitle := JUndefined;
     xAxis := JStr "Category";
     yAxis := JStr "Value";
     xAxisKey := JUndefined;
     labels := Some [];
     values := Some [];
     series := JUndefined;
     processedData := JUndefined;
     rawData := Some [];
     insights := JUndefined;
     recommendedFilters := JUndefined |}.

(** The mapping of a parsed specification to a [GraphResult]; [None] is a
    [TypeError] thrown while reading it, [Some None] the rejection of a
    specification without [chartType] or [data]. *)
Definition mapVisualizationSpec (visualizationSpec : JS) (rows : list Row)
  : option (option GraphResult) :=
  match getProp visualizationSpec "chartType" with
  | None => None
  | Some _ =>
      let get k := match getProp visualizationSpec k with
                   | Some v => v
                   | None => JUndefined
                   end in
      if (negb (truthy (get "chartType")) || negb (truthy (get "data")))%bool
      then Some None
      else Some (Some
        {| chartType := get "chartType";
           title := orElse (get "title") (JStr "Data Visualization");
           subtitle := get "subtitle";
           xAxis := orElse (get "xAxisLabel") (JStr "");
           yAxis := orElse (get "yAxisLabel") (JStr "");
           xAxisKey := get "xAxisKey";
           labels := None;
           values := None;
           series := orElse (get "series") (JArr []);
           processedData := get "data";
           rawData := Some rows;
           insights := get "insights";
           recommendedFilters := orElse (get "recommendedFilters") (JArr []) |})
  end.

Definition generateVisualizationFromData (env : Env) (query : string)
    (queryResult : QueryResult) : M Calls GraphResult :=
  let columns := columns queryResult in
  let rows := rows queryResult in
  if Nat.eqb (List.length rows) 0 then ret noDataAvailable
  else
    let sampled := Nat.ltb 50 (List.length rows) in
    let formattedData := if sampled then firstn 20 rows else rows in
    let prompt :=
      VisualizationPrompt query (List.length rows) (join ", " columns)
                          sampled formattedData in
    tryCatch
      (content <- create env prompt ;;
       match content with
       | None => ret (fallbackVisualization queryResult)
       | Some c =>
           if String.eqb c "" then ret (fallbackVisualization queryResult)
           else
             match JSON_parse env c with
             | None => ret (fallbackVisualization queryResult)
             | Some visualizationSpec =>
                 match mapVisualizationSpec visualizationSpec rows with
                 | Some (Some result) => ret result
                 | Some None => ret (fallbackVisualization queryResult)
                 | None => ret (fallbackVisualization queryResult)
                 end
             end
       end)
      (fun error => ret (fallbackVisualization queryResult)).

End OpenAI.

Import OpenAI.

(** ** [lib/database/interface.ts]: the connector interface *)

Module Connector.

(** [DatabaseConnector]: an implementation is a type of connector states
    with the five methods. *)
Class DatabaseConnector (C : Type) := {
  connect : M C unit;
  disconnect : M C unit;
  getSchema : M C DatabaseSchema;
  executeQuery : string -> M C QueryResult;
  isConnected : C -> bool
}.

End Connector.

Import Connector.

(** ** [lib/database/postgresql.ts] *)

Module PostgreSQL.

(** What [client.query] resolves with. *)
Record PgResult := {
  pg_rows : option (list Row);
  pg_fields : list string;
  pg_rowCount : JS
}.

(** The [pg] driver: pools of type [P] handing out clients of type [K].
    Each operation may fail and may change the pool. *)
Class Pg (P K : Type) := {
  Pool : string -> P;
  pool_connect : M P K;
  pool_end : M P unit;
  client_query : K -> string -> list JS -> M P PgResult;
  client_release : K -> M P unit
}.

(** [String(v)] of a value *)
Fixpoint asText (v : JS) : string :=
  match v with
  | JUndefined => "undefined"
  | JNull => "null"
  | JBool true => "true"
  | JBool false => "false"
  | JNum n => DecimalString.NilEmpty.string_of_int (Z.to_int n)
  | JStr s => s
  | JArr items =>
      join "," (map (fun x => match x with
                              | JUndefined | JNull => ""
                              | _ => asText x
                              end) items)
  | JObj _ => "[object Object]"
  end.

Section WithDriver.

Context {P K : Type} `{Pg P K}.

Record PostgreSQLConnector := {
  pool : P;
  client : option K
}.

Definition withPool {A} (c : PostgreSQLConnector) (m : M P A)
  : Result A * PostgreSQLConnector :=
  match m (pool c) with
  | (r, p) => (r, {| pool := p; client := client c |})
  end.

Definition new (connectionString : string) : PostgreSQLConnector :=
  {| pool := Pool connectionString; client := None |}.

Definition pg_connect : M PostgreSQLConnector unit :=
  fun c =>
    match pool_connect (pool c) with
    | (Returned k, p) => (Returned tt, {| pool := p; client := Some k |})
    | (Threw error, p) =>
        (Threw (DatabaseError ("Failed to connect to PostgreSQL: "
                               ++ messageOf error)),
         {| pool := p; client := client c |})
    end.

Definition pg_disconnect : M PostgreSQLConnector unit :=
  fun c =>
    match client c with
    | Some k =>
        match client_release k (pool c) with
        | (Returned _, p) =>
            withPool {| pool := p; client := None |} pool_end
        | (Threw e, p) => (Threw e, {| pool := p; client := Some k |})
        end
    | None => withPool c pool_end
    end.

Definition pg_isConnected (c : PostgreSQLConnector) : bool :=
  match client c with
  | Some _ => true
  | None => false
  end.

(** [if (!this.client) await this.connect()] *)
Definition autoConnect : M PostgreSQLConnector unit :=
  fun c => if pg_isConnected c then (Returned tt, c) else pg_connect c.

(** [this.client!.query(sql, params)]; on a connector without client the
    call is a [TypeError]. *)
Definition clientQuery (sql : string) (params : list JS)
  : M PostgreSQLConnector PgResult :=
  fun c =>
    match client c with
    | Some k => withPool c (client_query k sql params)
    | None =>
        (Threw (ErrorObject "TypeError"
                  "Cannot read properties of null (reading 'query')"), c)
    end.

Definition tablesQuery : string :=
  nl ++ "        SELECT table_name " ++ nl
     ++ "        FROM information_schema.tables " ++ nl
     ++ "        WHERE table_schema = 'public'" ++ nl
     ++ "      ".

Definition columnsQuery : string :=
  nl ++ "          SELECT column_name, data_type" ++ nl
     ++ "          FROM information_schema.columns" ++ nl
     ++ "          WHERE table_schema = 'public' AND table_name = $1" ++ nl
     ++ "        ".

(** The [TypeError] of walking over [rows] when the result has none. *)
Definition notIterable : Thrown :=
  ErrorObject "TypeError" "rows is not iterable".

(** The body of the [for] loop over the table rows. *)
Definition readTable (tableRow : Row) : M PostgreSQLConnector TableSchema :=
  let tableName := field "table_name" tableRow in
  columnsResult <- clientQuery columnsQuery [tableName] ;;
  match pg_rows columnsResult with
  | None => throw notIterable
  | Some rows =>
      let columns :=
        map (fun row => {| col_name := asText (field "column_name" row);
                           dataType := asText (field "data_type" row) |})
            rows in
      ret {| tbl_name := asText tableName; tbl_columns := columns |}
  end.

Fixpoint readTables (tableRows : list Row)
  : M PostgreSQLConnector (list TableSchema) :=
  match tableRows with
  | [] => ret []
  | tableRow :: rest =>
      t <- readTable tableRow ;;
      ts <- readTables rest ;;
      ret (t :: ts)
  end.

Definition pg_getSchema : M PostgreSQLConnector DatabaseSchema :=
  autoConnect ;;;
  tryCatch
    (tablesResult <- clientQuery tablesQuery [] ;;
     match pg_rows tablesResult with
     | None => throw notIterable
     | Some tableRows =>
         tables <- readTables tableRows ;;
         ret {| tables := tables |}
     end)
    (fun error =>
       throw (DatabaseError ("Failed to get schema: " ++ messageOf error))).

Definition pg_executeQuery (sql : string) : M PostgreSQLConnector QueryResult :=
  autoConnect ;;;
  tryCatch
    (result <- clientQuery sql [] ;;
     match pg_rows result with
     | Some rows => ret {| columns := pg_fields result; rows := rows |}
     | None =>
         ret {| columns := [];
                rows := [[("affectedRows", pg_rowCount result)]] |}
     end)
    (fun error =>
       throw (QueryError ("Query execution failed: " ++ messageOf error))).

#[export] Instance PostgreSQL_DatabaseConnector
  : DatabaseConnector PostgreSQLConnector := {
  connect := pg_connect;
  disconnect := pg_disconnect;
  getSchema := pg_getSchema;
  executeQuery := pg_executeQuery;
  isConnected := pg_isConnected
}.

(** [lib/database/factory.ts], from the two environment variables *)
Definition createDatabaseConnector (DATABASE_TYPE DATABASE_URL : option string)
  : Result PostgreSQLConnector :=
  let databaseType :=
    match DATABASE_TYPE with
    | Some t => if String.eqb t "" then "postgresql" else t
    | None => "postgresql"
    end in
  match DATABASE_URL with
  | None => Threw (newError "DATABASE_URL environment variable is required")
  | Some connectionString =>
      if String.eqb connectionString ""
      then Threw (newError "DATABASE_URL environment variable is required")
      else if String.eqb (toLowerCase databaseType) "postgresql"
      then Returned (new connectionString)
      else Threw (newError ("Unsupported database type: " ++ databaseType))
  end.

End WithDriver.

Arguments PostgreSQLConnector P K : clear implicits.

End PostgreSQL.

Import PostgreSQL.

(** ** [lib/query-processor.ts] *)

Module QueryProcessor.

Record QueryRequest := { query : string; dataSource : option string }.

Record Debug := { executedQuery : string; rowCount : nat }.

(** The [data] of a response: a table, a chart, or the empty object. *)
Inductive ResponseData : Type :=
| TableData (t : TableResult)
| GraphData (g : GraphResult)
| EmptyData.

Record QueryResponse := {
  resultType : ResultType;
  data : ResponseData;
  sql : option string;
  message : option string;
  debug : option Debug
}.

(** The method calls a request makes on its connector, for stating how
    often a method is invoked. *)
Inductive DbCall : Type :=
| CallConnect
| CallGetSchema
| CallExecuteQuery (sql : string)
| CallIsConnected
| CallDisconnect.

Definition isDisconnect (c : DbCall) : bool :=
  match c with
  | CallDisconnect => true
  | _ => false
  end.

Definition disconnects (l : list DbCall) : nat :=
  List.length (filter isDisconnect l).

(** The sanitized message of the [catch] block, from [String(error)]. *)
Definition sanitize (error : Thrown) : string :=
  let errorStr := toLowerCase (StringOf error) in
  if includes errorStr "syntax error" then "SQL syntax error"
  else if (includes errorStr "permission denied"
           || includes errorStr "authentication failed")%bool
  then "Database access error"
  else if includes errorStr "timeout" then "Database query timeout"
  else if (includes errorStr "relation"
           && includes errorStr "does not exist")%bool
  then "Requested table does not exist"
  else if (includes errorStr "column"
           && includes errorStr "does not exist")%bool
  then "Requested column does not exist"
  else "Database query failed".

Definition errorResponse (errorMessage : string) : QueryResponse :=
  {| resultType := table;
     data := EmptyData;
     sql := None;
     message := Some errorMessage;
     debug := Some {| executedQuery := "Error executing query";
                      rowCount := 0 |} |}.

Section WithConnector.

Context {C : Type} `{DatabaseConnector C}.

(** What a request works on: its connector, the completion service's call
    log, and the log of connector calls. *)
Record World := {
  db : C;
  calls : Calls;
  dbCalls : list DbCall
}.

(** A connector method, invoked and logged. *)
Definition onDb {A} (what : DbCall) (m : M C A) : M World A :=
  fun w =>
    match m (db w) with
    | (r, c) =>
        (r, {| db := c; calls := calls w;
               dbCalls := (dbCalls w ++ [what])%list |})
    end.

(** A function of [lib/openai.ts], called. *)
Definition onOpenAI {A} (m : M Calls A) : M World A :=
  fun w =>
    match m (calls w) with
    | (r, l) => (r, {| db := db w; calls := l; dbCalls := dbCalls w |})
    end.

Definition checkConnected : M World bool :=
  fun w =>
    (Returned (isConnected (db w)),
     {| db := db w; calls := calls w;
        dbCalls := (dbCalls w ++ [CallIsConnected])%list |}).

(** The [try] block. *)
Definition pipeline (env : Env) (query : string) : M World QueryResponse :=
  onDb CallConnect connect ;;;
  schema <- onDb CallGetSchema getSchema ;;
  let resultType := determineResultType query in
  sql <- onOpenAI (generateSQLFromNaturalLanguage env query schema) ;;
  queryResult <- onDb (CallExecuteQuery sql) (executeQuery sql) ;;
  formattedResult <-
    match resultType with
    | graph =>
        g <- onOpenAI (generateVisualizationFromData env query queryResult) ;;
        ret (GraphData g)
    | table => ret (TableData (formatForTable queryResult))
    end ;;
  ret {| resultType := resultType;
         data := formattedResult;
         sql := Some sql;
         message := None;
         debug := Some {| executedQuery := sql;
                          rowCount := List.length (rows queryResult) |} |}.

(** The [catch] block. *)
Definition recover (error : Thrown) : M World QueryResponse :=
  let errorMessage := sanitize error in
  ret (errorResponse errorMessage).

(** The [finally] block. *)
Definition release : M World unit :=
  connected <- checkConnected ;;
  if connected then onDb CallDisconnect disconnect else ret tt.

(** [processQuery], on the connector [createDatabaseConnector] returned. *)
Definition processQuery (env : Env) (request : QueryRequest)
  : M World QueryResponse :=
  let query := query request in
  tryFinally (tryCatch (pipeline env query) recover) release.

End WithConnector.

Arguments World C : clear implicits.

End QueryProcessor.

Import QueryProcessor.

(** ** Notions the properties are stated with *)

Module Spec.

(** The shape of the SQL of the enrollment override. *)
Definition enrollmentSQL (startDate today : string) (active : bool) : string :=
  "SELECT * FROM enrollments " ++ nl
    ++ "    WHERE enrollment_date >= '" ++ startDate ++ "' " ++ nl
    ++ "    AND enrollment_date <= '" ++ today ++ "'" ++ nl
    ++ "    " ++ (if active then "AND status = 'active'" else "") ++ nl
    ++ "    ORDER BY enrollment_date DESC".

(** The messages a failed request can carry. *)
Definition safeMessages : list string :=
  [ "SQL syntax error"; "Database access error"; "Database query timeout";
    "Requested table does not exist"; "Requested column does not exist";
    "Database query failed" ].

Definition elements (v : JS) : list JS :=
  match v with
  | JArr l => l
  | _ => []
  end.

Definition keyOfAll (k : string) (records : list JS) : bool :=
  forallb (fun d => match d with
                    | JObj fields => hasKey k fields
                    | _ => false
                    end) records.

(** Every series of [g] names, by its [dataKey], a key of every element of
    [processedData]. *)
Definition seriesKeysPresent (g : GraphResult) : bool :=
  forallb (fun s => match getProp s "dataKey" with
                    | Some (JStr k) => keyOfAll k (elements (processedData g))
                    | _ => false
                    end)
          (elements (series g)).

(** A result as a [SELECT] gives it: every row has every column. *)
Definition rowsCarryColumns (qr : QueryResult) : Prop :=
  forall row c, In row (rows qr) -> In c (columns qr) -> hasKey c row = true.

(** The value column the fallback heuristic plots. *)
Definition valueColumn (cols : list string) : option string :=
  match cols with
  | _ :: c1 :: _ => Some c1
  | [c0] => Some c0
  | [] => None
  end.

(** The category column it uses when no column looks like a date. *)
Definition categoryColumn (cols : list string) : string :=
  match cols with
  | c0 :: _ => if String.eqb c0 "" then "category" else c0
  | [] => "category"
  end.

(** A component called by [processQuery] fails with [e], leaving the world
    [w']: the connection, the schema introspection, the SQL generation or
    the SQL execution. *)
Inductive StageFails {C : Type} `{DatabaseConnector C}
    (env : Env) (q : string) (w : World C) (e : Thrown) : World C -> Prop :=
| ConnectionFails c1 :
    connect (db w) = (Threw e, c1) ->
    StageFails env q w e
      {| db := c1; calls := calls w;
         dbCalls := (dbCalls w ++ [CallConnect])%list |}
| SchemaFails u c1 c2 :
    connect (db w) = (Returned u, c1) ->
    getSchema c1 = (Threw e, c2) ->
    StageFails env q w e
      {| db := c2; calls := calls w;
         dbCalls := ((dbCalls w ++ [CallConnect]) ++ [CallGetSchema])%list |}
| GenerationFails u c1 schema c2 l :
    connect (db w) = (Returned u, c1) ->
    getSchema c1 = (Returned schema, c2) ->
    generateSQLFromNaturalLanguage env q schema (calls w) = (Threw e, l) ->
    StageFails env q w e
      {| db := c2; calls := l;
         dbCalls := ((dbCalls w ++ [CallConnect]) ++ [CallGetSchema])%list |}
| ExecutionFails u c1 schema c2 text l c3 :
    connect (db w) = (Returned u, c1) ->
    getSchema c1 = (Returned schema, c2) ->
    generateSQLFromNaturalLanguage env q schema (calls w) = (Returned text, l) ->
    executeQuery text c2 = (Threw e, c3) ->
    StageFails env q w e
      {| db := c3; calls := l;
         dbCalls := (((dbCalls w ++ [CallConnect]) ++ [CallGetSchema])
                     ++ [CallExecuteQuery text])%list |}.

(** A [pg] pool for examples, in the manner of the mocks of the connector's
    tests: [connect] and [query] end as scripted, and a second [end]
    rejects, as the pool of node-postgres does. *)
Record ScriptedPool := {
  connectOutcome : option Thrown;
  queryOutcome : string -> Result PgResult;
  ending : bool
}.

#[export] Instance ScriptedPool_Pg : Pg ScriptedPool unit := {
  Pool := fun _ =>
    {| connectOutcome := None;
       queryOutcome := fun _ =>
         Returned {| pg_rows := Some []; pg_fields := [];
                     pg_rowCount := JNum 0 |};
       ending := false |};
  pool_connect := fun p =>
    match connectOutcome p with
    | Some e => (Threw e, p)
    | None => (Returned tt, p)
    end;
  pool_end := fun p =>
    if ending p
    then (Threw (newError "Called end on pool more than once"), p)
    else (Returned tt, {| connectOutcome := connectOutcome p;
                          queryOutcome := queryOutcome p;
                          ending := true |});
  client_query := fun _ text _ p => (queryOutcome p text, p);
  client_release := fun _ p => (Returned tt, p)
}.

(** A pool with an empty catalog on which every other query ends as [q]. *)
Definition scripted (c : option Thrown) (q : Result PgResult) : ScriptedPool :=
  {| connectOutcome := c;
     queryOutcome := fun text =>
       if String.eqb text tablesQuery
       then Returned {| pg_rows := Some []; pg_fields := ["table_name"];
                        pg_rowCount := JNum 0 |}
       else q;
     ending := false |}.

(** A connector fresh from its constructor, on a given pool. *)
Definition fresh {P K : Type} (p : P) : PostgreSQLConnector P K :=
  {| pool := p; client := None |}.

(** The world a request starts in. *)
Definition start {C : Type} (c : C) : World C :=
  {| db := c; calls := []; dbCalls := [] |}.

(** [JSON.parse] on the one text [text], which denotes [value]; every other
    text is a [SyntaxError]. *)
Definition parses (text : string) (value : JS) : string -> option JS :=
  fun s => if String.eqb s text then Some value else None.

Definition parsesNothing : string -> option JS := fun _ => None.

(** An environment for examples: noon UTC of 15 March 2024 and a completion
    service that answers every request with [answer]. *)
Definition exampleEnv (answer : CompletionOutcome)
    (parse : string -> option JS) : Env :=
  {| now := 1710504000000;
     zone := fixedZone 0;
     completions := fun _ _ => answer;
     JSON_parse := parse |}.

(** Central European time in 2024: one hour ahead of UTC, two hours from
    31 March 01:00 UTC to 27 October 01:00 UTC.  A local time that the
    autumn change repeats is read with the offset before the change. *)
Definition centralEuropean : TimeZone :=
  {| offsetAtUTC := fun t =>
       if (1711846800000 <=? t) && (t <? 1729990800000)
       then 7200000 else 3600000;
     offsetAtLocal := fun t =>
       if (1711846800000 + 3600000 <=? t) && (t <? 1729990800000 + 7200000)
       then 7200000 else 3600000 |}.

Definition inCentralEurope (t : Z) : Env :=
  {| now := t;
     zone := centralEuropean;
     completions := fun _ _ => Content None;
     JSON_parse := parsesNothing |}.

Definition usersResult : PgResult :=
  {| pg_rows := Some [[("id", JNum 1); ("name", JStr "John")]];
     pg_fields := ["id"; "name"];
     pg_rowCount := JNum 1 |}.

Definition passwordError : string :=
  quoted "password authentication failed for user `admin`".

(** A request for a table, to a service that answers with a query on
    [users]. *)
Definition usersRequest : QueryRequest :=
  {| query := "Show me all users"; dataSource := None |}.

Definition usersEnv : Env :=
  exampleEnv (Content (Some "SELECT * FROM users")) parsesNothing.

(** The world in which the execution of that query is rejected with the
    text [text]. *)
Definition rejecting (text : string) : World (PostgreSQLConnector ScriptedPool unit) :=
  start (fresh (scripted None (Threw (newError text)))).

(** The world in which the database refuses the connection. *)
Definition unreachable : World (PostgreSQLConnector ScriptedPool unit) :=
  start (fresh (scripted (Some (newError "Connection refused"))
                         (Returned usersResult))).

(** An answer of the completion service whose series names a key its data
    does not have, as text and as the value the text denotes. *)
Definition mismatchedText : string :=
  quoted "{`chartType`:`bar`,`data`:[{`a`:1}],`series`:[{`dataKey`:`b`}]}".

Definition mismatchedSpec : JS :=
  JObj [("chartType", JStr "bar");
        ("data", JArr [JObj [("a", JNum 1)]]);
        ("series", JArr [JObj [("dataKey", JStr "b")]])].

Definition oneColumn : QueryResult :=
  {| columns := ["total"]; rows := [[("total", JNum 5)]] |}.

End Spec.

Import Spec.

(** ** [lib/utils/env-validator.ts] *)

Module EnvValidator.

(** [process.env]: a variable is unset ([None]) or holds a string. *)
Definition ProcessEnv : Type := string -> option string.

(** [!!process.env[key]]: set, and not the empty string. *)
Definition isSet (penv : ProcessEnv) (key : string) : bool :=
  match penv key with
  | Some value => negb (String.eqb value "")
  | None => false
  end.

Definition getEnvVariable (penv : ProcessEnv) (key : string)
    (defaultValue : option string) : Result string :=
  match penv key with
  | Some value =>
      if negb (String.eqb value "") then Returned value
      else match defaultValue with
           | Some d => Returned d
           | None => Threw (newError ("Required environment variable "
                                      ++ key ++ " is not set"))
           end
  | None =>
      match defaultValue with
      | Some d => Returned d
      | None => Threw (newError ("Required environment variable "
                                 ++ key ++ " is not set"))
      end
  end.

(** The loop that pushes the unset names onto [missing]. *)
Fixpoint collectMissing (penv : ProcessEnv) (requiredVars : list string)
  : list string :=
  match requiredVars with
  | [] => []
  | varName :: rest =>
      if isSet penv varName then collectMissing penv rest
      else varName :: collectMissing penv rest
  end.

Definition validateEnvVariables (penv : ProcessEnv)
    (requiredVars : list string) : Result unit :=
  let missing := collectMissing penv requiredVars in
  if Nat.ltb 0 (List.length missing)
  then Threw (newError ("Missing required environment variables: "
                        ++ join ", " missing))
  else Returned tt.

Definition obfuscateSensitiveData (value : string) : string :=
  if String.eqb value "" then ""
  else if Nat.ltb 8 (String.length value)
  then substring 0 4 value ++ "..."
         ++ substring (String.length value - 4) 4 value
  else substring 0 2 value ++ "...".

(** [getApiKey], over the lines written with [console.log]. *)
Definition getApiKey (penv : ProcessEnv) (keyName : string)
  : M (list string) string :=
  fun console =>
    match getEnvVariable penv keyName None with
    | Threw e => (Threw e, console)
    | Returned apiKey =>
        let line := "API key '" ++ keyName ++ "' was accessed ("
                    ++ obfuscateSensitiveData apiKey ++ ")" in
        (Returned apiKey, (console ++ [line])%list)
    end.

(** [DEFAULT_MODEL] of [lib/openai.ts] *)
Definition DEFAULT_MODEL (penv : ProcessEnv) : Result string :=
  getEnvVariable penv "OPENAI_MODEL" (Some "gpt-4o-mini").

End EnvValidator.

Import EnvValidator.

(** ** [lib/utils/path-utils.ts] *)

Module PathUtils.

Definition slash : ascii := "/"%char.
Definition backslash : ascii := ascii_of_nat 92.

(** [OS_TYPE.IS_WINDOWS], from [os.platform()] *)
Definition IS_WINDOWS (platform : string) : bool := String.eqb platform "win32".

(** [path.sep] *)
Definition sep (platform : string) : ascii :=
  if IS_WINDOWS platform then backslash else slash.

Definition isSeparator (c : ascii) : bool :=
  (Ascii.eqb c slash || Ascii.eqb c backslash)%bool.

(** [filePath.split(/[/\\]/)] *)
Fixpoint splitSeparators (filePath : string) : list string :=
  match filePath with
  | EmptyString => [EmptyString]
  | String c rest =>
      if isSeparator c then EmptyString :: splitSeparators rest
      else match splitSeparators rest with
           | segment :: segments => String c segment :: segments
           | [] => [String c EmptyString]
           end
  end.

Definition normalizePath (platform filePath : string) : string :=
  join (String (sep platform) EmptyString) (splitSeparators filePath).

(** [s.replace(/c/g, d)] for single characters [c] and [d] *)
Fixpoint replaceAll (c d : ascii) (s : string) : string :=
  match s with
  | EmptyString => EmptyString
  | String a rest =>
      String (if Ascii.eqb a c then d else a) (replaceAll c d rest)
  end.

Definition getOsSpecificCommand (platform command : string) : string :=
  if IS_WINDOWS platform then replaceAll slash backslash command
  else replaceAll backslash slash command.

Definition getTempDirectory (platform : string) (penv : ProcessEnv) : string :=
  if IS_WINDOWS platform
  then match penv "TEMP" with
       | Some t => if String.eqb t "" then "C:\Windows\Temp" else t
       | None => "C:\Windows\Temp"
       end
  else "/tmp".

End PathUtils.

Import PathUtils.

(** ** [lib/csrf-protection.ts] *)

Module Csrf.

Definition hexDigit (n : nat) : ascii :=
  if Nat.ltb n 10 then ascii_of_nat (48 + n) else ascii_of_nat (87 + n).

(** [Buffer.prototype.toString('hex')]: two digits for each byte. *)
Fixpoint hex (bytes : list ascii) : string :=
  match bytes with
  | [] => EmptyString
  | b :: rest =>
      String (hexDigit (Nat.div (nat_of_ascii b) 16))
        (String (hexDigit (Nat.modulo (nat_of_ascii b) 16)) (hex rest))
  end.

(** [generateCSRFToken], from the 32 bytes [randomBytes(32)] hands over. *)
Definition generateCSRFToken (randomBytes : list ascii) : string :=
  hex randomBytes.

(** The [Set-Cookie] of [setCSRFCookie]. *)
Record CookieOptions := {
  cookie_name : string;
  cookie_value : string;
  httpOnly : bool;
  secure : bool;
  sameSite : string;
  cookie_path : string;
  maxAge : nat
}.

(** [setCSRFCookie], by the cookie it sets if any: [csrfCookie] is the
    value of the request's [csrf_token] cookie. *)
Definition setCSRFCookie (csrfCookie : option string) (NODE_ENV : option string)
    (randomBytes : list ascii) : option CookieOptions :=
  match csrfCookie with
  | Some _ => None
  | None =>
      let csrfToken := generateCSRFToken randomBytes in
      Some {| cookie_name := "csrf_token";
              cookie_value := csrfToken;
              httpOnly := true;
              secure := match NODE_ENV with
                        | Some e => String.eqb e "production"
                        | None => false
                        end;
              sameSite := "strict";
              cookie_path := "/";
              maxAge := 3600 |}
  end.

Definition verifyCSRFToken (csrfCookie : option string) (csrfToken : string)
  : bool :=
  match csrfCookie with
  | None => false
  | Some value =>
      if String.eqb csrfToken "" then false else String.eqb value csrfToken
  end.

End Csrf.

Import Csrf.

(** ** [app/api/query/route.ts] *)

Module Route.

(** What the handler reads of a [NextRequest]: the [x-csrf-token] header,
    the value of the [csrf_token] cookie, and what [request.json()]
    resolves with or throws. *)
Record NextRequest := {
  csrfHeader : option string;
  csrfCookie : option string;
  json : Result JS
}.

Inductive Payload : Type :=
| MessageBody (text : string)
| ResultBody (result : QueryResponse)
| ErrorBody (error : string).

Record HttpResponse := { status : nat; payload : Payload }.

Definition forbidden : HttpResponse :=
  {| status := 403; payload := MessageBody "Invalid or missing CSRF token" |}.

(** The [catch] block of the handler. *)
Definition serverError (error : Thrown) : HttpResponse :=
  {| status := 500;
     payload := ErrorBody match error with
                          | ErrorObject _ m => m
                          | NonError _ => "An unknown error occurred"
                          end |}.

(** The [TypeError] of [query.toLowerCase()] on a [query] that is no
    string. *)
Definition notAString (q : JS) : Thrown :=
  match q with
  | JUndefined =>
      ErrorObject "TypeError"
        "Cannot read properties of undefined (reading 'toLowerCase')"
  | JNull =>
      ErrorObject "TypeError"
        "Cannot read properties of null (reading 'toLowerCase')"
  | _ => ErrorObject "TypeError" "query.toLowerCase is not a function"
  end.

(** [processQuery] on a [query] of any type, as the handler passes it: a
    [query] that is no string makes [determineResultType] throw, after the
    connection and the schema. *)
Definition processQueryOf {C : Type} `{DatabaseConnector C}
    (env : Env) (q dataSource : JS) : M (World C) QueryResponse :=
  match q with
  | JStr text =>
      processQuery env {| query := text;
                          dataSource := match dataSource with
                                        | JStr d => Some d
                                        | _ => None
                                        end |}
  | _ =>
      tryFinally
        (tryCatch
           (onDb CallConnect connect ;;;
            schema <- onDb CallGetSchema getSchema ;;
            throw (notAString q))
           recover)
        release
  end.

(** [POST]: the response, and the world the request left behind when it
    got as far as creating a connector. *)
Definition POST {P K : Type} `{Pg P K} (env : Env)
    (DATABASE_TYPE DATABASE_URL : option string) (log : Calls)
    (request : NextRequest)
  : HttpResponse * option (World (PostgreSQLConnector P K)) :=
  match csrfHeader request with
  | None => (forbidden, None)
  | Some csrfToken =>
      if (String.eqb csrfToken ""
          || negb (verifyCSRFToken (csrfCookie request) csrfToken))%bool
      then (forbidden, None)
      else
        match json request with
        | Threw error => (serverError error, None)
        | Returned body =>
            match getProp body "query", getProp body "data_source" with
            | Some q, Some dataSource =>
                match createDatabaseConnector DATABASE_TYPE DATABASE_URL with
                | Threw error => (serverError error, None)
                | Returned connector =>
                    let w := {| db := connector; calls := log; dbCalls := [] |} in
                    match processQueryOf env q dataSource w with
                    | (Returned result, w') =>
                        ({| status := 200; payload := ResultBody result |},
                         Some w')
                    | (Threw error, w') => (serverError error, Some w')
                    end
                end
            | _, _ =>
                (serverError
                   (ErrorObject "TypeError"
                      "Cannot read properties of null (reading 'query')"),
                 None)
            end
        end
  end.

End Route.

Import Route.

(** ** Further notions the properties are stated with *)

Module MoreSpec.

(** The characters of a string, one for one. *)
Fixpoint mapChars (f : ascii -> ascii) (s : string) : string :=
  match s with
  | EmptyString => EmptyString
  | String c rest => String (f c) (mapChars f rest)
  end.


(** The request [generateVisualizationFromData] sends for a result with
    rows. *)
Definition visualizationPrompt (q : string) (qr : QueryResult)
  : CompletionRequest :=
  VisualizationPrompt q (List.length (rows qr)) (join ", " (columns qr))
    (Nat.ltb 50 (List.length (rows qr)))
    (if Nat.ltb 50 (List.length (rows qr)) then firstn 20 (rows qr)
     else rows qr).

(** The request of the generative path of [generateSQLFromNaturalLanguage]. *)
Definition sqlPrompt (env : Env) (q : string) (schema : DatabaseSchema)
  : CompletionRequest :=
  SqlPrompt (formatSchemaForPrompt schema) (formatDate (now env)) q.

(** An answer of the completion service that the visualization synthesizer
    can map: a non-empty text that parses to a value with a truthy
    [chartType] and a truthy [data]. *)
Definition usableAnswer (env : Env) (answer : CompletionOutcome)
    (spec : JS) : Prop :=
  exists text,
    answer = Content (Some text) /\ text <> ""
    /\ JSON_parse env text = Some spec
    /\ exists chart data,
         getProp spec "chartType" = Some chart /\ truthy chart = true
         /\ getProp spec "data" = Some data /\ truthy data = true.

(** A process environment for examples. *)
Definition exampleProcessEnv : ProcessEnv :=
  fun key =>
    if String.eqb key "DATABASE_URL" then Some "postgresql://localhost/db"
    else if String.eqb key "OPENAI_API_KEY" then Some "1234567890abcdef"
    else if String.eqb key "EMPTY" then Some ""
    else None.

(** A pool whose catalog has two tables of one column each. *)
Definition twoTables : ScriptedPool :=
  {| connectOutcome := None;
     queryOutcome := fun text =>
       if String.eqb text tablesQuery
       then Returned {| pg_rows := Some [[("table_name", JStr "users")];
                                         [("table_name", JStr "orders")]];
                        pg_fields := ["table_name"];
                        pg_rowCount := JNum 2 |}
       else Returned {| pg_rows := Some [[("column_name", JStr "id");
                                          ("data_type", JStr "integer")]];
                        pg_fields := ["column_name"; "data_type"];
                        pg_rowCount := JNum 1 |};
     ending := false |}.

(** A pool on which every query is rejected for want of permission. *)
Definition denied : ScriptedPool :=
  {| connectOutcome := None;
     queryOutcome := fun _ =>
       Threw (newError "permission denied for schema information_schema");
     ending := false |}.

(** A request that passes the CSRF check, with the body [body]. *)
Definition requestWith (body : Result JS) : NextRequest :=
  {| csrfHeader := Some "5f2a9c";
     csrfCookie := Some "5f2a9c";
     json := body |}.

End MoreSpec.

Import MoreSpec.

(** * Properties of the calendar *)

Example iso_2024_03_15 : toISOString 1710504000000 = "2024-03-15T12:00:00.000Z".
Proof. vm_compute. reflexivity. Qed.

Example iso_1969 : formatDate (-1) = "1969-12-31".
Proof. vm_compute. reflexivity. Qed.

Example setMonth_overflow :
  formatDate (setMonth (fixedZone 0) 1711886400000 (getMonth (fixedZone 0) 1711886400000 - 1))
  = "2024-03-02".
Proof. vm_compute. reflexivity. Qed.

Lemma div_step a b k :
  0 < k ->
  (a + 1 - b) / k = (a - b) / k + (if (a + 1 - b) mod k =? 0 then 1 else 0).
Proof.
  intros Hk. destruct (Z.eqb_spec ((a + 1 - b) mod k) 0) as [E|E];
    Z.to_euclidean_division_equations; nia.
Qed.

Lemma mod4_shift y : ((y + 1 - 1969) mod 4 =? 0) = (y mod 4 =? 0).
Proof.
  destruct (Z.eqb_spec (y mod 4) 0); [apply Z.eqb_eq | apply Z.eqb_neq];
    Z.to_euclidean_division_equations; lia.
Qed.

Lemma mod100_shift y : ((y + 1 - 1901) mod 100 =? 0) = (y mod 100 =? 0).
Proof.
  destruct (Z.eqb_spec (y mod 100) 0); [apply Z.eqb_eq | apply Z.eqb_neq];
    Z.to_euclidean_division_equations; lia.
Qed.

Lemma mod400_shift y : ((y + 1 - 1601) mod 400 =? 0) = (y mod 400 =? 0).
Proof.
  destruct (Z.eqb_spec (y mod 400) 0); [apply Z.eqb_eq | apply Z.eqb_neq];
    Z.to_euclidean_division_equations; lia.
Qed.

Lemma mod100_mod4 y : y mod 100 = 0 -> y mod 4 = 0.
Proof. Z.to_euclidean_division_equations; lia. Qed.

Lemma mod400_mod100 y : y mod 400 = 0 -> y mod 100 = 0.
Proof. Z.to_euclidean_division_equations; lia. Qed.

(** A year is as long as [DaysInYear] says. *)
Lemma DayFromYear_step y : DayFromYear (y + 1) = DayFromYear y + DaysInYear y.
Proof.
  unfold DayFromYear, DaysInYear, isLeap.
  rewrite (div_step y 1969 4), (div_step y 1901 100), (div_step y 1601 400) by lia.
  rewrite mod4_shift, mod100_shift, mod400_shift.
  pose proof (mod100_mod4 y). pose proof (mod400_mod100 y).
  destruct (Z.eqb_spec (y mod 4) 0); destruct (Z.eqb_spec (y mod 100) 0);
    destruct (Z.eqb_spec (y mod 400) 0); cbn [negb]; lia.
Qed.

Lemma year_estimate_low d : DayFromYear (1970 + 400 * d / 146097 - 1) <= d.
Proof.
  unfold DayFromYear.
  remember (400 * d / 146097) as q.
  assert (146097 * q <= 400 * d)
    by (subst; Z.to_euclidean_division_equations; lia).
  clear Heqq.
  Z.to_euclidean_division_equations; lia.
Qed.

Lemma year_estimate_high d : d < DayFromYear (1970 + 400 * d / 146097 + 2).
Proof.
  unfold DayFromYear.
  remember (400 * d / 146097) as q.
  assert (400 * d < 146097 * q + 146097)
    by (subst; Z.to_euclidean_division_equations; lia).
  clear Heqq.
  Z.to_euclidean_division_equations; lia.
Qed.

(** [YearFromDay] is the year ECMAScript's [YearFromTime] asks for. *)
Lemma YearFromDay_spec d :
  DayFromYear (YearFromDay d) <= d < DayFromYear (YearFromDay d + 1).
Proof.
  unfold YearFromDay.
  set (y0 := 1970 + 400 * d / 146097).
  destruct (Z.ltb_spec d (DayFromYear y0)) as [H|H].
  - replace (y0 - 1 + 1) with y0 by lia.
    split; [apply year_estimate_low | exact H].
  - destruct (Z.leb_spec (DayFromYear (y0 + 1)) d) as [H'|H'].
    + split; [exact H'|].
      replace (y0 + 1 + 1) with (y0 + 2) by lia. apply year_estimate_high.
    + lia.
Qed.

(** *** Calendar lemmas *)

Lemma leapDays_range y : 0 <= leapDays y <= 1.
Proof. unfold leapDays. destruct (isLeap y); lia. Qed.

Lemma monthOfDay_range d l : 0 <= monthOfDay d l <= 11.
Proof.
  unfold monthOfDay.
  repeat match goal with
         | |- context [if ?b then _ else _] => destruct b
         end; lia.
Qed.

Lemma MonthFromTime_range t : 0 <= MonthFromTime t <= 11.
Proof. apply monthOfDay_range. Qed.

Ltac month_cases m :=
  let H := fresh in
  assert (H : m = 0 \/ m = 1 \/ m = 2 \/ m = 3 \/ m = 4 \/ m = 5 \/ m = 6
              \/ m = 7 \/ m = 8 \/ m = 9 \/ m = 10 \/ m = 11) by lia;
  repeat (destruct H as [H|H]; [subst m|]); [..|subst m].

Ltac bit_cases l :=
  let H := fresh in
  assert (H : l = 0 \/ l = 1) by lia;
  destruct H; subst l.

(** The day number of a time value is rebuilt by [MakeDay] from its year,
    month and day of the month. *)
Lemma Day_as_MakeDay t :
  Day t = MakeDay (YearFromTime t) (MonthFromTime t) (DateFromTime t).
Proof.
  pose proof (MonthFromTime_range t) as Hm.
  unfold MakeDay, DateFromTime, DayWithinYear.
  rewrite Z.div_small, Z.mod_small by lia.
  rewrite Z.add_0_r. lia.
Qed.

Lemma MakeDay_back y m d n :
  0 <= m <= 11 -> 1 <= n <= 12 ->
  MakeDay y (m - n) d
  = MakeDay y m d - monthBack m n (leapDays y) (leapDays (y - 1)).
Proof.
  intros Hm Hn. unfold MakeDay, monthBack.
  rewrite (Z.div_small m), (Z.mod_small m), Z.add_0_r by lia.
  destruct (Z.leb_spec n m) as [H|H].
  - rewrite Z.div_small, Z.mod_small, Z.add_0_r by lia. lia.
  - assert (Hq : (m - n) / 12 = -1)
      by (Z.to_euclidean_division_equations; lia).
    assert (Hr : (m - n) mod 12 = m - n + 12)
      by (Z.to_euclidean_division_equations; lia).
    rewrite Hq, Hr.
    replace (y + -1) with (y - 1) by lia.
    pose proof (DayFromYear_step (y - 1)) as Hs.
    replace (y - 1 + 1) with y in Hs by lia.
    unfold DaysInYear, leapDays in *. destruct (isLeap (y - 1)); lia.
Qed.

Lemma monthBack_1 m l lp :
  0 <= m <= 11 -> 0 <= l <= 1 -> 0 <= lp <= 1 ->
  28 <= monthBack m 1 l lp <= 31.
Proof.
  intros Hm Hl Hlp. month_cases m; bit_cases l; bit_cases lp;
    vm_compute; split; discriminate.
Qed.

Lemma monthBack_3 m l lp :
  0 <= m <= 11 -> 0 <= l <= 1 -> 0 <= lp <= 1 ->
  89 <= monthBack m 3 l lp <= 92.
Proof.
  intros Hm Hl Hlp. month_cases m; bit_cases l; bit_cases lp;
    vm_compute; split; discriminate.
Qed.

Lemma MakeDate_Day_TimeWithinDay t k :
  MakeDate (Day t - k) (TimeWithinDay t) = t - k * msPerDay.
Proof.
  unfold MakeDate, Day, TimeWithinDay.
  pose proof (Z.div_mod t msPerDay ltac:(discriminate)). lia.
Qed.

(** In a zone of constant offset, [setDate(getDate() - k)] moves the
    instant back by exactly [k] days. *)
Lemma setDate_back off t k :
  setDate (fixedZone off) t (getDate (fixedZone off) t - k) = t - k * msPerDay.
Proof.
  unfold setDate, getDate, UTC, LocalTime. cbn [fixedZone offsetAtUTC offsetAtLocal].
  set (l := t + off).
  replace (MakeDay (YearFromTime l) (MonthFromTime l) (DateFromTime l - k))
    with (Day l - k)
    by (rewrite (Day_as_MakeDay l); unfold MakeDay; lia).
  rewrite MakeDate_Day_TimeWithinDay. lia.
Qed.

(** In a zone of constant offset, [setMonth(getMonth() - n)] moves the
    instant back by [monthBack] whole days. *)
Lemma setMonth_back off t n :
  1 <= n <= 12 ->
  let l := t + off in
  setMonth (fixedZone off) t (getMonth (fixedZone off) t - n)
  = t - monthBack (MonthFromTime l) n (leapDays (YearFromTime l))
                  (leapDays (YearFromTime l - 1)) * msPerDay.
Proof.
  intros Hn l.
  unfold setMonth, getMonth, UTC, LocalTime. cbn [fixedZone offsetAtUTC offsetAtLocal].
  fold l.
  rewrite MakeDay_back by (auto using MonthFromTime_range).
  rewrite <- Day_as_MakeDay, MakeDate_Day_TimeWithinDay. lia.
Qed.

Lemma noChar_app c a b : noChar c (a ++ b) = (noChar c a && noChar c b)%bool.
Proof.
  induction a as [|x a IH]; cbn [append noChar]; [reflexivity|].
  rewrite IH. now rewrite andb_assoc.
Qed.

Lemma beforeChar_app c a b :
  noChar c a = true -> beforeChar c (a ++ String c b) = a.
Proof.
  induction a as [|x a IH]; cbn [append noChar beforeChar]; intros H.
  - now rewrite Ascii.eqb_refl.
  - apply andb_true_iff in H as [Hx Ha].
    apply negb_true_iff in Hx. rewrite Hx. now rewrite IH.
Qed.

Lemma digitChar_not_T n : 0 <= n < 10 -> Ascii.eqb (digitChar n) "T"%char = false.
Proof.
  intros Hn. unfold digitChar.
  assert (Hk : (Z.to_nat n < 10)%nat) by lia.
  revert Hk. generalize (Z.to_nat n) as k. intros k Hk.
  do 10 (destruct k as [|k]; [reflexivity|]). lia.
Qed.

Lemma padDigits_noT w n : noChar "T"%char (padDigits w n) = true.
Proof.
  revert n. induction w as [|w IH]; intros n; cbn [padDigits]; [reflexivity|].
  rewrite noChar_app, IH. cbn [noChar andb].
  rewrite digitChar_not_T by (apply Z.mod_pos_bound; lia). reflexivity.
Qed.

Lemma isoDate_noT t : noChar "T"%char (isoDate t) = true.
Proof.
  assert (Hy : forall y, noChar "T"%char (isoYear y) = true).
  { intros y. unfold isoYear.
    destruct ((0 <=? y) && (y <=? 9999))%bool; [apply padDigits_noT|].
    rewrite noChar_app, padDigits_noT. now destruct (y <? 0). }
  unfold isoDate.
  repeat rewrite noChar_app.
  rewrite Hy, !padDigits_noT. reflexivity.
Qed.

(** [toISOString().split('T')[0]] is the UTC calendar date. *)
Lemma formatDate_isoDate t : formatDate t = isoDate t.
Proof.
  unfold formatDate, toISOString.
  change ("T" ++ isoTime t ++ "Z") with (String "T"%char (isoTime t ++ "Z")).
  apply beforeChar_app, isoDate_noT.
Qed.

(** * Properties of [lib/openai.ts] *)

(** ** The intent classifier *)

Lemma firstMatch_graph queryLower keywords :
  firstMatch queryLower keywords = graph
  <-> exists keyword, In keyword keywords /\ includes queryLower keyword = true.
Proof.
  induction keywords as [|k rest IH]; cbn [firstMatch].
  - split; [discriminate | intros (k & [] & _)].
  - destruct (includes queryLower k) eqn:E.
    + split; [|reflexivity]. intros _. exists k. split; [now left | exact E].
    + rewrite IH. split.
      * intros (k' & Hin & Hk'). exists k'. split; [now right | exact Hk'].
      * intros (k' & [Heq|Hin] & Hk').
        -- subst k'. congruence.
        -- now exists k'.
Qed.

Lemma firstMatch_cases queryLower keywords :
  firstMatch queryLower keywords = graph \/ firstMatch queryLower keywords = table.
Proof. destruct (firstMatch queryLower keywords); auto. Qed.

(** C5. [determineResultType] answers [graph] exactly when the lower-cased
    query contains one of the fixed visualization keywords, among them
    "trend", "chart", "compare", "distribution", "week by week" and
    "pie chart", and [table] for every other query. *)
Theorem determineResultType_keywords (query : string) :
  (determineResultType query = graph
   <-> exists keyword, In keyword graphKeywords
                       /\ includes (toLowerCase query) keyword = true)
  /\ ((forall keyword, In keyword graphKeywords ->
                       includes (toLowerCase query) keyword = false)
      <-> determineResultType query = table)
  /\ incl ["trend"; "chart"; "compare"; "distribution"; "week by week";
           "pie chart"] graphKeywords.
Proof.
  unfold determineResultType. split; [apply firstMatch_graph|]. split.
  - split.
    + intros Hnone.
      destruct (firstMatch_cases (toLowerCase query) graphKeywords) as [Hg|Ht];
        [|exact Ht].
      apply firstMatch_graph in Hg as (k & Hin & Hk).
      rewrite (Hnone k Hin) in Hk. discriminate.
    + intros Ht k Hin.
      destruct (includes (toLowerCase query) k) eqn:E; [|reflexivity].
      assert (Hg : firstMatch (toLowerCase query) graphKeywords = graph)
        by (apply firstMatch_graph; now exists k).
      congruence.
  - intros k Hk. cbn in Hk. cbn.
    repeat (destruct Hk as [Hk|Hk]; [subst k; tauto|]). contradiction.
Qed.

Example determineResultType_graph :
  determineResultType "Show me week by week enrollment data" = graph.
Proof. reflexivity. Qed.

Example determineResultType_table :
  determineResultType "Find customers from New York" = table.
Proof. reflexivity. Qed.

Example determineResultType_case :
  determineResultType "Create a BAR CHART of sales" = graph.
Proof. reflexivity. Qed.

(** ** The visualization synthesizer *)

(** C6. On a result without rows [generateVisualizationFromData] returns the
    sentinel: chart type "none", title "No Data Available", empty [labels],
    [values] and [rawData]; the completion service is not called. *)
Theorem generateVisualization_no_rows
    (env : Env) (query : string) (cols : list string) (log : Calls) :
  exists g,
    generateVisualizationFromData env query {| columns := cols; rows := [] |} log
    = (Returned g, log)
    /\ chartType g = JStr "none"
    /\ title g = JStr "No Data Available"
    /\ labels g = Some []
    /\ values g = Some []
    /\ rawData g = Some [].
Proof. exists noDataAvailable. cbn. repeat split. Qed.

Lemma fallbackVisualization_rawData qr :
  rawData (fallbackVisualization qr) = Some (rows qr).
Proof.
  unfold fallbackVisualization.
  destruct (filter isDateColumn (columns qr)); reflexivity.
Qed.

Lemma mapVisualizationSpec_rawData spec rws g :
  mapVisualizationSpec spec rws = Some (Some g) -> rawData g = Some rws.
Proof.
  unfold mapVisualizationSpec.
  destruct (getProp spec "chartType"); [|discriminate].
  destruct (_ || _)%bool; [discriminate|].
  intros E. injection E as <-. reflexivity.
Qed.

Lemma length_zero_nil {A} (l : list A) : Nat.eqb (List.length l) 0 = true -> l = [].
Proof. destruct l; [reflexivity | discriminate]. Qed.

(** The three ways [generateVisualizationFromData] ends: the sentinel
    without a call, or after one call the mapped answer of the service or
    the fallback heuristic. *)
Lemma generateVisualization_cases env query qr log :
  exists g log',
    generateVisualizationFromData env query qr log = (Returned g, log')
    /\ ((rows qr = [] /\ g = noDataAvailable /\ log' = log)
        \/ (rows qr <> [] /\ g = fallbackVisualization qr)
        \/ (rows qr <> [] /\
            exists text spec,
              JSON_parse env text = Some spec
              /\ mapVisualizationSpec spec (rows qr) = Some (Some g))).
Proof.
  unfold generateVisualizationFromData.
  destruct (Nat.eqb (List.length (rows qr)) 0) eqn:E0.
  - apply length_zero_nil in E0. exists noDataAvailable, log.
    split; [reflexivity|]. left. auto.
  - assert (Hne : rows qr <> [])
      by (intros Hnil; rewrite Hnil in E0; discriminate).
    unfold tryCatch, bind, create.
    destruct (completions env _ _) as [e|[c|]].
    + eexists _, _. split; [reflexivity|]. right; left. auto.
    + destruct (String.eqb c "").
      { eexists _, _. split; [reflexivity|]. right; left. auto. }
      destruct (JSON_parse env c) as [spec|] eqn:Ep.
      * destruct (mapVisualizationSpec spec (rows qr)) as [[g|]|] eqn:Em.
        -- eexists _, _. split; [reflexivity|]. right; right.
           split; [exact Hne|]. now exists c, spec.
        -- eexists _, _. split; [reflexivity|]. right; left. auto.
        -- eexists _, _. split; [reflexivity|]. right; left. auto.
      * eexists _, _. split; [reflexivity|]. right; left. auto.
    + eexists _, _. split; [reflexivity|]. right; left. auto.
Qed.

(** C3. Whatever the completion service and [JSON.parse] do,
    [generateVisualizationFromData] returns a [GraphResult] whose [rawData]
    is the [rows] it was given: on the zero-row sentinel, on the mapped
    answer of the service and on every fallback. *)
Theorem generateVisualization_rawData
    (env : Env) (query : string) (qr : QueryResult) (log : Calls) :
  exists g log',
    generateVisualizationFromData env query qr log = (Returned g, log')
    /\ rawData g = Some (rows qr).
Proof.
  destruct (generateVisualization_cases env query qr log)
    as (g & log' & Hrun & Hcases).
  exists g, log'. split; [exact Hrun|].
  destruct Hcases as [(Hnil & -> & _) | [(_ & ->) | (_ & text & spec & _ & Hmap)]].
  - rewrite Hnil. reflexivity.
  - apply fallbackVisualization_rawData.
  - eapply mapVisualizationSpec_rawData, Hmap.
Qed.

(** ** The fallback heuristic *)

Lemma filter_first {A} (f : A -> bool) (l : list A) (d : A) (rest : list A) :
  filter f l = d :: rest ->
  exists pre post,
    l = (pre ++ d :: post)%list /\ forallb (fun x => negb (f x)) pre = true
    /\ f d = true.
Proof.
  induction l as [|x l IH]; cbn [filter]; [discriminate|].
  destruct (f x) eqn:E.
  - intros H. injection H as -> _. exists [], l. cbn. auto.
  - intros H. destruct (IH H) as (pre & post & -> & Hpre & Hd).
    exists (x :: pre), post. cbn. rewrite E. auto.
Qed.

Lemma fallback_dataField cols :
  (if Nat.ltb 1 (List.length cols) then nth_error cols 1 else nth_error cols 0)
  = valueColumn cols.
Proof. destruct cols as [|c0 [|c1 rest]]; reflexivity. Qed.

Lemma fallback_category cols :
  match nth_error cols 0 with
  | Some c => if String.eqb c "" then "category" else c
  | None => "category"
  end = categoryColumn cols.
Proof. destruct cols; reflexivity. Qed.

(** The one series of the fallback heuristic and the data it plots. *)
Lemma fallback_series_data qr :
  series (fallbackVisualization qr)
  = JArr [seriesConfig (ofOption (valueColumn (columns qr)))
                       (ofOption (valueColumn (columns qr))) "#8884d8"]
  /\ processedData (fallbackVisualization qr) = JRows (rows qr).
Proof.
  unfold fallbackVisualization. rewrite fallback_dataField.
  destruct (filter isDateColumn (columns qr)); split; reflexivity.
Qed.

(** The claim of C7 as it is worded, the value axis being the second of the
    first two columns, fails on a result with a single column: that column
    is both the category and the value axis. *)
Lemma fallback_single_column :
  ~ (forall qr : QueryResult,
        filter isDateColumn (columns qr) = [] ->
        exists c0 c1 rest,
          columns qr = c0 :: c1 :: rest
          /\ xAxisKey (fallbackVisualization qr) = JStr c0
          /\ yAxis (fallbackVisualization qr) = JStr c1).
Proof.
  intros claim.
  destruct (claim {| columns := ["total"]; rows := [[("total", JNum 5)]] |}
                  eq_refl)
    as (c0 & c1 & rest & Hcols & _).
  discriminate Hcols.
Qed.

(** C7, amended. [fallbackVisualization] is a function of the
    [QueryResult] alone, so two calls on the same result give the same
    [GraphResult].  Its value column is the second column, or the only
    column of a one-column result, or [undefined] when there is no column,
    and its one series is built from it.  When no column name contains
    "date", "time", "month" or "year" the chart is a "bar" chart over the
    first column ("category" when there is none or its name is empty);
    otherwise it is a "line" chart over the first column with such a
    name. *)
Theorem fallbackVisualization_shape (qr : QueryResult) :
  let g := fallbackVisualization qr in
  yAxis g = ofOption (valueColumn (columns qr))
  /\ series g = JArr [seriesConfig (yAxis g) (yAxis g) "#8884d8"]
  /\ (forall c0 c1 rest, columns qr = c0 :: c1 :: rest -> yAxis g = JStr c1)
  /\ (filter isDateColumn (columns qr) = [] ->
      chartType g = JStr "bar"
      /\ xAxisKey g = JStr (categoryColumn (columns qr))
      /\ forall c0 rest, columns qr = c0 :: rest -> c0 <> "" ->
                         xAxisKey g = JStr c0)
  /\ (forall d, hd_error (filter isDateColumn (columns qr)) = Some d ->
      chartType g = JStr "line"
      /\ xAxisKey g = JStr d
      /\ exists pre post,
           columns qr = (pre ++ d :: post)%list
           /\ forallb (fun c => negb (isDateColumn c)) pre = true
           /\ isDateColumn d = true)
  /\ processedData g = JRows (rows qr)
  /\ (forall qr', qr' = qr -> fallbackVisualization qr' = g).
Proof.
  intros g. subst g.
  split; [|split; [|split; [|split; [|split; [|split]]]]];
    try (intros qr' ->; reflexivity);
    unfold fallbackVisualization;
    rewrite fallback_dataField, fallback_category;
    destruct (filter isDateColumn (columns qr)) as [|d rest] eqn:Ef; cbn;
    try reflexivity; try discriminate.
  - intros c0 c1 r ->. reflexivity.
  - intros c0 c1 r ->. reflexivity.
  - intros _. repeat split. intros c0 r -> Hne. cbn.
    destruct (String.eqb_spec c0 ""); [contradiction | reflexivity].
  - intros d' Hd. injection Hd as <-. repeat split.
    destruct (filter_first _ _ _ _ Ef) as (pre & post & Hc & Hpre & Hd).
    now exists pre, post.
Qed.

Lemma fallbackVisualization_shape_witness :
  chartType (fallbackVisualization oneColumn) = JStr "bar"
  /\ xAxisKey (fallbackVisualization oneColumn)
     = JStr (categoryColumn (columns oneColumn))
  /\ forall c0 rest, columns oneColumn = c0 :: rest -> c0 <> "" ->
                     xAxisKey (fallbackVisualization oneColumn) = JStr c0.
Proof.
  apply (fallbackVisualization_shape oneColumn). reflexivity.
Defined.

Example fallback_two_columns :
  let g := fallbackVisualization
             {| columns := ["course"; "total"];
                rows := [[("course", JStr "Math"); ("total", JNum 5)]] |} in
  chartType g = JStr "bar" /\ xAxisKey g = JStr "course"
  /\ yAxis g = JStr "total" /\ title g = JStr "total by course".
Proof. cbn. auto. Qed.

Example fallback_date_column :
  let g := fallbackVisualization
             {| columns := ["total"; "enrollment_date"]; rows := [] |} in
  chartType g = JStr "line" /\ xAxisKey g = JStr "enrollment_date"
  /\ yAxis g = JStr "enrollment_date".
Proof. cbn. auto. Qed.

(** ** Series and the data they plot *)

Lemma keyOfAll_rows k rws :
  (forall row, In row rws -> hasKey k row = true) ->
  keyOfAll k (elements (JRows rws)) = true.
Proof.
  intros H. unfold keyOfAll, JRows, elements.
  apply forallb_forall. intros d Hd.
  apply in_map_iff in Hd as (row & <- & Hin). auto.
Qed.

Lemma valueColumn_in cols :
  cols <> [] -> exists c, valueColumn cols = Some c /\ In c cols.
Proof.
  destruct cols as [|c0 [|c1 rest]]; [contradiction| |]; intros _.
  - exists c0. cbn. auto.
  - exists c1. cbn. auto.
Qed.

Lemma fallback_seriesKeysPresent qr :
  columns qr <> [] -> rowsCarryColumns qr ->
  seriesKeysPresent (fallbackVisualization qr) = true.
Proof.
  intros Hne Hrows.
  destruct (fallback_series_data qr) as (Hs & Hp).
  unfold seriesKeysPresent. rewrite Hs, Hp.
  destruct (valueColumn_in _ Hne) as (c & -> & Hin).
  cbn [elements forallb ofOption seriesConfig getProp field String.eqb].
  cbn. rewrite andb_true_r.
  apply keyOfAll_rows. intros row Hrow. now apply Hrows.
Qed.

(** The claim of C9 fails on the generative path: when the service answers
    with a series whose [dataKey] is no key of its [data], the result is
    returned with both as they came. *)
Lemma generated_series_unchecked :
  let env := exampleEnv (Content (Some mismatchedText))
                        (parses mismatchedText mismatchedSpec) in
  let qr := {| columns := ["a"]; rows := [[("a", JNum 1)]] |} in
  exists g log,
    generateVisualizationFromData env "chart of a" qr [] = (Returned g, log)
    /\ series g = JArr [JObj [("dataKey", JStr "b")]]
    /\ processedData g = JArr [JObj [("a", JNum 1)]]
    /\ seriesKeysPresent g = false.
Proof. cbv zeta. eexists _, _. split; [vm_compute; reflexivity|]. auto. Qed.

(** C9, amended. For a result with at least one column whose rows all carry
    every column, [generateVisualizationFromData] returns either a
    [GraphResult] in which every series names a key of every element of
    [processedData] (the sentinel and the fallback heuristic), or the mapped
    answer of the completion service, whose [series] and [data] are passed
    on without any check of one against the other. *)
Theorem generateVisualization_series
    (env : Env) (query : string) (qr : QueryResult) (log : Calls) :
  columns qr <> [] -> rowsCarryColumns qr ->
  exists g log',
    generateVisualizationFromData env query qr log = (Returned g, log')
    /\ (seriesKeysPresent g = true
        \/ exists text spec,
             JSON_parse env text = Some spec
             /\ mapVisualizationSpec spec (rows qr) = Some (Some g)
             /\ series g = orElse (field "series" (match spec with
                                                   | JObj fs => fs
                                                   | _ => []
                                                   end)) (JArr [])
             /\ processedData g = field "data" (match spec with
                                                | JObj fs => fs
                                                | _ => []
                                                end)).
Proof.
  intros Hne Hrows.
  destruct (generateVisualization_cases env query qr log)
    as (g & log' & Hrun & Hcases).
  exists g, log'. split; [exact Hrun|].
  destruct Hcases as [(_ & -> & _) | [(_ & ->) | (_ & text & spec & Hp & Hmap)]].
  - left. reflexivity.
  - left. now apply fallback_seriesKeysPresent.
  - right. exists text, spec. split; [exact Hp|]. split; [exact Hmap|].
    unfold mapVisualizationSpec in Hmap.
    destruct spec; cbn in Hmap; try discriminate.
    destruct (_ || _)%bool; [discriminate|].
    injection Hmap as <-. cbn. auto.
Qed.

Lemma generateVisualization_series_witness :
  exists g log',
    generateVisualizationFromData (exampleEnv (Content None) parsesNothing)
                                  "chart" oneColumn [] = (Returned g, log')
    /\ (seriesKeysPresent g = true
        \/ exists text spec,
             JSON_parse (exampleEnv (Content None) parsesNothing) text = Some spec
             /\ mapVisualizationSpec spec (rows oneColumn) = Some (Some g)
             /\ series g = orElse (field "series" (match spec with
                                                   | JObj fs => fs
                                                   | _ => []
                                                   end)) (JArr [])
             /\ processedData g = field "data" (match spec with
                                                | JObj fs => fs
                                                | _ => []
                                                end)).
Proof.
  apply (generateVisualization_series (exampleEnv (Content None) parsesNothing)
           "chart" oneColumn []).
  - discriminate.
  - intros row c [<-|[]] [<-|[]]. reflexivity.
Defined.

(** ** The enrollment override *)

Lemma append_assoc (a b c : string) : (a ++ b) ++ c = a ++ (b ++ c).
Proof. induction a as [|x a IH]; cbn; [reflexivity | now rewrite IH]. Qed.

Lemma trimEnd_keep a c :
  isSpace c = false -> trimEnd (a ++ String c "") = a ++ String c "".
Proof.
  intros Hc. induction a as [|x a IH]; cbn [append trimEnd].
  - now rewrite Hc.
  - rewrite IH. destruct a; reflexivity.
Qed.

Lemma trimEnd_drop a w : trimEnd w = "" -> trimEnd (a ++ w) = trimEnd a.
Proof.
  intros Hw. induction a as [|x a IH]; cbn [append trimEnd].
  - exact Hw.
  - now rewrite IH.
Qed.

(** The template of [handleEnrollmentQuery], trimmed. *)
Lemma trim_enrollmentTemplate startDate today (active : bool) :
  trim (enrollmentTemplate startDate today
          (if active then "AND status = 'active'" else ""))
  = enrollmentSQL startDate today active.
Proof.
  set (isActive := if active then "AND status = 'active'" else "").
  assert (Hsplit : enrollmentSQL startDate today active
                   = ("SELECT * FROM enrollments " ++ nl
                      ++ "    WHERE enrollment_date >= '" ++ startDate ++ "' " ++ nl
                      ++ "    AND enrollment_date <= '" ++ today ++ "'" ++ nl
                      ++ "    " ++ isActive ++ nl
                      ++ "    ORDER BY enrollment_date DES") ++ "C").
  { unfold enrollmentSQL. fold isActive. rewrite !append_assoc. reflexivity. }
  assert (Htemplate : trimStart (enrollmentTemplate startDate today isActive)
                      = enrollmentSQL startDate today active ++ (nl ++ "  ")).
  { unfold enrollmentSQL, enrollmentTemplate. fold isActive.
    rewrite !append_assoc. reflexivity. }
  unfold trim. rewrite Htemplate, trimEnd_drop by reflexivity.
  rewrite Hsplit. apply trimEnd_keep. reflexivity.
Qed.

Lemma lastWeek_fixed env off :
  zone env = fixedZone off -> lastWeek env = now env - 7 * msPerDay.
Proof. intros Hz. unfold lastWeek. rewrite Hz. apply setDate_back. Qed.

Lemma lastMonth_fixed env off :
  zone env = fixedZone off ->
  exists k, lastMonth env = now env - k * msPerDay /\ 28 <= k <= 31.
Proof.
  intros Hz. unfold lastMonth. rewrite Hz, setMonth_back by lia.
  eexists. split; [reflexivity|].
  apply monthBack_1; auto using MonthFromTime_range, leapDays_range.
Qed.

Lemma lastQuarter_fixed env off :
  zone env = fixedZone off ->
  exists k, lastQuarter env = now env - k * msPerDay /\ 89 <= k <= 92.
Proof.
  intros Hz. unfold lastQuarter. rewrite Hz, setMonth_back by lia.
  eexists. split; [reflexivity|].
  apply monthBack_3; auto using MonthFromTime_range, leapDays_range.
Qed.

(** What [handleEnrollmentQuery] returns, by the period it picks. *)
Lemma handleEnrollmentQuery_sql env query :
  handleEnrollmentQuery env query
  = enrollmentSQL
      (isoDate (if includes (toLowerCase query) "month" then lastMonth env
                else if includes (toLowerCase query) "quarter"
                     then lastQuarter env
                     else lastWeek env))
      (isoDate (now env))
      (includes (toLowerCase query) "active").
Proof.
  unfold handleEnrollmentQuery. cbv zeta.
  rewrite trim_enrollmentTemplate, !formatDate_isoDate.
  destruct (includes (toLowerCase query) "month");
    [|destruct (includes (toLowerCase query) "quarter")]; reflexivity.
Qed.

(** The claim of C1 as it is worded fails for "month": on 15 March 2024
    the start date is 15 February, one calendar month back, and not
    14 February, thirty days back. *)
Lemma enrollment_month_not_30_days :
  ~ (forall (env : Env) (query : string) (schema : DatabaseSchema) (log : Calls),
        includes (toLowerCase query) "enrollment" = true ->
        includes (toLowerCase query) "month" = true ->
        fst (generateSQLFromNaturalLanguage env query schema log)
        = Returned (enrollmentSQL (isoDate (now env - 30 * msPerDay))
                                  (isoDate (now env))
                                  (includes (toLowerCase query) "active"))).
Proof.
  intros claim.
  specialize (claim (exampleEnv (Content None) parsesNothing)
                    "new enrollments in the last month"
                    {| tables := [] |} [] eq_refl eq_refl).
  vm_compute in claim. discriminate claim.
Qed.

Example enrollment_month_sql :
  generateSQLFromNaturalLanguage (exampleEnv (Content None) parsesNothing)
    "new enrollments in the last month" {| tables := [] |} []
  = (Returned (enrollmentSQL "2024-02-15" "2024-03-15" false), []).
Proof. vm_compute. reflexivity. Qed.

Example thirty_days_before : isoDate (1710504000000 - 30 * msPerDay) = "2024-02-14".
Proof. vm_compute. reflexivity. Qed.

(** C1, amended. For a query that contains "enrollment" and one of "week",
    "month", "quarter" (in any case), in every time zone,
    [generateSQLFromNaturalLanguage] returns without calling the completion
    service, and its SQL selects * from enrollments with [enrollment_date]
    from a start date to today, newest first, filtered on status 'active'
    exactly when the query contains "active".  The start date is the UTC
    date of [lastMonth] when the query contains "month", of [lastQuarter]
    when it contains "quarter" and not "month", and of [lastWeek]
    otherwise.  Where the zone has a constant offset, that instant is [k]
    days before now: 28 to 31 days for the month, 89 to 92 for the quarter
    and 7 for the week. *)
Theorem enrollment_override
    (env : Env) (query : string) (schema : DatabaseSchema) (log : Calls) :
  includes (toLowerCase query) "enrollment" = true ->
  (includes (toLowerCase query) "week"
   || includes (toLowerCase query) "month"
   || includes (toLowerCase query) "quarter")%bool = true ->
  exists start,
    generateSQLFromNaturalLanguage env query schema log
    = (Returned (enrollmentSQL (isoDate start) (isoDate (now env))
                               (includes (toLowerCase query) "active")),
       log)
    /\ start = (if includes (toLowerCase query) "month" then lastMonth env
                else if includes (toLowerCase query) "quarter"
                     then lastQuarter env
                     else lastWeek env)
    /\ (forall off, zone env = fixedZone off ->
        exists k,
          start = now env - k * msPerDay
          /\ (includes (toLowerCase query) "month" = true ->
              28 <= k <= 31)
          /\ (includes (toLowerCase query) "month" = false ->
              includes (toLowerCase query) "quarter" = true ->
              89 <= k <= 92)
          /\ (includes (toLowerCase query) "month" = false ->
              includes (toLowerCase query) "quarter" = false ->
              k = 7)).
Proof.
  intros He Ht.
  unfold generateSQLFromNaturalLanguage, isEnrollmentTimeQuery.
  rewrite He, Ht. cbn [andb]. unfold ret.
  rewrite handleEnrollmentQuery_sql.
  eexists. split; [reflexivity|]. split; [reflexivity|].
  intros off Hz.
  destruct (includes (toLowerCase query) "month") eqn:Em.
  - destruct (lastMonth_fixed env off Hz) as (k & Hk & Hr).
    exists k. repeat split; auto; try discriminate; lia.
  - destruct (includes (toLowerCase query) "quarter") eqn:Eq.
    + destruct (lastQuarter_fixed env off Hz) as (k & Hk & Hr).
      exists k. repeat split; auto; try discriminate; lia.
    + exists 7. rewrite (lastWeek_fixed env off Hz).
      repeat split; auto; discriminate.
Qed.

Lemma enrollment_override_witness :
  exists start,
    generateSQLFromNaturalLanguage (exampleEnv (Content None) parsesNothing)
      "Find all ACTIVE enrollments in the last week" {| tables := [] |} []
    = (Returned (enrollmentSQL
                   (isoDate start)
                   (isoDate (now (exampleEnv (Content None) parsesNothing)))
                   (includes (toLowerCase
                                "Find all ACTIVE enrollments in the last week")
                             "active")),
       [])
    /\ start = lastWeek (exampleEnv (Content None) parsesNothing)
    /\ start = now (exampleEnv (Content None) parsesNothing) - 7 * msPerDay.
Proof.
  destruct (enrollment_override (exampleEnv (Content None) parsesNothing)
              "Find all ACTIVE enrollments in the last week"
              {| tables := [] |} [] eq_refl eq_refl)
    as (start & Hrun & Hstart & Hdays).
  exists start. split; [exact Hrun|]. split; [exact Hstart|].
  destruct (Hdays 0 eq_refl) as (k & Hk & _ & _ & Hweek).
  rewrite Hk, (Hweek eq_refl eq_refl). reflexivity.
Defined.

(** Without a constant offset the day counts fail.  [setDate] moves the
    local calendar date and keeps the local time of day; across a change of
    offset that is an hour more or less than 7 days, and the UTC dates that
    [toISOString] prints can then be 8 or 6 apart: at 01:30 local time on
    29 October 2024 in central Europe the week starts on 21 October, at
    01:30 on 2 April 2024 (1 April in UTC) on 26 March. *)
Example enrollment_week_of_8_dates :
  generateSQLFromNaturalLanguage (inCentralEurope 1730161800000)
    "enrollments this week" {| tables := [] |} []
  = (Returned (enrollmentSQL "2024-10-21" "2024-10-29" false), [])
  /\ lastWeek (inCentralEurope 1730161800000)
     = 1730161800000 - 7 * msPerDay - 3600000.
Proof. split; vm_compute; reflexivity. Qed.

Example enrollment_week_of_6_dates :
  generateSQLFromNaturalLanguage (inCentralEurope 1712014200000)
    "enrollments this week" {| tables := [] |} []
  = (Returned (enrollmentSQL "2024-03-26" "2024-04-01" false), [])
  /\ lastWeek (inCentralEurope 1712014200000)
     = 1712014200000 - 7 * msPerDay + 3600000.
Proof. split; vm_compute; reflexivity. Qed.

Example enrollment_week_sql :
  generateSQLFromNaturalLanguage (exampleEnv (Content None) parsesNothing)
    "Find all ACTIVE enrollments in the last week" {| tables := [] |} []
  = (Returned (enrollmentSQL "2024-03-08" "2024-03-15" true), []).
Proof. vm_compute. reflexivity. Qed.

(** C10. [handleEnrollmentQuery] looks for "month" first, then for
    "quarter", and falls back to the week: a query with "month", with or
    without "quarter", starts at [lastMonth]; a query with "quarter" and
    without "month" starts at [lastQuarter]; every other query, one with
    "week" only for one, starts at [lastWeek].  In a zone of constant offset
    [lastWeek] is 7 days back, [lastMonth] 28 to 31 days and [lastQuarter]
    89 to 92 days, so the three periods never coincide. *)
Theorem enrollment_period_precedence (env : Env) (query : string) :
  let sqlFrom start :=
    enrollmentSQL (isoDate start) (isoDate (now env))
                  (includes (toLowerCase query) "active") in
  (includes (toLowerCase query) "month" = true ->
   handleEnrollmentQuery env query = sqlFrom (lastMonth env))
  /\ (includes (toLowerCase query) "month" = false ->
      includes (toLowerCase query) "quarter" = true ->
      handleEnrollmentQuery env query = sqlFrom (lastQuarter env))
  /\ (includes (toLowerCase query) "month" = false ->
      includes (toLowerCase query) "quarter" = false ->
      handleEnrollmentQuery env query = sqlFrom (lastWeek env))
  /\ (forall off, zone env = fixedZone off ->
      lastWeek env = now env - 7 * msPerDay
      /\ now env - 31 * msPerDay <= lastMonth env <= now env - 28 * msPerDay
      /\ now env - 92 * msPerDay <= lastQuarter env
         <= now env - 89 * msPerDay).
Proof.
  intros sqlFrom. subst sqlFrom. cbv beta.
  rewrite handleEnrollmentQuery_sql.
  split; [|split; [|split]].
  - now intros ->.
  - now intros -> ->.
  - now intros -> ->.
  - intros off Hz.
    destruct (lastMonth_fixed env off Hz) as (k1 & Hk1 & Hr1).
    destruct (lastQuarter_fixed env off Hz) as (k3 & Hk3 & Hr3).
    rewrite (lastWeek_fixed env off Hz), Hk1, Hk3.
    unfold msPerDay. lia.
Qed.

Lemma enrollment_period_precedence_witness :
  handleEnrollmentQuery (exampleEnv (Content None) parsesNothing)
    "enrollments by month over the last quarter"
  = enrollmentSQL
      (isoDate (lastMonth (exampleEnv (Content None) parsesNothing)))
      (isoDate (now (exampleEnv (Content None) parsesNothing)))
      (includes (toLowerCase "enrollments by month over the last quarter")
                "active").
Proof.
  apply (enrollment_period_precedence (exampleEnv (Content None) parsesNothing)
           "enrollments by month over the last quarter").
  reflexivity.
Defined.

Example month_wins_over_quarter :
  handleEnrollmentQuery (exampleEnv (Content None) parsesNothing)
    "enrollments by month over the last quarter"
  = enrollmentSQL "2024-02-15" "2024-03-15" false.
Proof. vm_compute. reflexivity. Qed.

Example quarter_without_month :
  handleEnrollmentQuery (exampleEnv (Content None) parsesNothing)
    "show how enrollments changed week by week over last quarter"
  = enrollmentSQL "2023-12-15" "2024-03-15" false.
Proof. vm_compute. reflexivity. Qed.

(** ** The generative path *)

Example generateSQL_strips_fence :
  generateSQLFromNaturalLanguage
    (exampleEnv (Content (Some ("```sql" ++ nl
                                ++ "SELECT * FROM users WHERE active = true"
                                ++ nl ++ "```"))) parsesNothing)
    "Show me all active users" {| tables := [] |} []
  = (Returned "SELECT * FROM users WHERE active = true",
     [SqlPrompt "" "2024-03-15" "Show me all active users"]).
Proof. vm_compute. reflexivity. Qed.

Example generateSQL_wraps_error :
  fst (generateSQLFromNaturalLanguage
         (exampleEnv (Rejects (newError "API connection failed")) parsesNothing)
         "Show me all active users" {| tables := [] |} [])
  = Threw (newError "OpenAI API error: API connection failed").
Proof. vm_compute. reflexivity. Qed.

(** * Properties of [lib/query-processor.ts] *)

(** ** The sanitized message *)

Lemma sanitize_safe e : In (sanitize e) safeMessages.
Proof.
  unfold sanitize, safeMessages.
  repeat match goal with
         | |- context [if ?b then _ else _] => destruct b
         end; cbn; tauto.
Qed.

Lemma safeMessages_no_secret m :
  In m safeMessages ->
  includes m "password" = false /\ includes m "admin" = false.
Proof.
  unfold safeMessages. cbn [In].
  intros Hm. repeat (destruct Hm as [<-|Hm]; [split; reflexivity|]).
  contradiction.
Qed.

Lemma lowerChar_idempotent c : lowerChar (lowerChar c) = lowerChar c.
Proof.
  destruct c as [[] [] [] [] [] [] [] []]; reflexivity.
Qed.

Lemma prefix_toLowerCase sub s :
  String.prefix sub s = true ->
  String.prefix (toLowerCase sub) (toLowerCase s) = true.
Proof.
  revert s. induction sub as [|a sub IH]; intros s; [intros _; destruct s; reflexivity|].
  destruct s as [|b s]; cbn [String.prefix toLowerCase]; [discriminate|].
  destruct (ascii_dec a b) as [->|Hne]; [|discriminate].
  intros Hp. destruct (ascii_dec (lowerChar b) (lowerChar b)); [|contradiction].
  now apply IH.
Qed.

(** A text that contains [sub] contains, lower-cased, the lower-cased [sub]. *)
Lemma includes_toLowerCase s sub :
  includes s sub = true ->
  includes (toLowerCase s) (toLowerCase sub) = true.
Proof.
  induction s as [|c s IH]; cbn [includes toLowerCase]; intros Hi.
  - apply orb_true_iff in Hi as [Hp|Hf]; [|discriminate].
    apply prefix_toLowerCase in Hp. cbn [toLowerCase] in Hp. now rewrite Hp.
  - apply orb_true_iff in Hi as [Hp|Hr].
    + apply prefix_toLowerCase in Hp. cbn [toLowerCase] in Hp. now rewrite Hp.
    + rewrite (IH Hr). apply orb_true_r.
Qed.

Lemma prefix_app a b s : String.prefix (a ++ b) s = true -> String.prefix a s = true.
Proof.
  revert s. induction a as [|x a IH]; intros s.
  - destruct s; reflexivity.
  - destruct s as [|y s]; cbn [append String.prefix]; [discriminate|].
    destruct (ascii_dec x y); [apply IH | discriminate].
Qed.

Lemma prefix_tail x a y s :
  String.prefix (String x a) (String y s) = true -> String.prefix a s = true.
Proof. cbn [String.prefix]. destruct (ascii_dec x y); [auto | discriminate]. Qed.

Lemma includes_tail s c sub :
  includes s (String c sub) = true -> includes s sub = true.
Proof.
  induction s as [|y s IH]; cbn [includes]; intros Hi.
  - apply orb_true_iff in Hi as [Hp|Hf]; discriminate.
  - apply orb_true_iff in Hi as [Hp|Hr].
    + apply prefix_tail in Hp.
      apply orb_true_iff. right.
      destruct s; cbn [includes]; now rewrite Hp.
    + apply orb_true_iff. right. auto.
Qed.

Lemma includes_app_l s a b : includes s (a ++ b) = true -> includes s a = true.
Proof.
  induction s as [|y s IH]; cbn [includes]; intros Hi.
  - apply orb_true_iff in Hi as [Hp|Hf]; [|discriminate].
    now rewrite (prefix_app _ _ _ Hp).
  - apply orb_true_iff in Hi as [Hp|Hr].
    + now rewrite (prefix_app _ _ _ Hp).
    + rewrite (IH Hr). apply orb_true_r.
Qed.

Lemma includes_app_r s a b : includes s (a ++ b) = true -> includes s b = true.
Proof.
  induction a as [|x a IH]; cbn [append]; [auto|].
  intros Hi. apply IH. eapply includes_tail, Hi.
Qed.

(** An error text with the password failure in it is an access error,
    unless it also speaks of a syntax error. *)
Lemma sanitize_password e :
  includes (StringOf e) passwordError = true ->
  includes (toLowerCase (StringOf e)) "syntax error" = false ->
  sanitize e = "Database access error".
Proof.
  intros Hp Hs.
  apply includes_toLowerCase in Hp.
  change (toLowerCase passwordError)
    with ("password " ++ "authentication failed" ++ toLowerCase
            (quoted " for user `admin`")) in Hp.
  apply includes_app_r, includes_app_l in Hp.
  unfold sanitize. rewrite Hs, Hp, orb_true_r. reflexivity.
Qed.

(** ** Failure of a component *)

Section AnyConnector.

Context {C : Type} `{DatabaseConnector C}.

Lemma generateVisualization_returns env q qr l :
  exists g l', generateVisualizationFromData env q qr l = (Returned g, l').
Proof.
  destruct (generateVisualization_cases env q qr l) as (g & l' & Hrun & _).
  now exists g, l'.
Qed.

(** The [try] block throws when one of its four stages does. *)
Lemma StageFails_pipeline env q (w : World C) e w' :
  StageFails env q w e w' -> pipeline env q w = (Threw e, w').
Proof.
  intros Hf. unfold pipeline, bind, onDb, onOpenAI.
  destruct Hf as [c1 H1 | u c1 c2 H1 H2 | u c1 schema c2 l H1 H2 H3
                  | u c1 schema c2 text l c3 H1 H2 H3 H4].
  - now rewrite H1.
  - rewrite H1. cbn [db calls dbCalls]. now rewrite H2.
  - rewrite H1. cbn [db calls dbCalls]. rewrite H2. cbn [db calls dbCalls].
    now rewrite H3.
  - rewrite H1. cbn [db calls dbCalls]. rewrite H2. cbn [db calls dbCalls].
    rewrite H3. cbn [db calls dbCalls]. now rewrite H4.
Qed.

(** And only then. *)
Lemma pipeline_StageFails env q (w : World C) e w' :
  pipeline env q w = (Threw e, w') -> StageFails env q w e w'.
Proof.
  unfold pipeline, bind, onDb, onOpenAI.
  destruct (connect (db w)) as [[u|e1] c1] eqn:H1; cbn [db calls dbCalls].
  2:{ intros E. injection E as <- <-. now constructor. }
  destruct (getSchema c1) as [[schema|e2] c2] eqn:H2; cbn [db calls dbCalls].
  2:{ intros E. injection E as <- <-. econstructor; eassumption. }
  destruct (generateSQLFromNaturalLanguage env q schema (calls w))
    as [[text|e3] l] eqn:H3; cbn [db calls dbCalls].
  2:{ intros E. injection E as <- <-. econstructor; eassumption. }
  destruct (executeQuery text c2) as [[qr|e4] c3] eqn:H4; cbn [db calls dbCalls].
  2:{ intros E. injection E as <- <-. econstructor; eassumption. }
  destruct (determineResultType q); cbn [db calls dbCalls ret]; [discriminate|].
  destruct (generateVisualization_returns env q qr l) as (g & l' & ->).
  discriminate.
Qed.

(** C2, amended. When a component called by [processQuery] fails
    (connection, schema introspection, SQL generation or SQL execution) and
    the [finally] block completes, [processQuery] returns a response of type
    "table" with empty data, the executed query "Error executing query",
    row count 0 and one of the six fixed messages, found by substring
    matching on the lower-cased error text, in the order syntax error,
    access, timeout, missing table, missing column, with "Database query
    failed" when nothing matches.  No message contains "password" or
    "admin"; an error whose text contains the password failure for user
    "admin", and not "syntax error", is reported as "Database access
    error". *)
Theorem processQuery_failure
    (env : Env) (request : QueryRequest) (w w1 w2 : World C) (e : Thrown) :
  StageFails env (query request) w e w1 ->
  release w1 = (Returned tt, w2) ->
  let errorStr := toLowerCase (StringOf e) in
  exists m,
    processQuery env request w
    = (Returned {| resultType := table;
                   data := EmptyData;
                   sql := None;
                   message := Some m;
                   debug := Some {| executedQuery := "Error executing query";
                                    rowCount := 0 |} |}, w2)
    /\ In m safeMessages
    /\ includes m "password" = false
    /\ includes m "admin" = false
    /\ (includes (StringOf e) passwordError = true ->
        includes errorStr "syntax error" = false ->
        m = "Database access error")
    /\ m = (if includes errorStr "syntax error" then "SQL syntax error"
            else if (includes errorStr "permission denied"
                     || includes errorStr "authentication failed")%bool
            then "Database access error"
            else if includes errorStr "timeout" then "Database query timeout"
            else if (includes errorStr "relation"
                     && includes errorStr "does not exist")%bool
            then "Requested table does not exist"
            else if (includes errorStr "column"
                     && includes errorStr "does not exist")%bool
            then "Requested column does not exist"
            else "Database query failed").
Proof.
  intros Hf Hr errorStr. exists (sanitize e).
  split.
  - unfold processQuery, tryFinally, tryCatch.
    rewrite (StageFails_pipeline _ _ _ _ _ Hf).
    unfold recover, ret. rewrite Hr. reflexivity.
  - split; [apply sanitize_safe|].
    destruct (safeMessages_no_secret _ (sanitize_safe e)) as [Hp Ha].
    split; [exact Hp|]. split; [exact Ha|]. split.
    + apply sanitize_password.
    + reflexivity.
Qed.

(** ** The connector calls of a request *)

Lemma disconnects_app l c :
  disconnects (l ++ [c]) = (disconnects l + if isDisconnect c then 1 else 0)%nat.
Proof.
  unfold disconnects. rewrite filter_app, length_app. cbn [filter].
  destruct (isDisconnect c); reflexivity.
Qed.

Lemma onDb_dbCalls {A} what (m : M C A) (w : World C) :
  dbCalls (snd (onDb what m w)) = (dbCalls w ++ [what])%list.
Proof. unfold onDb. destruct (m (db w)). reflexivity. Qed.

Lemma onOpenAI_dbCalls {A} (m : M Calls A) (w : World C) :
  dbCalls (snd (onOpenAI m w)) = dbCalls w.
Proof. unfold onOpenAI. destruct (m (calls w)). reflexivity. Qed.

(** Neither the [try] block nor the [catch] block calls [disconnect]. *)
Lemma pipeline_disconnects env q (w : World C) :
  disconnects (dbCalls (snd (tryCatch (pipeline env q) recover w)))
  = disconnects (dbCalls w).
Proof.
  unfold tryCatch, pipeline, bind, recover, ret, onDb, onOpenAI.
  destruct (connect (db w)) as [[u|e1] c1]; cbn [db calls dbCalls snd];
    [|now rewrite disconnects_app, Nat.add_0_r].
  destruct (getSchema c1) as [[schema|e2] c2]; cbn [db calls dbCalls snd];
    [|now rewrite !disconnects_app, !Nat.add_0_r].
  destruct (generateSQLFromNaturalLanguage env q schema (calls w))
    as [[text|e3] l]; cbn [db calls dbCalls snd];
    [|now rewrite !disconnects_app, !Nat.add_0_r].
  destruct (executeQuery text c2) as [[qr|e4] c3]; cbn [db calls dbCalls snd];
    [|now rewrite !disconnects_app, !Nat.add_0_r].
  destruct (determineResultType q); cbn [db calls dbCalls snd].
  - now rewrite !disconnects_app, !Nat.add_0_r.
  - destruct (generateVisualizationFromData env q qr l) as [[g|e5] l'];
      cbn [db calls dbCalls snd]; now rewrite !disconnects_app, !Nat.add_0_r.
Qed.

(** [processQuery] calls [disconnect] once when the connector says it is
    connected at the end of the [try] and [catch] blocks, and not at all
    otherwise. *)
Lemma disconnect_guarded env request (w : World C) :
  let w1 := snd (tryCatch (pipeline env (query request)) recover w) in
  disconnects (dbCalls (snd (processQuery env request w)))
  = (disconnects (dbCalls w) + if isConnected (db w1) then 1 else 0)%nat.
Proof.
  intros w1. unfold processQuery, tryFinally.
  pose proof (pipeline_disconnects env (query request) w) as Hp.
  fold w1 in Hp.
  destruct (tryCatch (pipeline env (query request)) recover w) as [r w1'] eqn:E.
  subst w1. cbn [snd] in *.
  unfold release, bind, checkConnected, onDb, ret.
  destruct (isConnected (db w1')); cbn [db calls dbCalls].
  - destruct (disconnect (db w1')) as [[u|e] c]; cbn [snd dbCalls];
      rewrite !disconnects_app, Hp; cbn [isDisconnect]; lia.
  - cbn [snd dbCalls]. rewrite disconnects_app, Hp. cbn [isDisconnect]. lia.
Qed.

End AnyConnector.

(** * Properties of [lib/database/postgresql.ts] *)

Section AnyDriver.

Context {P K : Type} `{Pg P K}.

Lemma withPool_client {A} (c : PostgreSQLConnector P K) (m : M P A) :
  client (snd (withPool c m)) = client c.
Proof. unfold withPool. destruct (m (pool c)). reflexivity. Qed.

Lemma query_client text params (c : PostgreSQLConnector P K) :
  client (snd (clientQuery text params c)) = client c.
Proof.
  unfold clientQuery. destruct (client c) eqn:E; [|exact E].
  rewrite withPool_client. exact E.
Qed.

Lemma readTable_client row (c : PostgreSQLConnector P K) :
  client (snd (readTable row c)) = client c.
Proof.
  unfold readTable, bind.
  pose proof (query_client columnsQuery [field "table_name" row] c) as Hq.
  destruct (clientQuery columnsQuery [field "table_name" row] c) as [[r|e] c'];
    cbn [snd] in *; [|exact Hq].
  destruct (pg_rows r); exact Hq.
Qed.

Lemma readTables_client tableRows (c : PostgreSQLConnector P K) :
  client (snd (readTables tableRows c)) = client c.
Proof.
  revert c. induction tableRows as [|row rest IH]; intros c; [reflexivity|].
  cbn [readTables]. unfold bind.
  pose proof (readTable_client row c) as Hr.
  destruct (readTable row c) as [[t|e] c1]; cbn [snd] in *; [|exact Hr].
  pose proof (IH c1) as Hrest.
  destruct (readTables rest c1) as [[ts|e] c2]; unfold ret; cbn [snd] in *; congruence.
Qed.

(** A connected connector stays connected through [getSchema]. *)
Lemma pg_getSchema_client (c : PostgreSQLConnector P K) k :
  client c = Some k -> client (snd (pg_getSchema c)) = Some k.
Proof.
  intros Hc. unfold pg_getSchema, bind, autoConnect, pg_isConnected.
  rewrite Hc. unfold tryCatch, bind.
  pose proof (query_client tablesQuery [] c) as Hq.
  destruct (clientQuery tablesQuery [] c) as [[r|e] c1]; cbn [snd] in *;
    [|unfold throw; cbn; congruence].
  destruct (pg_rows r) as [tableRows|]; [|unfold throw; cbn; congruence].
  pose proof (readTables_client tableRows c1) as Hr.
  destruct (readTables tableRows c1) as [[ts|e] c2]; cbn [snd] in *;
    unfold throw, ret; cbn; congruence.
Qed.

(** And through [executeQuery]. *)
Lemma pg_executeQuery_client text (c : PostgreSQLConnector P K) k :
  client c = Some k -> client (snd (pg_executeQuery text c)) = Some k.
Proof.
  intros Hc. unfold pg_executeQuery, bind, autoConnect, pg_isConnected.
  rewrite Hc. unfold tryCatch, bind.
  pose proof (query_client text [] c) as Hq.
  destruct (clientQuery text [] c) as [[r|e] c1]; cbn [snd] in *;
    [|unfold throw; cbn; congruence].
  destruct (pg_rows r); unfold ret; cbn; congruence.
Qed.

(** At the end of the [try] and [catch] blocks a connector that started
    without client is connected exactly when [pool.connect()] resolved. *)
Lemma pipeline_isConnected env q (w : World (PostgreSQLConnector P K)) :
  client (db w) = None ->
  isConnected (db (snd (tryCatch (pipeline env q) recover w)))
  = match fst (pool_connect (pool (db w))) with
    | Returned _ => true
    | Threw _ => false
    end.
Proof.
  intros Hc.
  unfold tryCatch, pipeline, bind, recover, ret, onDb, onOpenAI.
  cbn [connect getSchema executeQuery isConnected PostgreSQL_DatabaseConnector].
  unfold pg_connect at 1, pg_isConnected.
  destruct (pool_connect (pool (db w))) as [[k|e] p]; cbn [fst snd db calls dbCalls];
    [|now rewrite Hc].
  set (c1 := {| pool := p; client := Some k |}).
  pose proof (pg_getSchema_client c1 k eq_refl) as H2.
  destruct (pg_getSchema c1) as [[schema|e2] c2]; cbn [fst snd db calls dbCalls] in *;
    [|now rewrite H2].
  destruct (generateSQLFromNaturalLanguage env q schema (calls w))
    as [[text|e3] l]; cbn [fst snd db calls dbCalls]; [|now rewrite H2].
  pose proof (pg_executeQuery_client text c2 k H2) as H4.
  destruct (pg_executeQuery text c2) as [[qr|e4] c3];
    cbn [fst snd db calls dbCalls] in *; [|now rewrite H4].
  destruct (determineResultType q); cbn [fst snd db calls dbCalls].
  - now rewrite H4.
  - destruct (generateVisualizationFromData env q qr l) as [[g|e5] l'];
      cbn [fst snd db calls dbCalls]; now rewrite H4.
Qed.

(** A [disconnect] that completes leaves no client. *)
Lemma pg_disconnect_returned (c c' : PostgreSQLConnector P K) u :
  pg_disconnect c = (Returned u, c') -> client c' = None.
Proof.
  unfold pg_disconnect.
  destruct (client c) as [k|] eqn:Hc.
  - destruct (client_release k (pool c)) as [[v|e] p]; [|discriminate].
    unfold withPool. cbn [pool client].
    destruct (pool_end p) as [r p']. intros E. injection E as _ <-. reflexivity.
  - unfold withPool. destruct (pool_end (pool c)) as [r p'].
    intros E. injection E as _ <-. exact Hc.
Qed.

(** C4, amended. On a PostgreSQL connector fresh from its constructor,
    [processQuery] calls [disconnect] exactly once when [connect] succeeded,
    whatever happened afterwards, and not at all when [connect] failed: the
    [finally] block disconnects only a connector that says it is connected.
    Whenever [processQuery] returns a response, the connector is not
    connected. *)
Theorem processQuery_disconnects
    (env : Env) (request : QueryRequest) (p : P) :
  let w := start (@fresh P K p) in
  let w1 := snd (tryCatch (pipeline env (query request)) recover w) in
  let done := processQuery env request w in
  disconnects (dbCalls (snd done)) = (if isConnected (db w1) then 1 else 0)%nat
  /\ isConnected (db w1) = match fst (pool_connect p) with
                           | Returned _ => true
                           | Threw _ => false
                           end
  /\ (forall response, fst done = Returned response ->
                       isConnected (db (snd done)) = false).
Proof.
  intros w w1 done. split; [|split].
  - subst done w1. rewrite disconnect_guarded. reflexivity.
  - subst w1. now rewrite pipeline_isConnected.
  - intros response. subst done. unfold processQuery, tryFinally.
    fold w1.
    destruct (tryCatch (pipeline env (query request)) recover w) as [r w1'] eqn:E.
    subst w1. cbn [snd].
    unfold release, bind, checkConnected, onDb, ret. cbn [db calls dbCalls].
    destruct (isConnected (db w1')) eqn:Ec; cbn [fst snd db].
    + cbn [disconnect PostgreSQL_DatabaseConnector].
      destruct (pg_disconnect (db w1')) as [[u|e] c] eqn:Ed; cbn [fst snd db];
        [|discriminate].
      intros _. cbn [isConnected PostgreSQL_DatabaseConnector].
      unfold pg_isConnected. now rewrite (pg_disconnect_returned _ _ _ Ed).
    + intros _. exact Ec.
Qed.

(** C8, amended. On a connector without client, one that never connected
    or one that has disconnected, [disconnect] releases nothing and awaits
    [pool.end()]: it leaves the connector disconnected, and it completes
    exactly when [pool.end()] does, an error of [pool.end()] being the
    error of [disconnect].  A [disconnect] that completes leaves the
    connector disconnected, so that a second call is such a call. *)
Theorem disconnect_twice (c : PostgreSQLConnector P K) :
  (isConnected c = false ->
   fst (disconnect c) = fst (pool_end (pool c))
   /\ isConnected (snd (disconnect c)) = false)
  /\ (forall u c1, disconnect c = (Returned u, c1) ->
      isConnected c1 = false
      /\ fst (disconnect c1) = fst (pool_end (pool c1))
      /\ isConnected (snd (disconnect c1)) = false).
Proof.
  assert (Hidle : forall d : PostgreSQLConnector P K,
             client d = None ->
             fst (pg_disconnect d) = fst (pool_end (pool d))
             /\ pg_isConnected (snd (pg_disconnect d)) = false).
  { intros d Hd. unfold pg_disconnect, pg_isConnected. rewrite Hd.
    unfold withPool. destruct (pool_end (pool d)) as [r p'].
    cbn [fst snd client]. now rewrite Hd. }
  cbn [disconnect isConnected PostgreSQL_DatabaseConnector]. split.
  - unfold pg_isConnected at 1. intros Hc. apply Hidle.
    destruct (client c); [discriminate | reflexivity].
  - intros u c1 Hd. apply pg_disconnect_returned in Hd.
    split; [unfold pg_isConnected; now rewrite Hd | now apply Hidle].
Qed.

End AnyDriver.

(** * The properties on examples *)

Example processQuery_users :
  exists w,
    processQuery usersEnv usersRequest
      (start (fresh (scripted None (Returned usersResult))))
    = (Returned {| resultType := table;
                   data := TableData
                             {| tr_columns := ["id"; "name"];
                                tr_rows := [[("id", JNum 1);
                                             ("name", JStr "John")]] |};
                   sql := Some "SELECT * FROM users";
                   message := None;
                   debug := Some {| executedQuery := "SELECT * FROM users";
                                    rowCount := 1 |} |}, w)
    /\ dbCalls w = [CallConnect; CallGetSchema;
                    CallExecuteQuery "SELECT * FROM users";
                    CallIsConnected; CallDisconnect]
    /\ isConnected (db w) = false.
Proof. eexists. split; [vm_compute; reflexivity|]. split; reflexivity. Qed.

(** The claim of C2 as it is worded fails on an error text that has the
    password failure after a syntax error: the first pattern that matches
    decides, and the message is "SQL syntax error". *)
Lemma password_text_reported_as_syntax_error :
  let text := "syntax error at or near " ++ passwordError in
  let e := QueryError ("Query execution failed: " ++ text) in
  exists w1 w2,
    StageFails usersEnv (query usersRequest) (rejecting text) e w1
    /\ includes (StringOf e) passwordError = true
    /\ processQuery usersEnv usersRequest (rejecting text)
       = (Returned (errorResponse "SQL syntax error"), w2)
    /\ "SQL syntax error" <> "Database access error".
Proof.
  cbv zeta. eexists _, _. split; [|split; [|split]].
  - eapply ExecutionFails; vm_compute; reflexivity.
  - vm_compute. reflexivity.
  - vm_compute. reflexivity.
  - discriminate.
Qed.

Lemma processQuery_failure_witness :
  let e := QueryError ("Query execution failed: Error: " ++ passwordError) in
  let w := rejecting ("Error: " ++ passwordError) in
  let errorStr := toLowerCase (StringOf e) in
  exists m,
    processQuery usersEnv usersRequest w
    = (Returned {| resultType := table;
                   data := EmptyData;
                   sql := None;
                   message := Some m;
                   debug := Some {| executedQuery := "Error executing query";
                                    rowCount := 0 |} |},
       snd (processQuery usersEnv usersRequest w))
    /\ In m safeMessages
    /\ includes m "password" = false
    /\ includes m "admin" = false
    /\ (includes (StringOf e) passwordError = true ->
        includes errorStr "syntax error" = false ->
        m = "Database access error")
    /\ m = (if includes errorStr "syntax error" then "SQL syntax error"
            else if (includes errorStr "permission denied"
                     || includes errorStr "authentication failed")%bool
            then "Database access error"
            else if includes errorStr "timeout" then "Database query timeout"
            else if (includes errorStr "relation"
                     && includes errorStr "does not exist")%bool
            then "Requested table does not exist"
            else if (includes errorStr "column"
                     && includes errorStr "does not exist")%bool
            then "Requested column does not exist"
            else "Database query failed").
Proof.
  apply (processQuery_failure usersEnv usersRequest
           (rejecting ("Error: " ++ passwordError))
           (snd (pipeline usersEnv (query usersRequest)
                          (rejecting ("Error: " ++ passwordError))))
           (snd (processQuery usersEnv usersRequest
                              (rejecting ("Error: " ++ passwordError))))
           (QueryError ("Query execution failed: Error: " ++ passwordError))).
  - eapply ExecutionFails; vm_compute; reflexivity.
  - vm_compute. reflexivity.
Defined.

Example password_failure_message :
  exists w,
    processQuery usersEnv usersRequest (rejecting ("Error: " ++ passwordError))
    = (Returned (errorResponse "Database access error"), w).
Proof. eexists. vm_compute. reflexivity. Qed.

Example missing_table_message :
  exists w,
    processQuery usersEnv usersRequest
      (rejecting (quoted "relation `orders` does not exist"))
    = (Returned (errorResponse "Requested table does not exist"), w)
    /\ disconnects (dbCalls w) = 1%nat.
Proof. eexists. split; [vm_compute; reflexivity | reflexivity]. Qed.

(** The claim of C4 as it is worded fails when the connection fails: the
    connector never says it is connected, and [disconnect] is not called. *)
Lemma no_disconnect_after_failed_connect :
  exists w,
    processQuery usersEnv usersRequest unreachable
    = (Returned (errorResponse "Database query failed"), w)
    /\ dbCalls w = [CallConnect; CallIsConnected]
    /\ disconnects (dbCalls w) <> 1%nat.
Proof.
  eexists. split; [vm_compute; reflexivity|]. split; [reflexivity|].
  discriminate.
Qed.

Lemma processQuery_disconnects_witness :
  isConnected
    (db (snd (processQuery usersEnv usersRequest
                (start (fresh (scripted None (Returned usersResult)))))))
  = false.
Proof.
  destruct (processQuery_disconnects usersEnv usersRequest
              (scripted None (Returned usersResult))) as (_ & _ & Hdone).
  eapply Hdone. vm_compute. reflexivity.
Defined.

(** The claim of C8 as it is worded fails on a pool that rejects a second
    [end()], as the pool of node-postgres does: the second [disconnect]
    throws. *)
Lemma second_disconnect_throws :
  let c0 : PostgreSQLConnector ScriptedPool unit :=
    fresh (scripted None (Returned usersResult)) in
  exists c1 c2 c3,
    connect c0 = (Returned tt, c1)
    /\ disconnect c1 = (Returned tt, c2)
    /\ disconnect c2
       = (Threw (newError "Called end on pool more than once"), c3).
Proof.
  cbv zeta. eexists _, _, _.
  split; [vm_compute; reflexivity|]. split; vm_compute; reflexivity.
Qed.

Lemma disconnect_twice_witness :
  let c : PostgreSQLConnector ScriptedPool unit :=
    fresh (scripted None (Returned usersResult)) in
  fst (disconnect c) = fst (pool_end (pool c))
  /\ isConnected (snd (disconnect c)) = false.
Proof.
  apply (disconnect_twice (fresh (scripted None (Returned usersResult)))).
  reflexivity.
Defined.

(** * Properties of [lib/utils/env-validator.ts] *)

Lemma collectMissing_filter penv vars :
  collectMissing penv vars = filter (fun v => negb (isSet penv v)) vars.
Proof.
  induction vars as [|v rest IH]; cbn [collectMissing filter]; [reflexivity|].
  destruct (isSet penv v); cbn [negb]; now rewrite IH.
Qed.

Lemma collectMissing_nil penv vars :
  collectMissing penv vars = [] <-> forall v, In v vars -> isSet penv v = true.
Proof.
  induction vars as [|v rest IH]; cbn [collectMissing].
  - split; [intros _ v [] | reflexivity].
  - destruct (isSet penv v) eqn:E.
    + rewrite IH. split.
      * intros Hr x [<-|Hx]; [exact E | now apply Hr].
      * intros Hall x Hx. apply Hall. now right.
    + split; [discriminate|]. intros Hall.
      rewrite (Hall v (or_introl eq_refl)) in E. discriminate.
Qed.

Lemma validate_returns penv vars :
  validateEnvVariables penv vars = Returned tt
  <-> forall v, In v vars -> isSet penv v = true.
Proof.
  unfold validateEnvVariables. rewrite <- collectMissing_nil.
  destruct (collectMissing penv vars); cbn; split;
    try reflexivity; discriminate.
Qed.

(** X1. [validateEnvVariables] passes exactly when every required variable
    is set to a non-empty string; when it throws, the message lists the
    names that are not, in the order in which they are required. *)
Theorem validateEnvVariables_passes
    (penv : ProcessEnv) (requiredVars : list string) :
  (validateEnvVariables penv requiredVars = Returned tt
   <-> forall v, In v requiredVars -> isSet penv v = true)
  /\ (forall e, validateEnvVariables penv requiredVars = Threw e ->
        e = newError ("Missing required environment variables: "
                      ++ join ", " (filter (fun v => negb (isSet penv v))
                                           requiredVars))).
Proof.
  split; [apply validate_returns|].
  unfold validateEnvVariables. rewrite <- collectMissing_filter.
  destruct (collectMissing penv requiredVars); cbn; [discriminate|].
  intros e E. now injection E as <-.
Qed.

Example validate_lists_missing :
  validateEnvVariables exampleProcessEnv ["VAR1"; "DATABASE_URL"; "EMPTY"]
  = Threw (newError "Missing required environment variables: VAR1, EMPTY").
Proof. reflexivity. Qed.

(** X2. Once [validateEnvVariables] has passed for a list of names,
    [getEnvVariable] without default returns, for every name of the list,
    the value of the variable, and that value is not empty. *)
Theorem validated_variables_readable
    (penv : ProcessEnv) (requiredVars : list string) (key : string) :
  validateEnvVariables penv requiredVars = Returned tt ->
  In key requiredVars ->
  exists value,
    getEnvVariable penv key None = Returned value
    /\ penv key = Some value /\ value <> "".
Proof.
  intros Hok Hin.
  pose proof (proj1 (validate_returns penv requiredVars) Hok key Hin) as Hv.
  unfold isSet in Hv. unfold getEnvVariable.
  destruct (penv key) as [value|]; [|discriminate].
  exists value. rewrite Hv. split; [reflexivity|]. split; [reflexivity|].
  intros ->. discriminate.
Qed.

Lemma validated_variables_readable_witness :
  exists value,
    getEnvVariable exampleProcessEnv "OPENAI_API_KEY" None = Returned value
    /\ exampleProcessEnv "OPENAI_API_KEY" = Some value /\ value <> "".
Proof.
  apply (validated_variables_readable exampleProcessEnv
           ["DATABASE_URL"; "OPENAI_API_KEY"] "OPENAI_API_KEY").
  - reflexivity.
  - simpl. right. left. reflexivity.
Defined.

Lemma substring_0_app a rest :
  substring 0 (String.length a) (a ++ rest) = a.
Proof.
  induction a as [|c a IH]; cbn [String.length append substring].
  - destruct rest; reflexivity.
  - now rewrite IH.
Qed.

Lemma substring_0_all b : substring 0 (String.length b) b = b.
Proof.
  induction b as [|c b IH]; cbn [String.length substring]; [reflexivity|].
  now rewrite IH.
Qed.

Lemma substring_skip_app a b :
  substring (String.length a) (String.length b) (a ++ b) = b.
Proof.
  induction a as [|c a IH]; cbn [String.length append substring].
  - apply substring_0_all.
  - exact IH.
Qed.

Lemma length_append a b :
  String.length (a ++ b) = (String.length a + String.length b)%nat.
Proof.
  induction a as [|c a IH]; cbn [String.length append]; [reflexivity|].
  now rewrite IH.
Qed.

Lemma length_substring n m s : (String.length (substring n m s) <= m)%nat.
Proof.
  revert n m. induction s as [|c s IH]; intros n m.
  - destruct n, m; cbn; lia.
  - destruct n as [|n]; cbn [substring].
    + destruct m as [|m]; cbn [String.length]; [lia|].
      specialize (IH 0%nat m). lia.
    + apply IH.
Qed.

(** X3. For a value of more than eight characters
    [obfuscateSensitiveData] shows the first four and the last four
    characters and nothing of what is between them: two values that agree
    on these eight characters are obfuscated alike. *)
Theorem obfuscate_hides_middle (first middle last : string) :
  String.length first = 4%nat -> String.length last = 4%nat ->
  middle <> "" ->
  obfuscateSensitiveData (first ++ middle ++ last) = first ++ "..." ++ last
  /\ forall middle', middle' <> "" ->
       obfuscateSensitiveData (first ++ middle' ++ last)
       = obfuscateSensitiveData (first ++ middle ++ last).
Proof.
  intros Hf Hl Hm.
  assert (Hone : forall m, m <> "" ->
            obfuscateSensitiveData (first ++ m ++ last) = first ++ "..." ++ last).
  { intros m Hne. unfold obfuscateSensitiveData.
    assert (Hlen : String.length (first ++ m ++ last)
                   = (8 + String.length m)%nat)
      by (rewrite !length_append; lia).
    assert (Hpos : (0 < String.length m)%nat)
      by (destruct m; [contradiction | cbn; lia]).
    destruct (String.eqb_spec (first ++ m ++ last) "") as [E|_].
    { rewrite E in Hlen. cbn in Hlen. lia. }
    rewrite Hlen.
    destruct (Nat.ltb_spec 8 (8 + String.length m)); [|lia].
    assert (H1 : substring 0 4 (first ++ m ++ last) = first)
      by (rewrite <- Hf; apply substring_0_app).
    assert (H2 : substring (8 + String.length m - 4) 4 (first ++ m ++ last)
                 = last).
    { replace (8 + String.length m - 4)%nat
        with (String.length (first ++ m)) by (rewrite length_append; lia).
      rewrite <- Hl, <- append_assoc. apply substring_skip_app. }
    now rewrite H1, H2. }
  split; [now apply Hone|].
  intros m' Hm'. now rewrite !Hone.
Qed.

Lemma obfuscate_hides_middle_witness :
  obfuscateSensitiveData ("abcd" ++ "efghijkl" ++ "mnop") = "abcd" ++ "..." ++ "mnop"
  /\ forall middle', middle' <> "" ->
       obfuscateSensitiveData ("abcd" ++ middle' ++ "mnop")
       = obfuscateSensitiveData ("abcd" ++ "efghijkl" ++ "mnop").
Proof.
  apply (obfuscate_hides_middle "abcd" "efghijkl" "mnop").
  - reflexivity.
  - reflexivity.
  - discriminate.
Defined.

(** X4. The output of [obfuscateSensitiveData] has at most eleven
    characters, but a value of one or two characters is shown whole,
    followed by the three dots. *)
Theorem obfuscate_short_values (value : string) :
  (String.length (obfuscateSensitiveData value) <= 11)%nat
  /\ (value <> "" -> (String.length value <= 2)%nat ->
      obfuscateSensitiveData value = value ++ "...").
Proof.
  unfold obfuscateSensitiveData. split.
  - destruct (String.eqb value ""); [cbn; lia|].
    destruct (Nat.ltb 8 (String.length value)).
    + rewrite !length_append.
      pose proof (length_substring 0 4 value).
      pose proof (length_substring (String.length value - 4) 4 value).
      cbn [String.length]. lia.
    + rewrite length_append. pose proof (length_substring 0 2 value).
      cbn [String.length]. lia.
  - intros Hne Hlen.
    destruct (String.eqb_spec value ""); [contradiction|].
    destruct value as [|a [|b [|c rest]]]; cbn in Hlen; try lia;
      try contradiction; reflexivity.
Qed.

Lemma obfuscate_short_values_witness : obfuscateSensitiveData "ab" = "ab" ++ "...".
Proof.
  apply (obfuscate_short_values "ab"); [discriminate | simpl; lia].
Defined.

Example obfuscate_examples :
  obfuscateSensitiveData "abcdefghijklmnop" = "abcd...mnop"
  /\ obfuscateSensitiveData "abcd" = "ab..."
  /\ obfuscateSensitiveData "" = "".
Proof. repeat split. Qed.

Example getApiKey_logs_obfuscated :
  getApiKey exampleProcessEnv "OPENAI_API_KEY" []
  = (Returned "1234567890abcdef",
     ["API key 'OPENAI_API_KEY' was accessed (1234...cdef)"]).
Proof. reflexivity. Qed.

(** * Properties of [lib/utils/path-utils.ts] *)

Lemma splitSeparators_cons filePath :
  exists segment segments, splitSeparators filePath = segment :: segments.
Proof.
  destruct filePath as [|c rest]; cbn [splitSeparators]; [now eexists _, _|].
  destruct (isSeparator c); [now eexists _, _|].
  destruct (splitSeparators rest); now eexists _, _.
Qed.

Lemma concat_cons_char sepText c segment segments :
  String.concat sepText (String c segment :: segments)
  = String c (String.concat sepText (segment :: segments)).
Proof. destruct segments; reflexivity. Qed.

Lemma concat_empty_cons s segment segments :
  String.concat (String s EmptyString) (EmptyString :: segment :: segments)
  = String s (String.concat (String s EmptyString) (segment :: segments)).
Proof. reflexivity. Qed.

(** Splitting at the separators and joining with [s] is changing every
    separator into [s]. *)
Lemma join_splitSeparators s filePath :
  join (String s EmptyString) (splitSeparators filePath)
  = mapChars (fun c => if isSeparator c then s else c) filePath.
Proof.
  unfold join.
  induction filePath as [|c rest IH]; cbn [splitSeparators mapChars];
    [reflexivity|].
  destruct (splitSeparators_cons rest) as (segment & segments & E).
  rewrite E in *.
  destruct (isSeparator c).
  - rewrite concat_empty_cons. now rewrite IH.
  - rewrite concat_cons_char. now rewrite IH.
Qed.

Lemma isSeparator_sep platform : isSeparator (sep platform) = true.
Proof. unfold sep. destruct (IS_WINDOWS platform); reflexivity. Qed.

(** X5. [normalizePath] keeps every character of the path but the slashes
    and backslashes, each of which becomes the separator of the platform;
    the length of the path does not change. *)
Theorem normalizePath_separators (platform filePath : string) :
  normalizePath platform filePath
  = mapChars (fun c => if isSeparator c then sep platform else c) filePath
  /\ String.length (normalizePath platform filePath) = String.length filePath.
Proof.
  unfold normalizePath. rewrite join_splitSeparators. split; [reflexivity|].
  induction filePath as [|c rest IH]; cbn [mapChars String.length];
    [reflexivity | now rewrite IH].
Qed.

(** X6. [normalizePath] is idempotent: a normalized path is left as it
    is. *)
Theorem normalizePath_idempotent (platform filePath : string) :
  normalizePath platform (normalizePath platform filePath)
  = normalizePath platform filePath.
Proof.
  unfold normalizePath. rewrite !join_splitSeparators.
  induction filePath as [|c rest IH]; cbn [mapChars]; [reflexivity|].
  rewrite IH. f_equal.
  destruct (isSeparator c) eqn:E; [|now rewrite E].
  now rewrite isSeparator_sep.
Qed.

(** X7. On every platform [getOsSpecificCommand] changes a command as
    [normalizePath] changes a path: on Windows every slash becomes a
    backslash, elsewhere every backslash a slash. *)
Theorem getOsSpecificCommand_normalizes (platform command : string) :
  getOsSpecificCommand platform command = normalizePath platform command.
Proof.
  unfold normalizePath, getOsSpecificCommand, sep.
  rewrite join_splitSeparators.
  destruct (IS_WINDOWS platform);
    induction command as [|c rest IH]; cbn [replaceAll mapChars];
    try reflexivity; rewrite IH; f_equal; unfold isSeparator;
    destruct (Ascii.eqb c slash) eqn:Es;
    destruct (Ascii.eqb c backslash) eqn:Eb; try reflexivity;
    cbn [orb]; symmetry; now apply Ascii.eqb_eq.
Qed.

Example normalizePath_windows :
  normalizePath "win32" "src/lib\utils/path-utils.ts"
  = "src\lib\utils\path-utils.ts".
Proof. reflexivity. Qed.

Example normalizePath_linux :
  normalizePath "linux" "src/lib\utils/path-utils.ts"
  = "src/lib/utils/path-utils.ts".
Proof. reflexivity. Qed.

(** * Properties of [lib/csrf-protection.ts] *)

Lemma length_hex bytes : String.length (hex bytes) = (2 * List.length bytes)%nat.
Proof.
  induction bytes as [|b rest IH]; cbn [hex String.length List.length];
    [reflexivity | rewrite IH; lia].
Qed.

Lemma eqb_refl_false t value : t <> value -> String.eqb value t = false.
Proof. intros Hne. apply String.eqb_neq. congruence. Qed.

(** X8. The token [setCSRFCookie] issues on a request without cookie, from
    the 32 random bytes, has 64 characters, and a later request that
    carries the cookie is verified with this token and with no other. *)
Theorem issued_token_verifies
    (NODE_ENV : option string) (randomBytes : list ascii) :
  List.length randomBytes = 32%nat ->
  exists cookie,
    setCSRFCookie None NODE_ENV randomBytes = Some cookie
    /\ cookie_name cookie = "csrf_token"
    /\ String.length (cookie_value cookie) = 64%nat
    /\ verifyCSRFToken (Some (cookie_value cookie)) (cookie_value cookie) = true
    /\ forall token, token <> cookie_value cookie ->
         verifyCSRFToken (Some (cookie_value cookie)) token = false.
Proof.
  intros Hlen. eexists. split; [reflexivity|]. cbn [cookie_name cookie_value].
  split; [reflexivity|].
  assert (H64 : String.length (generateCSRFToken randomBytes) = 64%nat)
    by (unfold generateCSRFToken; rewrite length_hex, Hlen; reflexivity).
  split; [exact H64|]. unfold verifyCSRFToken. split.
  - destruct (String.eqb_spec (generateCSRFToken randomBytes) "") as [E|_].
    + rewrite E in H64. discriminate.
    + apply String.eqb_refl.
  - intros token Hne. destruct (String.eqb token ""); [reflexivity|].
    now apply eqb_refl_false.
Qed.

Lemma issued_token_verifies_witness :
  exists cookie,
    setCSRFCookie None (Some "production") (repeat "a"%char 32) = Some cookie
    /\ cookie_name cookie = "csrf_token"
    /\ String.length (cookie_value cookie) = 64%nat
    /\ verifyCSRFToken (Some (cookie_value cookie)) (cookie_value cookie) = true
    /\ forall token, token <> cookie_value cookie ->
         verifyCSRFToken (Some (cookie_value cookie)) token = false.
Proof.
  apply (issued_token_verifies (Some "production") (repeat "a"%char 32)).
  reflexivity.
Defined.

Example hex_bytes : hex [ascii_of_nat 0; ascii_of_nat 171; ascii_of_nat 255] = "00abff".
Proof. reflexivity. Qed.

Example setCSRFCookie_keeps_cookie :
  setCSRFCookie (Some "t") None (repeat "a"%char 32) = None.
Proof. reflexivity. Qed.

(** * Further properties of [lib/database/postgresql.ts] *)

Section AnyDriverMore.

Context {P K : Type} `{Pg P K}.

Lemma autoConnect_connected (c : PostgreSQLConnector P K) k :
  client c = Some k -> autoConnect c = (Returned tt, c).
Proof. intros Hc. unfold autoConnect, pg_isConnected. now rewrite Hc. Qed.

Lemma clientQuery_connected (c : PostgreSQLConnector P K) k text params :
  client c = Some k ->
  clientQuery text params c
  = (fst (client_query k text params (pool c)),
     {| pool := snd (client_query k text params (pool c));
        client := Some k |}).
Proof.
  intros Hc. unfold clientQuery, withPool. rewrite Hc.
  destruct (client_query k text params (pool c)). reflexivity.
Qed.

(** X9. On a connected connector [executeQuery] does not connect again
    and sends the SQL as it is.  A result with rows is returned with the
    names of its fields as columns, in their order; a result without rows
    becomes the one row [{affectedRows: rowCount}] without columns; a
    rejection is thrown as a [QueryError] whose message is "Query execution
    failed: " and the message of the rejection.  In each case the connector
    keeps its client. *)
Theorem executeQuery_connected
    (c : PostgreSQLConnector P K) (k : K) (text : string) :
  client c = Some k ->
  let answer := client_query k text [] (pool c) in
  pg_executeQuery text c
  = (match fst answer with
     | Returned result =>
         Returned match pg_rows result with
                  | Some rws => {| columns := pg_fields result; rows := rws |}
                  | None => {| columns := [];
                               rows := [[("affectedRows", pg_rowCount result)]] |}
                  end
     | Threw e => Threw (QueryError ("Query execution failed: " ++ messageOf e))
     end,
     {| pool := snd answer; client := Some k |}).
Proof.
  intros Hc answer. subst answer.
  unfold pg_executeQuery, bind. rewrite (autoConnect_connected c k Hc).
  unfold tryCatch, bind. rewrite (clientQuery_connected c k text [] Hc).
  destruct (client_query k text [] (pool c)) as [[result|e] p]; cbn [fst snd].
  - destruct (pg_rows result); reflexivity.
  - reflexivity.
Qed.

(** X10. On a connector without client [executeQuery] and [getSchema]
    connect first.  When [pool.connect()] rejects, they throw the
    [DatabaseError] of [connect], "Failed to connect to PostgreSQL: ...",
    not an error of their own, and run no query; when it resolves, they go
    on as on the connector with the new client, which they leave
    connected. *)
Theorem auto_connect (c : PostgreSQLConnector P K) (text : string) :
  client c = None ->
  match pool_connect (pool c) with
  | (Threw e, p) =>
      let failure :=
        DatabaseError ("Failed to connect to PostgreSQL: " ++ messageOf e) in
      pg_executeQuery text c = (Threw failure, {| pool := p; client := None |})
      /\ pg_getSchema c = (Threw failure, {| pool := p; client := None |})
  | (Returned k, p) =>
      let connected := {| pool := p; client := Some k |} in
      pg_executeQuery text c = pg_executeQuery text connected
      /\ pg_getSchema c = pg_getSchema connected
      /\ client (snd (pg_executeQuery text c)) = Some k
      /\ client (snd (pg_getSchema c)) = Some k
  end.
Proof.
  intros Hc.
  destruct (pool_connect (pool c)) as [[k|e] p] eqn:Ep; cbv zeta.
  - assert (He : pg_executeQuery text c
                 = pg_executeQuery text {| pool := p; client := Some k |}).
    { unfold pg_executeQuery, bind, autoConnect, pg_isConnected, pg_connect.
      rewrite Hc, Ep. reflexivity. }
    assert (Hs : pg_getSchema c = pg_getSchema {| pool := p; client := Some k |}).
    { unfold pg_getSchema, bind, autoConnect, pg_isConnected, pg_connect.
      rewrite Hc, Ep. reflexivity. }
    rewrite He, Hs. repeat split.
    + now apply pg_executeQuery_client.
    + now apply pg_getSchema_client.
  - unfold pg_executeQuery, pg_getSchema, bind, autoConnect, pg_isConnected,
      pg_connect.
    rewrite Hc, Ep. split; reflexivity.
Qed.

Lemma readTable_name row (c c' : PostgreSQLConnector P K) t :
  readTable row c = (Returned t, c') ->
  tbl_name t = asText (field "table_name" row).
Proof.
  unfold readTable, bind.
  destruct (clientQuery columnsQuery [field "table_name" row] c) as [[r|e] c1];
    [|discriminate].
  destruct (pg_rows r); [|discriminate].
  unfold ret. intros E. injection E as <- _. reflexivity.
Qed.

Lemma readTables_names tableRows (c c' : PostgreSQLConnector P K) ts :
  readTables tableRows c = (Returned ts, c') ->
  map tbl_name ts = map (fun row => asText (field "table_name" row)) tableRows.
Proof.
  revert c c' ts. induction tableRows as [|row rest IH]; intros c c' ts;
    cbn [readTables].
  - unfold ret. intros E. injection E as <- _. reflexivity.
  - unfold bind.
    destruct (readTable row c) as [[t|e] c1] eqn:Et; [|discriminate].
    destruct (readTables rest c1) as [[ts'|e] c2] eqn:Er; [|discriminate].
    unfold ret. intros E. injection E as <- _. cbn [map].
    now rewrite (readTable_name _ _ _ _ Et), (IH _ _ _ Er).
Qed.

(** X11. A schema that [getSchema] returns on a connected connector has
    one table for each row of the answer to the catalog query, in the order
    of the rows, named by the row's [table_name]. *)
Theorem getSchema_tables
    (c c' : PostgreSQLConnector P K) (k : K) (schema : DatabaseSchema) :
  client c = Some k ->
  pg_getSchema c = (Returned schema, c') ->
  exists result tableRows,
    fst (client_query k tablesQuery [] (pool c)) = Returned result
    /\ pg_rows result = Some tableRows
    /\ map tbl_name (tables schema)
       = map (fun row => asText (field "table_name" row)) tableRows.
Proof.
  intros Hc. unfold pg_getSchema, bind.
  rewrite (autoConnect_connected c k Hc). unfold tryCatch, bind.
  rewrite (clientQuery_connected c k tablesQuery [] Hc).
  destruct (client_query k tablesQuery [] (pool c)) as [[result|e] p];
    cbn [fst snd]; [|discriminate].
  destruct (pg_rows result) as [tableRows|] eqn:Erows; [|discriminate].
  destruct (readTables tableRows _) as [[ts|e] c2] eqn:Er; [|discriminate].
  unfold ret. intros E. injection E as <- _.
  exists result, tableRows. split; [reflexivity|]. split; [exact Erows|].
  cbn [tables]. eapply readTables_names, Er.
Qed.

(** X12. Whatever goes wrong while [getSchema] reads the catalog on a
    connected connector, the catalog query or the column query of any
    table, it throws a [DatabaseError] whose message starts with "Failed to
    get schema: ", and the connector keeps its client. *)
Theorem getSchema_failure
    (c c' : PostgreSQLConnector P K) (k : K) (e : Thrown) :
  client c = Some k ->
  pg_getSchema c = (Threw e, c') ->
  (exists m, e = DatabaseError ("Failed to get schema: " ++ m))
  /\ client c' = Some k.
Proof.
  intros Hc Hrun. split.
  - revert Hrun. unfold pg_getSchema, bind.
    rewrite (autoConnect_connected c k Hc). unfold tryCatch, bind, throw, ret.
    destruct (clientQuery tablesQuery [] c) as [[result|e1] c1].
    + destruct (pg_rows result) as [tableRows|].
      * destruct (readTables tableRows c1) as [[ts|e2] c2]; [discriminate|].
        intros E. injection E as <- _. now eexists.
      * intros E. injection E as <- _. now eexists.
    + intros E. injection E as <- _. now eexists.
  - pose proof (pg_getSchema_client c k Hc) as Hk.
    rewrite Hrun in Hk. exact Hk.
Qed.

(** X13. [createDatabaseConnector] reports a missing or empty
    [DATABASE_URL] before it looks at [DATABASE_TYPE]; with a URL, it
    returns a connector exactly for the type "postgresql" in any case of
    letters, the default when [DATABASE_TYPE] is unset or empty; and the
    connector it returns is on a pool of that URL and not connected. *)
Theorem createDatabaseConnector_outcome (DATABASE_TYPE DATABASE_URL : option string) :
  let databaseType :=
    match DATABASE_TYPE with
    | Some t => if String.eqb t "" then "postgresql" else t
    | None => "postgresql"
    end in
  ((DATABASE_URL = None \/ DATABASE_URL = Some "") ->
   createDatabaseConnector (P := P) (K := K) DATABASE_TYPE DATABASE_URL
   = Threw (newError "DATABASE_URL environment variable is required"))
  /\ (forall url, DATABASE_URL = Some url -> url <> "" ->
      createDatabaseConnector (P := P) (K := K) DATABASE_TYPE DATABASE_URL
      = if String.eqb (toLowerCase databaseType) "postgresql"
        then Returned {| pool := Pool url; client := None |}
        else Threw (newError ("Unsupported database type: " ++ databaseType)))
  /\ (forall connector,
        createDatabaseConnector DATABASE_TYPE DATABASE_URL = Returned connector ->
        pg_isConnected (connector : PostgreSQLConnector P K) = false).
Proof.
  intros databaseType. subst databaseType. unfold createDatabaseConnector.
  split; [|split].
  - intros [->| ->]; reflexivity.
  - intros url -> Hne.
    destruct (String.eqb_spec url ""); [contradiction | reflexivity].
  - intros connector.
    destruct DATABASE_URL as [url|]; [|discriminate].
    destruct (String.eqb url ""); [discriminate|].
    destruct (String.eqb (toLowerCase _) "postgresql"); [|discriminate].
    intros E. injection E as <-. reflexivity.
Qed.

End AnyDriverMore.

Lemma executeQuery_connected_witness :
  pg_executeQuery "SELECT * FROM users"
    {| pool := scripted None (Returned usersResult); client := Some tt |}
  = (Returned {| columns := ["id"; "name"];
                 rows := [[("id", JNum 1); ("name", JStr "John")]] |},
     {| pool := scripted None (Returned usersResult); client := Some tt |}).
Proof.
  exact (executeQuery_connected
           {| pool := scripted None (Returned usersResult); client := Some tt |}
           tt "SELECT * FROM users" eq_refl).
Defined.

Lemma auto_connect_witness :
  let failure :=
    DatabaseError ("Failed to connect to PostgreSQL: "
                   ++ messageOf (newError "Connection refused")) in
  let c : PostgreSQLConnector ScriptedPool unit :=
    fresh (scripted (Some (newError "Connection refused"))
                    (Returned usersResult)) in
  pg_executeQuery "SELECT 1" c = (Threw failure, {| pool := pool c; client := None |})
  /\ pg_getSchema c = (Threw failure, {| pool := pool c; client := None |}).
Proof.
  exact (auto_connect
           (fresh (scripted (Some (newError "Connection refused"))
                            (Returned usersResult)))
           "SELECT 1" eq_refl).
Defined.


Lemma getSchema_tables_witness :
  exists result tableRows,
    fst (client_query tt tablesQuery [] twoTables) = Returned result
    /\ pg_rows result = Some tableRows
    /\ map tbl_name
         [ {| tbl_name := "users";
              tbl_columns := [{| col_name := "id"; dataType := "integer" |}] |};
           {| tbl_name := "orders";
              tbl_columns := [{| col_name := "id"; dataType := "integer" |}] |} ]
       = map (fun row => asText (field "table_name" row)) tableRows.
Proof.
  apply (getSchema_tables
           {| pool := twoTables; client := Some tt |}
           {| pool := twoTables; client := Some tt |} tt
           {| tables :=
                [ {| tbl_name := "users";
                     tbl_columns := [{| col_name := "id";
                                        dataType := "integer" |}] |};
                  {| tbl_name := "orders";
                     tbl_columns := [{| col_name := "id";
                                        dataType := "integer" |}] |} ] |}).
  - reflexivity.
  - vm_compute. reflexivity.
Defined.

Lemma getSchema_failure_witness :
  (exists m,
      DatabaseError ("Failed to get schema: "
                     ++ "permission denied for schema information_schema")
      = DatabaseError ("Failed to get schema: " ++ m))
  /\ client {| pool := denied; client := Some tt |} = Some tt.
Proof.
  apply (getSchema_failure
           {| pool := denied; client := Some tt |}
           {| pool := denied; client := Some tt |} tt).
  - reflexivity.
  - vm_compute. reflexivity.
Defined.

(** * Further properties of [lib/openai.ts] *)

(** ** The generative path of the SQL synthesizer *)

(** X14. For a query outside the enrollment override,
    [generateSQLFromNaturalLanguage] calls the completion service exactly
    once, with the formatted schema, today's date and the query.  A
    rejection is thrown again as an [Error] "OpenAI API error: " with the
    message of the rejection; an answer without content gives the empty
    SQL string, not an error. *)
Theorem generateSQL_generative
    (env : Env) (query : string) (schema : DatabaseSchema) (log : Calls) :
  isEnrollmentTimeQuery query = false ->
  let run := generateSQLFromNaturalLanguage env query schema log in
  snd run = (log ++ [sqlPrompt env query schema])%list
  /\ (forall e,
        completions env (List.length log) (sqlPrompt env query schema)
        = Rejects e ->
        fst run = Threw (newError ("OpenAI API error: " ++ messageOf e)))
  /\ (completions env (List.length log) (sqlPrompt env query schema)
      = Content None ->
      fst run = Returned "")
  /\ (forall text,
        completions env (List.length log) (sqlPrompt env query schema)
        = Content (Some text) ->
        exists generated, fst run = Returned generated).
Proof.
  intros Hq run. subst run.
  unfold generateSQLFromNaturalLanguage. rewrite Hq.
  unfold tryCatch, bind, create, sqlPrompt, throw, ret.
  destruct (completions env (List.length log) _) as [e|[text|]]; cbn [fst snd].
  - split; [reflexivity|]. split; [|split]; try discriminate.
    intros e' E. now injection E as <-.
  - split; [reflexivity|]. split; [|split]; try discriminate.
    intros t _. now eexists.
  - split; [reflexivity|]. split; [|split]; try discriminate. reflexivity.
Qed.

Lemma generateSQL_generative_witness :
  let env := exampleEnv (Rejects (newError "API connection failed"))
                        parsesNothing in
  let run := generateSQLFromNaturalLanguage env "Show me all active users"
               {| tables := [] |} [] in
  snd run = ([] ++ [sqlPrompt env "Show me all active users" {| tables := [] |}])%list
  /\ (forall e,
        completions env (List.length (@nil CompletionRequest))
          (sqlPrompt env "Show me all active users" {| tables := [] |})
        = Rejects e ->
        fst run = Threw (newError ("OpenAI API error: " ++ messageOf e)))
  /\ (completions env (List.length (@nil CompletionRequest))
        (sqlPrompt env "Show me all active users" {| tables := [] |})
      = Content None ->
      fst run = Returned "")
  /\ (forall text,
        completions env (List.length (@nil CompletionRequest))
          (sqlPrompt env "Show me all active users" {| tables := [] |})
        = Content (Some text) ->
        exists generated, fst run = Returned generated).
Proof.
  exact (generateSQL_generative
           (exampleEnv (Rejects (newError "API connection failed"))
                       parsesNothing)
           "Show me all active users" {| tables := [] |} [] eq_refl).
Defined.

Lemma length_trimStart s : (String.length (trimStart s) <= String.length s)%nat.
Proof.
  induction s as [|c s IH]; cbn [trimStart String.length]; [lia|].
  destruct (isSpace c); cbn [String.length]; lia.
Qed.

Lemma trimStart_fixed_head c s :
  trimStart (String c s) = String c s -> isSpace c = false.
Proof.
  cbn [trimStart]. destruct (isSpace c); [|reflexivity].
  intros E. pose proof (length_trimStart s) as Hl.
  rewrite E in Hl. cbn [String.length] in Hl. lia.
Qed.

Lemma eqb_length s t : String.eqb s t = true -> String.length s = String.length t.
Proof. intros E. apply String.eqb_eq in E. now subst. Qed.

Lemma stripSuffix_app a suf : stripSuffix suf (a ++ suf) = Some a.
Proof.
  induction a as [|c a IH].
  - cbn [append]. destruct suf; cbn [stripSuffix]; now rewrite String.eqb_refl.
  - cbn [append stripSuffix].
    destruct (String.eqb (String c (a ++ suf)) suf) eqn:E.
    + apply eqb_length in E. cbn [String.length] in E.
      rewrite length_append in E. lia.
    + now rewrite IH.
Qed.

(** What is left of a fenced answer. *)
Lemma unwrap_fence body :
  trimStart body = body -> trimEnd body = body ->
  stripFenceEnd (stripFenceStart (trim ("```sql" ++ nl ++ body ++ nl ++ "```")))
  = body.
Proof.
  intros Hs He.
  assert (Htrim : trim ("```sql" ++ nl ++ body ++ nl ++ "```")
                  = "```sql" ++ nl ++ body ++ nl ++ "```").
  { unfold trim.
    replace (trimStart ("```sql" ++ nl ++ body ++ nl ++ "```"))
      with ("```sql" ++ nl ++ body ++ nl ++ "```") by reflexivity.
    replace ("```sql" ++ nl ++ body ++ nl ++ "```")
      with (("```sql" ++ nl ++ body ++ nl ++ "``") ++ "`")
      by (rewrite !append_assoc; reflexivity).
    apply trimEnd_keep. reflexivity. }
  rewrite Htrim. unfold stripFenceStart.
  replace (substring 0 6 ("```sql" ++ nl ++ body ++ nl ++ "```"))
    with "```sql" by (destruct body; reflexivity).
  cbn [toLowerCase lowerChar]. rewrite String.eqb_refl.
  replace (String.length ("```sql" ++ nl ++ body ++ nl ++ "```") - 6)%nat
    with (String.length (nl ++ body ++ nl ++ "```"))
    by (rewrite (length_append "```sql"); cbn [String.length]; lia).
  change 6%nat with (String.length "```sql") at 1.
  rewrite substring_skip_app.
  destruct body as [|c body'].
  - reflexivity.
  - apply trimStart_fixed_head in Hs.
    assert (Hstart : trimStart (nl ++ String c body' ++ nl ++ "```")
                     = String c body' ++ nl ++ "```").
    { unfold nl at 1. cbn [append trimStart].
      change (isSpace (ascii_of_nat 10)) with true. cbv iota.
      now rewrite Hs. }
    rewrite Hstart. unfold stripFenceEnd.
    rewrite <- append_assoc, stripSuffix_app.
    rewrite trimEnd_drop by reflexivity. exact He.
Qed.

(** X15. When the service answers with SQL inside a code fence, "```sql",
    a line break, the SQL, a line break, "```",
    [generateSQLFromNaturalLanguage] returns the SQL and nothing of the
    fence, for every SQL text without white space at its ends. *)
Theorem generateSQL_unwraps_fence
    (env : Env) (query : string) (schema : DatabaseSchema) (log : Calls)
    (body : string) :
  isEnrollmentTimeQuery query = false ->
  trimStart body = body -> trimEnd body = body ->
  completions env (List.length log) (sqlPrompt env query schema)
  = Content (Some ("```sql" ++ nl ++ body ++ nl ++ "```")) ->
  fst (generateSQLFromNaturalLanguage env query schema log) = Returned body.
Proof.
  intros Hq Hs He Hanswer.
  unfold generateSQLFromNaturalLanguage. rewrite Hq.
  unfold tryCatch, bind, create, ret. unfold sqlPrompt in Hanswer.
  rewrite Hanswer. cbn [fst]. now rewrite unwrap_fence.
Qed.

Lemma generateSQL_unwraps_fence_witness :
  fst (generateSQLFromNaturalLanguage
         (exampleEnv (Content (Some ("```sql" ++ nl
                                     ++ "SELECT * FROM users WHERE active = true"
                                     ++ nl ++ "```"))) parsesNothing)
         "Show me all active users" {| tables := [] |} [])
  = Returned "SELECT * FROM users WHERE active = true".
Proof.
  apply (generateSQL_unwraps_fence
           (exampleEnv (Content (Some ("```sql" ++ nl
                                       ++ "SELECT * FROM users WHERE active = true"
                                       ++ nl ++ "```"))) parsesNothing)
           "Show me all active users" {| tables := [] |} []
           "SELECT * FROM users WHERE active = true"); reflexivity.
Defined.

(** ** The schema in the prompt *)

Lemma prefix_self_app sub rest : String.prefix sub (sub ++ rest) = true.
Proof.
  induction sub as [|c sub IH]; cbn [append String.prefix].
  - destruct rest; reflexivity.
  - destruct (ascii_dec c c); [exact IH | contradiction].
Qed.

Lemma includes_prefix s sub : String.prefix sub s = true -> includes s sub = true.
Proof. intros Hp. destruct s; cbn [includes]; now rewrite Hp. Qed.

Lemma includes_middle before sub after :
  includes (before ++ sub ++ after) sub = true.
Proof.
  induction before as [|c before IH]; cbn [append].
  - apply includes_prefix, prefix_self_app.
  - cbn [includes]. rewrite IH. apply orb_true_r.
Qed.

Lemma concat_member sepText (l : list string) x :
  In x l -> exists before after, String.concat sepText l = before ++ x ++ after.
Proof.
  induction l as [|y l IH]; [intros []|].
  intros [->|Hin].
  - destruct l as [|z l].
    + exists "", "". cbn. clear. induction x; cbn; [reflexivity | now f_equal].
    + exists "", (sepText ++ String.concat sepText (z :: l)). reflexivity.
  - destruct (IH Hin) as (before & after & E).
    destruct l as [|z l]; [destruct Hin|].
    exists (y ++ sepText ++ before), after.
    cbn [String.concat]. cbn [String.concat] in E. rewrite E.
    now rewrite !append_assoc.
Qed.

(** X16. The schema text of the prompt names every table and every column
    of the catalog: for each table it contains "Table: " and the name, and
    for each of its columns the column's name followed by its type in
    parentheses. *)
Theorem formatSchemaForPrompt_complete
    (schema : DatabaseSchema) (t : TableSchema) (col : ColumnSchema) :
  In t (tables schema) -> In col (tbl_columns t) ->
  includes (formatSchemaForPrompt schema) ("Table: " ++ tbl_name t) = true
  /\ includes (formatSchemaForPrompt schema)
              (col_name col ++ " (" ++ dataType col ++ ")") = true.
Proof.
  intros Ht Hc. unfold formatSchemaForPrompt, join.
  set (render := fun table : TableSchema => _).
  destruct (concat_member (nl ++ nl) (map render (tables schema)) (render t)
              (in_map render _ _ Ht)) as (before & after & E).
  rewrite E. subst render. cbv beta.
  set (column := fun c : ColumnSchema => _).
  destruct (concat_member ", " (map column (tbl_columns t)) (column col)
              (in_map column _ _ Hc)) as (b' & a' & E').
  split.
  - replace (before ++ ("Table: " ++ tbl_name t ++ nl ++ "Columns: "
                        ++ String.concat ", " (map column (tbl_columns t)))
             ++ after)
      with (before ++ ("Table: " ++ tbl_name t)
            ++ ((nl ++ "Columns: "
                 ++ String.concat ", " (map column (tbl_columns t))) ++ after))
      by (rewrite !append_assoc; reflexivity).
    apply includes_middle.
  - rewrite E'. subst column. cbv beta.
    replace (before ++ ("Table: " ++ tbl_name t ++ nl ++ "Columns: "
                        ++ b' ++ (col_name col ++ " (" ++ dataType col ++ ")")
                        ++ a') ++ after)
      with ((before ++ "Table: " ++ tbl_name t ++ nl ++ "Columns: " ++ b')
            ++ (col_name col ++ " (" ++ dataType col ++ ")") ++ (a' ++ after))
      by (rewrite !append_assoc; reflexivity).
    apply includes_middle.
Qed.

Lemma formatSchemaForPrompt_complete_witness :
  let users := {| tbl_name := "users";
                  tbl_columns := [{| col_name := "id"; dataType := "integer" |};
                                  {| col_name := "email"; dataType := "text" |}] |} in
  let schema := {| tables := [users; {| tbl_name := "orders"; tbl_columns := [] |}] |} in
  includes (formatSchemaForPrompt schema) ("Table: " ++ "users") = true
  /\ includes (formatSchemaForPrompt schema) ("email" ++ " (" ++ "text" ++ ")") = true.
Proof.
  apply (formatSchemaForPrompt_complete
           {| tables := [{| tbl_name := "users";
                            tbl_columns := [{| col_name := "id"; dataType := "integer" |};
                                            {| col_name := "email"; dataType := "text" |}] |};
                         {| tbl_name := "orders"; tbl_columns := [] |}] |}
           {| tbl_name := "users";
              tbl_columns := [{| col_name := "id"; dataType := "integer" |};
                              {| col_name := "email"; dataType := "text" |}] |}
           {| col_name := "email"; dataType := "text" |}).
  - simpl. left. reflexivity.
  - simpl. right. left. reflexivity.
Defined.

Example formatSchemaForPrompt_users :
  formatSchemaForPrompt
    {| tables := [{| tbl_name := "users";
                     tbl_columns := [{| col_name := "id"; dataType := "integer" |};
                                     {| col_name := "email"; dataType := "text" |}] |};
                  {| tbl_name := "orders"; tbl_columns := [] |}] |}
  = "Table: users" ++ nl ++ "Columns: id (integer), email (text)" ++ nl ++ nl
    ++ "Table: orders" ++ nl ++ "Columns: ".
Proof. reflexivity. Qed.

(** ** What the visualization synthesizer sends and accepts *)

(** X17. For a result with rows [generateVisualizationFromData] calls the
    completion service exactly once, whatever the answer.  The request
    carries all rows of a result of at most 50 rows and the first 20 rows of
    a larger one, never more than 50, with the count of all rows. *)
Theorem visualization_request
    (env : Env) (query : string) (qr : QueryResult) (log : Calls) :
  rows qr <> [] ->
  exists sample,
    snd (generateVisualizationFromData env query qr log)
    = (log ++ [VisualizationPrompt query (List.length (rows qr))
                 (join ", " (columns qr))
                 (Nat.ltb 50 (List.length (rows qr))) sample])%list
    /\ ((List.length (rows qr) <= 50)%nat -> sample = rows qr)
    /\ ((50 < List.length (rows qr))%nat ->
        sample = firstn 20 (rows qr) /\ List.length sample = 20%nat)
    /\ (List.length sample <= 50)%nat.
Proof.
  intros Hne. unfold generateVisualizationFromData.
  destruct (Nat.eqb (List.length (rows qr)) 0) eqn:E0;
    [apply length_zero_nil in E0; contradiction|].
  eexists. split.
  - unfold tryCatch, bind, create, ret.
    destruct (completions env _ _) as [e|[c|]]; [reflexivity| |reflexivity].
    destruct (String.eqb c ""); [reflexivity|].
    destruct (JSON_parse env c) as [spec|]; [|reflexivity].
    destruct (mapVisualizationSpec spec (rows qr)) as [[g|]|]; reflexivity.
  - destruct (Nat.ltb_spec 50 (List.length (rows qr))) as [Hbig|Hsmall].
    + split; [lia|]. split.
      * intros _. split; [reflexivity|]. rewrite length_firstn. lia.
      * rewrite length_firstn. lia.
    + split; [reflexivity|]. split; [lia | exact Hsmall].
Qed.

Lemma visualization_request_witness :
  exists sample,
    snd (generateVisualizationFromData (exampleEnv (Content None) parsesNothing)
           "chart" oneColumn [])
    = ([] ++ [VisualizationPrompt "chart" (List.length (rows oneColumn))
                (join ", " (columns oneColumn))
                (Nat.ltb 50 (List.length (rows oneColumn))) sample])%list
    /\ ((List.length (rows oneColumn) <= 50)%nat -> sample = rows oneColumn)
    /\ ((50 < List.length (rows oneColumn))%nat ->
        sample = firstn 20 (rows oneColumn) /\ List.length sample = 20%nat)
    /\ (List.length sample <= 50)%nat.
Proof.
  apply (visualization_request (exampleEnv (Content None) parsesNothing)
           "chart" oneColumn []).
  discriminate.
Defined.

Lemma mapVisualizationSpec_usable spec rws g :
  mapVisualizationSpec spec rws = Some (Some g) ->
  exists chart data,
    getProp spec "chartType" = Some chart /\ truthy chart = true
    /\ getProp spec "data" = Some data /\ truthy data = true
    /\ chartType g = chart /\ processedData g = data.
Proof.
  unfold mapVisualizationSpec.
  destruct (getProp spec "chartType") as [chart|] eqn:Ec; [|discriminate].
  assert (Hd : exists data, getProp spec "data" = Some data)
    by (destruct spec; try discriminate; now eexists).
  destruct Hd as (data & Ed). rewrite Ed.
  destruct (truthy chart) eqn:Tc; [|discriminate].
  destruct (truthy data) eqn:Td; [|discriminate].
  cbn [negb orb]. intros E. injection E as <-.
  exists chart, data. repeat split; assumption.
Qed.

Lemma usable_mapVisualizationSpec spec rws chart data :
  getProp spec "chartType" = Some chart -> truthy chart = true ->
  getProp spec "data" = Some data -> truthy data = true ->
  exists g, mapVisualizationSpec spec rws = Some (Some g)
            /\ chartType g = chart /\ processedData g = data.
Proof.
  intros Ec Tc Ed Td. unfold mapVisualizationSpec.
  rewrite Ec, Ed, Tc, Td. cbn [negb orb]. eexists. repeat split.
Qed.

(** X18. For a result with rows, [generateVisualizationFromData] returns
    the chart of the completion service exactly when the answer is usable:
    a non-empty text that [JSON.parse] accepts and that has a truthy
    [chartType] and a truthy [data], which become the chart type and the
    processed data.  On every other answer, a rejection, no content, text
    that does not parse, [null], a value without these two fields, it
    returns the fallback chart. *)
Theorem visualization_answer
    (env : Env) (query : string) (qr : QueryResult) (log : Calls) :
  rows qr <> [] ->
  let answer := completions env (List.length log) (visualizationPrompt query qr) in
  let result := fst (generateVisualizationFromData env query qr log) in
  (forall spec, usableAnswer env answer spec ->
     exists g, result = Returned g
               /\ mapVisualizationSpec spec (rows qr) = Some (Some g)
               /\ getProp spec "chartType" = Some (chartType g)
               /\ getProp spec "data" = Some (processedData g))
  /\ ((forall spec, ~ usableAnswer env answer spec) ->
      result = Returned (fallbackVisualization qr)).
Proof.
  intros Hne answer result. subst answer result.
  unfold generateVisualizationFromData, visualizationPrompt.
  destruct (Nat.eqb (List.length (rows qr)) 0) eqn:E0;
    [apply length_zero_nil in E0; contradiction|].
  unfold tryCatch, bind, create, ret.
  set (prompt := VisualizationPrompt _ _ _ _ _).
  destruct (completions env (List.length log) prompt) as [e|[c|]] eqn:Ea.
  - split; [|reflexivity].
    intros spec (text & Ht & _). discriminate.
  - split.
    + intros spec (text & Ht & Hne' & Hp & chart & data & Ec & Tc & Ed & Td).
      injection Ht as ->.
      destruct (String.eqb_spec text ""); [contradiction|].
      rewrite Hp.
      destruct (usable_mapVisualizationSpec spec (rows qr) chart data
                  Ec Tc Ed Td) as (g & Hm & Hc & Hd).
      rewrite Hm. exists g. cbn [fst]. repeat split; congruence.
    + intros Hnone.
      destruct (String.eqb_spec c ""); [reflexivity|].
      destruct (JSON_parse env c) as [spec|] eqn:Ep; [|reflexivity].
      destruct (mapVisualizationSpec spec (rows qr)) as [[g|]|] eqn:Em;
        try reflexivity.
      exfalso. apply (Hnone spec).
      destruct (mapVisualizationSpec_usable _ _ _ Em)
        as (chart & data & Ec & Tc & Ed & Td & _).
      exists c. repeat split; try assumption. now exists chart, data.
  - split; [|reflexivity].
    intros spec (text & Ht & _). discriminate.
Qed.

Lemma visualization_answer_witness :
  fst (generateVisualizationFromData
         (exampleEnv (Content (Some "not json")) parsesNothing)
         "chart" oneColumn [])
  = Returned (fallbackVisualization oneColumn).
Proof.
  apply (visualization_answer
           (exampleEnv (Content (Some "not json")) parsesNothing)
           "chart" oneColumn []).
  - discriminate.
  - intros spec (text & _ & _ & Hp & _). discriminate Hp.
Defined.




(** ** The classifier and the override, whatever surrounds the keywords *)

Lemma toLowerCase_app a b : toLowerCase (a ++ b) = toLowerCase a ++ toLowerCase b.
Proof.
  induction a as [|c a IH]; cbn [append toLowerCase]; [reflexivity|].
  now rewrite IH.
Qed.

Lemma prefix_extend k s rest :
  String.prefix k s = true -> String.prefix k (s ++ rest) = true.
Proof.
  revert s. induction k as [|x k IH]; intros s.
  - intros _. destruct (s ++ rest); reflexivity.
  - destruct s as [|y s]; cbn [append String.prefix]; [discriminate|].
    destruct (ascii_dec x y); [apply IH | discriminate].
Qed.

Lemma includes_extend_r s k rest :
  includes s k = true -> includes (s ++ rest) k = true.
Proof.
  induction s as [|c s IH]; cbn [includes]; intros Hi.
  - apply orb_true_iff in Hi as [Hp|Hf]; [|discriminate].
    apply includes_prefix. now apply (prefix_extend k "" rest).
  - apply orb_true_iff in Hi as [Hp|Hr].
    + apply includes_prefix. now apply (prefix_extend k (String c s) rest).
    + cbn [append includes]. rewrite (IH Hr). apply orb_true_r.
Qed.

Lemma includes_extend_l before s k :
  includes s k = true -> includes (before ++ s) k = true.
Proof.
  intros Hi. induction before as [|c before IH]; cbn [append]; [exact Hi|].
  cbn [includes]. rewrite IH. apply orb_true_r.
Qed.

(** X20. A query that [determineResultType] takes for a graph is taken
    for a graph inside any longer query: text before or after the keyword
    never turns a graph into a table. *)
Theorem determineResultType_context (before query after : string) :
  determineResultType query = graph ->
  determineResultType (before ++ query ++ after) = graph.
Proof.
  unfold determineResultType. rewrite !firstMatch_graph.
  intros (keyword & Hin & Hk). exists keyword. split; [exact Hin|].
  rewrite !toLowerCase_app.
  now apply includes_extend_l, includes_extend_r.
Qed.

Lemma determineResultType_context_witness :
  determineResultType ("Please " ++ "plot sales" ++ " for 2023") = graph.
Proof.
  apply (determineResultType_context "Please " "plot sales" " for 2023").
  reflexivity.
Defined.

(** X21. The SQL of [handleEnrollmentQuery] depends on the query only
    through three facts: whether it contains "month", "quarter" and
    "active".  Nothing else of the user's text reaches the SQL. *)
Theorem enrollment_sql_independent (env : Env) (query query' : string) :
  includes (toLowerCase query) "month" = includes (toLowerCase query') "month" ->
  includes (toLowerCase query) "quarter"
  = includes (toLowerCase query') "quarter" ->
  includes (toLowerCase query) "active"
  = includes (toLowerCase query') "active" ->
  handleEnrollmentQuery env query = handleEnrollmentQuery env query'.
Proof.
  intros Hm Hq Ha. rewrite !handleEnrollmentQuery_sql. now rewrite Hm, Hq, Ha.
Qed.

Lemma enrollment_sql_independent_witness :
  handleEnrollmentQuery (exampleEnv (Content None) parsesNothing)
    "enrollments last week"
  = handleEnrollmentQuery (exampleEnv (Content None) parsesNothing)
      "enrollments last week'; DROP TABLE enrollments; --".
Proof.
  apply (enrollment_sql_independent (exampleEnv (Content None) parsesNothing)
           "enrollments last week"
           "enrollments last week'; DROP TABLE enrollments; --");
    reflexivity.
Defined.

(** * Further properties of [lib/query-processor.ts] *)

Section AnyConnectorMore.

Context {C : Type} `{DatabaseConnector C}.






End AnyConnectorMore.


(** ** The completion calls of a request *)

Lemma generateSQL_calls env q schema l :
  exists made,
    snd (generateSQLFromNaturalLanguage env q schema l) = (l ++ made)%list
    /\ (List.length made <= 1)%nat
    /\ (isEnrollmentTimeQuery q = true -> made = []).
Proof.
  unfold generateSQLFromNaturalLanguage.
  destruct (isEnrollmentTimeQuery q).
  - exists []. cbn. rewrite app_nil_r. repeat split. lia.
  - unfold tryCatch, bind, create, throw, ret.
    destruct (completions env _ _) as [e|c]; eexists [_]; cbn [snd];
      repeat split; try discriminate; cbn; lia.
Qed.

Lemma generateVisualization_calls env q qr l :
  exists made,
    snd (generateVisualizationFromData env q qr l) = (l ++ made)%list
    /\ (List.length made <= 1)%nat.
Proof.
  unfold generateVisualizationFromData.
  destruct (Nat.eqb (List.length (rows qr)) 0).
  - exists []. cbn. rewrite app_nil_r. split; [reflexivity | lia].
  - unfold tryCatch, bind, create, ret. eexists [_].
    split; [|cbn; lia].
    destruct (completions env _ _) as [e|[c|]]; [reflexivity| |reflexivity].
    destruct (String.eqb c ""); [reflexivity|].
    destruct (JSON_parse env c) as [spec|]; [|reflexivity].
    destruct (mapVisualizationSpec spec (rows qr)) as [[g|]|]; reflexivity.
Qed.

Section CallsOfARequest.

Context {C : Type} `{DatabaseConnector C}.

Lemma release_calls (w1 : World C) : calls (snd (release w1)) = calls w1.
Proof.
  unfold release, bind, checkConnected, onDb, ret. cbn [db calls dbCalls].
  destruct (isConnected (db w1)); cbn [db calls dbCalls]; [|reflexivity].
  destruct (disconnect (db w1)) as [[u|e] c]; reflexivity.
Qed.

Lemma finally_calls (m : M (World C) QueryResponse) (w : World C) :
  calls (snd (tryFinally m release w)) = calls (snd (m w)).
Proof.
  unfold tryFinally. destruct (m w) as [r w1]. cbn [snd].
  pose proof (release_calls w1) as Hr.
  destruct (release w1) as [[u|e] w2]; exact Hr.
Qed.

(** X25. A request calls the completion service at most twice, once for
    the SQL and once for the chart; a request for a table calls it at most
    once; and a request for a table under the enrollment override does not
    call it at all. *)
Theorem processQuery_completion_calls
    (env : Env) (request : QueryRequest) (w : World C) :
  exists made,
    calls (snd (processQuery env request w)) = (calls w ++ made)%list
    /\ (List.length made <= 2)%nat
    /\ (determineResultType (query request) = table ->
        (List.length made <= 1)%nat)
    /\ (isEnrollmentTimeQuery (query request) = true ->
        determineResultType (query request) = table ->
        made = []).
Proof.
  unfold processQuery. rewrite finally_calls.
  unfold tryCatch, pipeline, bind, recover, ret, onDb, onOpenAI.
  assert (Hnone : exists made : Calls,
             calls w = (calls w ++ made)%list /\ (List.length made <= 2)%nat
             /\ (determineResultType (query request) = table ->
                 (List.length made <= 1)%nat)
             /\ (isEnrollmentTimeQuery (query request) = true ->
                 determineResultType (query request) = table -> made = [])).
  { exists []. rewrite app_nil_r. cbn. repeat split; lia. }
  destruct (connect (db w)) as [[u|e1] c1]; cbn [db calls dbCalls snd];
    [|exact Hnone].
  destruct (getSchema c1) as [[schema|e2] c2]; cbn [db calls dbCalls snd];
    [|exact Hnone].
  destruct (generateSQL_calls env (query request) schema (calls w))
    as (made1 & Hs & Hl1 & Ho).
  destruct (generateSQLFromNaturalLanguage env (query request) schema (calls w))
    as [[text|e3] l]; cbn [db calls dbCalls snd] in *.
  2:{ exists made1. split; [exact Hs|]. repeat split; auto; lia. }
  assert (Hone : exists made : Calls,
             l = (calls w ++ made)%list /\ (List.length made <= 2)%nat
             /\ (determineResultType (query request) = table ->
                 (List.length made <= 1)%nat)
             /\ (isEnrollmentTimeQuery (query request) = true ->
                 determineResultType (query request) = table -> made = []))
    by (exists made1; split; [exact Hs|]; repeat split; auto; lia).
  destruct (executeQuery text c2) as [[qr|e4] c3]; cbn [db calls dbCalls snd];
    [|exact Hone].
  destruct (determineResultType (query request)) eqn:Et;
    cbn [db calls dbCalls snd]; [exact Hone|].
  destruct (generateVisualization_calls env (query request) qr l)
    as (made2 & Hv & Hl2).
  assert (Htwo : exists made : Calls,
             (l ++ made2)%list = (calls w ++ made)%list
             /\ (List.length made <= 2)%nat
             /\ (graph = table -> (List.length made <= 1)%nat)
             /\ (isEnrollmentTimeQuery (query request) = true ->
                 graph = table -> made = [])).
  { exists (made1 ++ made2)%list. rewrite Hs, app_assoc. split; [reflexivity|].
    rewrite length_app. repeat split; try discriminate. lia. }
  destruct (generateVisualizationFromData env (query request) qr l)
    as [[g|e5] l']; cbn [db calls dbCalls snd] in *; subst l'; exact Htwo.
Qed.

End CallsOfARequest.

(** * Properties of [app/api/query/route.ts] *)

Section AnyConnectorRoute.

Context {C : Type} `{DatabaseConnector C}.

(** What the [try] block of [processQuery] returns has no message. *)
Lemma pipeline_message env q (w w1 : World C) response :
  pipeline env q w = (Returned response, w1) -> message response = None.
Proof.
  unfold pipeline, bind, onDb, onOpenAI. cbn [db calls dbCalls].
  destruct (connect (db w)) as [[u|e] c1]; [|discriminate].
  cbn [db calls dbCalls].
  destruct (getSchema c1) as [[schema|e] c2]; [|discriminate].
  cbn [db calls dbCalls].
  destruct (generateSQLFromNaturalLanguage env q schema (calls w))
    as [[text|e] l]; [|discriminate].
  cbn [db calls dbCalls].
  destruct (executeQuery text c2) as [[qr|e] c3]; [|discriminate].
  cbn [db calls dbCalls].
  destruct (determineResultType q); cbn [db calls dbCalls ret].
  - intros E. injection E as <- _. reflexivity.
  - destruct (generateVisualizationFromData env q qr l) as [[g|e] l'];
      cbn [db calls dbCalls]; [|discriminate].
    intros E. injection E as <- _. reflexivity.
Qed.

(** With the [catch] block, the message is absent or a sanitized one. *)
Lemma recovered_message (m : M (World C) QueryResponse) (w w1 : World C)
    response :
  (forall r w', m w = (Returned r, w') -> message r = None) ->
  tryCatch m recover w = (Returned response, w1) ->
  message response = None
  \/ exists text, response = errorResponse text /\ In text safeMessages.
Proof.
  intros Hm. unfold tryCatch, recover, ret.
  destruct (m w) as [[r|e] w'] eqn:E.
  - intros E'. injection E' as <- _. left. exact (Hm r w' eq_refl).
  - intros E'. injection E' as <- _. right.
    eexists. split; [reflexivity | apply sanitize_safe].
Qed.

Lemma finally_returned (m : M (World C) QueryResponse) (w w2 : World C)
    response :
  tryFinally m release w = (Returned response, w2) ->
  exists w1, m w = (Returned response, w1).
Proof.
  unfold tryFinally. destruct (m w) as [r w1].
  destruct (release w1) as [[u|e] w']; [|discriminate].
  intros E. injection E as -> _. now exists w1.
Qed.

Lemma release_dbCalls (w1 : World C) :
  exists closing,
    dbCalls (snd (release w1)) = (dbCalls w1 ++ CallIsConnected :: closing)%list
    /\ (closing = [] \/ closing = [CallDisconnect]).
Proof.
  unfold release, bind, checkConnected, onDb, ret. cbn [db calls dbCalls].
  destruct (isConnected (db w1)); cbn [db calls dbCalls].
  - exists [CallDisconnect]. split; [|now right].
    destruct (disconnect (db w1)) as [[u|e] c]; cbn [snd dbCalls];
      rewrite <- app_assoc; reflexivity.
  - exists []. split; [reflexivity | now left].
Qed.

(** A [query] that is no string: the request ends in [determineResultType],
    before any SQL is generated or run. *)
Lemma processQueryOf_not_a_string env q dataSource (w : World C) :
  (forall text, q <> JStr text) ->
  calls (snd (processQueryOf env q dataSource w)) = calls w
  /\ (forall text,
        In (CallExecuteQuery text)
           (dbCalls (snd (processQueryOf env q dataSource w))) ->
        In (CallExecuteQuery text) (dbCalls w))
  /\ (forall response,
        fst (processQueryOf env q dataSource w) = Returned response ->
        exists text,
          response = errorResponse text /\ In text safeMessages
          /\ (forall u c1 schema c2,
                connect (db w) = (Returned u, c1) ->
                getSchema c1 = (Returned schema, c2) ->
                text = "Database query failed")).
Proof.
  intros Hq.
  assert (Hs : sanitize (notAString q) = "Database query failed")
    by (destruct q; reflexivity).
  set (m := (onDb CallConnect connect ;;;
             schema <- onDb CallGetSchema getSchema ;;
             throw (notAString q)) : M (World C) QueryResponse).
  assert (Hof : processQueryOf env q dataSource
                = tryFinally (tryCatch m recover) release).
  { destruct q; try reflexivity. now destruct (Hq s). }
  rewrite Hof. clear Hof.
  assert (Hm : exists e w1 reached,
             m w = (Threw e, w1) /\ calls w1 = calls w
             /\ dbCalls w1 = (dbCalls w ++ reached)%list
             /\ (forall text, ~ In (CallExecuteQuery text) reached)
             /\ (forall u c1 schema c2,
                   connect (db w) = (Returned u, c1) ->
                   getSchema c1 = (Returned schema, c2) ->
                   e = notAString q)).
  { unfold m, bind, onDb, throw. cbn [db calls dbCalls].
    destruct (connect (db w)) as [[u|e] c1] eqn:H1; cbn [db calls dbCalls].
    - destruct (getSchema c1) as [[schema|e] c2] eqn:H2;
        cbn [db calls dbCalls].
      + eexists (notAString q), _, [CallConnect; CallGetSchema].
        split; [reflexivity|]. split; [reflexivity|].
        split; [cbn [dbCalls]; now rewrite <- app_assoc|].
        split; [|reflexivity].
        intros text [E|[E|[]]]; discriminate E.
      + eexists e, _, [CallConnect; CallGetSchema].
        split; [reflexivity|]. split; [reflexivity|].
        split; [cbn [dbCalls]; now rewrite <- app_assoc|].
        split; [intros text [E|[E|[]]]; discriminate E|].
        intros u' c1' schema c2' E1 E2. injection E1 as _ <-.
        rewrite H2 in E2. discriminate E2.
    - eexists e, _, [CallConnect].
      split; [reflexivity|]. split; [reflexivity|].
      split; [reflexivity|].
      split; [intros text [E|[]]; discriminate E|].
      intros u c1' schema c2 E1. discriminate E1. }
  destruct Hm as (e & w1 & reached & Hrun & Hcalls & Hdb & Hno & Hwhy).
  unfold tryFinally, tryCatch. rewrite Hrun. unfold recover, ret.
  pose proof (release_calls w1) as Hrc.
  destruct (release_dbCalls w1) as (closing & Hrd & Hclosing).
  destruct (release w1) as [[u|e'] w2]; cbn [fst snd] in *.
  - split; [congruence|]. split.
    + intros text Hin. rewrite Hrd, Hdb, <- app_assoc in Hin.
      apply in_app_or in Hin as [Hin|Hin]; [exact Hin|].
      apply in_app_or in Hin as [Hin|Hin]; [now destruct (Hno text)|].
      destruct Hin as [E|Hin]; [discriminate E|].
      destruct Hclosing as [->| ->]; [destruct Hin|].
      destruct Hin as [E|[]]. discriminate E.
    + intros response E. injection E as <-.
      exists (sanitize e). split; [reflexivity|].
      split; [apply sanitize_safe|].
      intros u' c1 schema c2 E1 E2.
      rewrite (Hwhy u' c1 schema c2 E1 E2). exact Hs.
  - split; [congruence|]. split.
    + intros text Hin. rewrite Hrd, Hdb, <- app_assoc in Hin.
      apply in_app_or in Hin as [Hin|Hin]; [exact Hin|].
      apply in_app_or in Hin as [Hin|Hin]; [now destruct (Hno text)|].
      destruct Hin as [E|Hin]; [discriminate E|].
      destruct Hclosing as [->| ->]; [destruct Hin|].
      destruct Hin as [E|[]]. discriminate E.
    + intros response E. discriminate E.
Qed.

(** [processQuery] on any [query] is a [try] with the [catch] and the
    [finally] block of [processQuery]. *)
Lemma processQueryOf_blocks env q dataSource :
  exists m : M (World C) QueryResponse,
    processQueryOf env q dataSource = tryFinally (tryCatch m recover) release
    /\ (forall w r w', m w = (Returned r, w') -> message r = None).
Proof.
  set (m := (onDb CallConnect connect ;;;
             schema <- onDb CallGetSchema getSchema ;;
             throw (notAString q)) : M (World C) QueryResponse).
  assert (Hm : forall w r w', m w = (Returned r, w') -> message r = None).
  { intros w r w'. unfold m, bind, onDb, throw. cbn [db calls dbCalls].
    destruct (connect (db w)) as [[u|e] c1]; cbn [db calls dbCalls];
      [|discriminate].
    destruct (getSchema c1) as [[schema|e] c2]; discriminate. }
  destruct q; try (exists m; split; [reflexivity | exact Hm]).
  eexists. split; [reflexivity|].
  intros w r w'. apply pipeline_message.
Qed.

End AnyConnectorRoute.

Section AnyDriverRoute.

Context {P K : Type} `{Pg P K}.

(** X26. [POST] answers 403 unless the request has a non-empty
    [x-csrf-token] header and a [csrf_token] cookie of the same value.  A
    request it refuses gets the message "Invalid or missing CSRF token";
    its body is not read and no connector is created.  Every other request
    is answered with 200 or 500. *)
Theorem POST_csrf
    (env : Env) (DATABASE_TYPE DATABASE_URL : option string) (log : Calls)
    (request : NextRequest) :
  let answer :=
    POST (P := P) (K := K) env DATABASE_TYPE DATABASE_URL log request in
  (status (fst answer) <> 403%nat
   <-> exists token,
         token <> "" /\ csrfHeader request = Some token
         /\ csrfCookie request = Some token)
  /\ (status (fst answer) = 403%nat -> answer = (forbidden, None))
  /\ (status (fst answer) = 200%nat \/ status (fst answer) = 403%nat
      \/ status (fst answer) = 500%nat).
Proof.
  cbv zeta. unfold POST, verifyCSRFToken.
  destruct (csrfHeader request) as [token|].
  2:{ split; [|split; [reflexivity | right; left; reflexivity]].
      split; [intros Hn; now destruct Hn | intros (t & _ & E & _); discriminate E]. }
  destruct (String.eqb_spec token "") as [->|Hne]; cbn [orb].
  { split; [|split; [reflexivity | right; left; reflexivity]].
    split; [intros Hn; now destruct Hn|].
    intros (t & Ht & E & _). injection E as <-. now destruct Ht. }
  destruct (csrfCookie request) as [value|]; cbn [negb].
  2:{ split; [|split; [reflexivity | right; left; reflexivity]].
      split; [intros Hn; now destruct Hn | intros (t & _ & _ & E); discriminate E]. }
  destruct (String.eqb_spec value token) as [->|Hd]; cbn [negb].
  2:{ split; [|split; [reflexivity | right; left; reflexivity]].
      split; [intros Hn; now destruct Hn|].
      intros (t & _ & E1 & E2). injection E1 as <-. injection E2 as <-.
      now destruct Hd. }
  assert (Hpass : exists t, t <> "" /\ Some token = Some t /\ Some token = Some t)
    by now exists token.
  destruct (json request) as [body|error]; cbn [fst status serverError].
  2:{ split; [split; [intros _; exact Hpass | discriminate]|].
      split; [discriminate | right; right; reflexivity]. }
  destruct (getProp body "query") as [q|]; cbn [fst status serverError].
  2:{ split; [split; [intros _; exact Hpass | discriminate]|].
      split; [discriminate | right; right; reflexivity]. }
  destruct (getProp body "data_source") as [d|]; cbn [fst status serverError].
  2:{ split; [split; [intros _; exact Hpass | discriminate]|].
      split; [discriminate | right; right; reflexivity]. }
  destruct (createDatabaseConnector DATABASE_TYPE DATABASE_URL)
    as [connector|error]; cbn [fst status serverError].
  2:{ split; [split; [intros _; exact Hpass | discriminate]|].
      split; [discriminate | right; right; reflexivity]. }
  destruct (processQueryOf env q d _) as [[result|error] w'];
    cbn [fst status serverError].
  - split; [split; [intros _; exact Hpass | discriminate]|].
    split; [discriminate | left; reflexivity].
  - split; [split; [intros _; exact Hpass | discriminate]|].
    split; [discriminate | right; right; reflexivity].
Qed.


(** X28. A 200 of [POST] carries a response of [processQuery] that has
    no message, or the error response with one of the six sanitized
    messages: no text of an error reaches the client with a 200. *)
Theorem POST_ok
    (env : Env) (DATABASE_TYPE DATABASE_URL : option string) (log : Calls)
    (request : NextRequest) :
  let answer :=
    POST (P := P) (K := K) env DATABASE_TYPE DATABASE_URL log request in
  status (fst answer) = 200%nat ->
  exists result,
    payload (fst answer) = ResultBody result
    /\ (message result = None
        \/ exists text, result = errorResponse text /\ In text safeMessages).
Proof.
  cbv zeta. unfold POST.
  destruct (csrfHeader request) as [token|]; [|discriminate].
  destruct (String.eqb token "" || _)%bool; [discriminate|].
  destruct (json request) as [body|error]; [|discriminate].
  destruct (getProp body "query") as [q|]; [|discriminate].
  destruct (getProp body "data_source") as [d|]; [|discriminate].
  destruct (createDatabaseConnector DATABASE_TYPE DATABASE_URL)
    as [connector|error]; [|discriminate].
  destruct (processQueryOf_blocks (C := PostgreSQLConnector P K) env q d)
    as (m & Hof & Hm).
  rewrite Hof.
  set (w := {| db := connector; calls := log; dbCalls := [] |}).
  destruct (tryFinally (tryCatch m recover) release w)
    as [[result|error] w'] eqn:Erun; cbn [fst status payload]; [|discriminate].
  intros _. exists result. split; [reflexivity|].
  destruct (finally_returned _ w w' result Erun) as (w1 & Hrun).
  exact (recovered_message m w w1 result (Hm w) Hrun).
Qed.

(** X29. A request that passes the CSRF check with a [query] that is no
    string, a number or a missing field for one, never reaches the
    completion service or [executeQuery]; when it is answered with 200, the
    answer is the error response, and after a successful [connect] and
    [getSchema] its message is "Database query failed". *)
Theorem POST_query_not_a_string
    (env : Env) (DATABASE_TYPE DATABASE_URL : option string) (log : Calls)
    (request : NextRequest) (body q : JS) :
  json request = Returned body ->
  getProp body "query" = Some q ->
  (forall text, q <> JStr text) ->
  let answer :=
    POST (P := P) (K := K) env DATABASE_TYPE DATABASE_URL log request in
  (forall w, snd answer = Some w ->
     calls w = log /\ forall text, ~ In (CallExecuteQuery text) (dbCalls w))
  /\ (status (fst answer) = 200%nat ->
      exists text,
        payload (fst answer) = ResultBody (errorResponse text)
        /\ In text safeMessages
        /\ (forall connector u c1 schema c2,
              createDatabaseConnector (P := P) (K := K)
                DATABASE_TYPE DATABASE_URL = Returned connector ->
              connect connector = (Returned u, c1) ->
              getSchema c1 = (Returned schema, c2) ->
              text = "Database query failed")).
Proof.
  intros Hj Hq Hn. cbv zeta. unfold POST. rewrite Hj, Hq.
  destruct (csrfHeader request) as [token|];
    [|split; [intros w E; discriminate E | discriminate]].
  destruct (String.eqb token "" || _)%bool;
    [split; [intros w E; discriminate E | discriminate]|].
  destruct (getProp body "data_source") as [d|];
    [|split; [intros w E; discriminate E | discriminate]].
  destruct (createDatabaseConnector DATABASE_TYPE DATABASE_URL)
    as [connector|error];
    [|split; [intros w E; discriminate E | discriminate]].
  set (w := {| db := connector; calls := log; dbCalls := [] |}).
  destruct (processQueryOf_not_a_string (C := PostgreSQLConnector P K)
              env q d w Hn) as (Hcalls & Hexec & Hret).
  destruct (processQueryOf env q d w) as [[result|error] w'];
    cbn [fst snd status payload] in *.
  - split.
    + intros w0 E. injection E as <-. split; [exact Hcalls|].
      intros text Hin. exact (Hexec text Hin).
    + intros _. destruct (Hret result eq_refl) as (text & -> & Hsafe & Hwhy).
      exists text. split; [reflexivity|]. split; [exact Hsafe|].
      intros connector' u c1 schema c2 E. injection E as <-.
      apply Hwhy.
  - split; [|discriminate].
    intros w0 E. injection E as <-. split; [exact Hcalls|].
    intros text Hin. exact (Hexec text Hin).
Qed.

End AnyDriverRoute.


Example POST_without_database_url :
  fst (POST (P := ScriptedPool) (K := unit) usersEnv None None []
         (requestWith (Returned (JObj [("query", JStr "Show me all users")]))))
  = {| status := 500;
       payload := ErrorBody "DATABASE_URL environment variable is required" |}.
Proof. reflexivity. Qed.

Lemma POST_ok_witness :
  exists result,
    payload (fst (POST (P := ScriptedPool) (K := unit) usersEnv None
                    (Some "postgresql://localhost/db") []
                    (requestWith
                       (Returned (JObj [("query",
                                         JStr "Show me all users")])))))
    = ResultBody result
    /\ (message result = None
        \/ exists text, result = errorResponse text /\ In text safeMessages).
Proof.
  apply (POST_ok (P := ScriptedPool) (K := unit) usersEnv None
           (Some "postgresql://localhost/db") []
           (requestWith (Returned (JObj [("query", JStr "Show me all users")])))).
  vm_compute. reflexivity.
Defined.

Lemma POST_query_not_a_string_witness :
  exists text,
    payload (fst (POST (P := ScriptedPool) (K := unit) usersEnv None
                    (Some "postgresql://localhost/db") []
                    (requestWith (Returned (JObj [("query", JNum 5)])))))
    = ResultBody (errorResponse text)
    /\ text = "Database query failed".
Proof.
  destruct (POST_query_not_a_string (P := ScriptedPool) (K := unit) usersEnv
              None (Some "postgresql://localhost/db") []
              (requestWith (Returned (JObj [("query", JNum 5)])))
              (JObj [("query", JNum 5)]) (JNum 5) eq_refl eq_refl
              ltac:(discriminate))
    as (_ & Hok).
  destruct (Hok eq_refl) as (text & Hbody & _ & Hwhy).
  exists text. split; [exact Hbody|].
  eapply Hwhy; vm_compute; reflexivity.
Defined.

Example POST_users :
  fst (POST (P := ScriptedPool) (K := unit) usersEnv None
         (Some "postgresql://localhost/db") []
         (requestWith (Returned (JObj [("query", JStr "Show me all users")]))))
  = {| status := 200;
       payload := ResultBody
                    {| resultType := table;
                       data := TableData {| tr_columns := []; tr_rows := [] |};
                       sql := Some "SELECT * FROM users";
                       message := None;
                       debug := Some {| executedQuery := "SELECT * FROM users";
                                        rowCount := 0 |} |} |}.
Proof. vm_compute. reflexivity. Qed.

Example POST_without_token :
  POST (P := ScriptedPool) (K := unit) usersEnv None
    (Some "postgresql://localhost/db") []
    {| csrfHeader := None; csrfCookie := Some "5f2a9c";
       json := Returned (JObj [("query", JStr "Show me all users")]) |}
  = (forbidden, None).
Proof. reflexivity. Qed.
